(** * ldap_driver.c: the read-only LDAP record store of bind-dyndb-ldap

    A shallow embedding of [src/ldap_driver.c].  Every C function of the
    driver becomes a computation in a small state-and-fault monad over a
    [world]: the heap of Store and Node objects, the outcomes of the fallible
    library calls still to come, the two collaborators (the Record-Set
    Resolver and the instance manager) and a log of the resource events the
    driver causes.  Output parameters ([T **p]) are modelled by passing the
    current content of the slot and returning its final content. *)

From Stdlib Require Import ZArith List Lia Bool String Ascii.
From stdpp Require Import base gmap list strings.

Local Open Scope Z_scope.

(** ** Result codes and plain data *)

(** [isc_result_t]: the codes the driver names, and any other code a
    collaborator may hand back. *)
Inductive isc_result_t : Set :=
  | ISC_R_SUCCESS
  | ISC_R_NOMEMORY
  | ISC_R_NOTFOUND
  | ISC_R_EXISTS
  | ISC_R_NOTIMPLEMENTED
  | DNS_R_PARTIALMATCH
  | DNS_R_NXRRSET
  | DNS_R_CNAME
  | ISC_R_other (code : N).

#[global] Instance isc_result_eq_dec : EqDecision isc_result_t.
Proof. solve_decision. Defined.

Definition is_success (r : isc_result_t) : bool :=
  match r with ISC_R_SUCCESS => true | _ => false end.

Definition loc := positive.
Definition isc_mem_t := positive.
Definition ldap_db_t := positive.
Definition dns_name_t := string.
Definition isc_stdtime_t := Z.
Definition isc_boolean_t := bool.
Definition ISC_TRUE : isc_boolean_t := true.
Definition ISC_FALSE : isc_boolean_t := false.

Definition dns_rdatatype_t := Z.
Definition dns_rdatatype_cname : dns_rdatatype_t := 5.
Definition dns_rdatatype_any : dns_rdatatype_t := 255.

Inductive dns_dbtype_t : Set := dns_dbtype_zone | dns_dbtype_cache | dns_dbtype_stub.
Inductive dns_rdataclass_t : Set := dns_rdataclass_in | dns_rdataclass_other (c : N).

#[global] Instance dns_dbtype_eq_dec : EqDecision dns_dbtype_t.
Proof. solve_decision. Defined.
#[global] Instance dns_rdataclass_eq_dec : EqDecision dns_rdataclass_t.
Proof. solve_decision. Defined.

(** One record-list: a type-tagged list of records with a shared TTL. *)
Record dns_rdatalist_t : Set := {
  rdl_type : dns_rdatatype_t;
  rdl_ttl : Z;
  rdl_rdata : list string
}.

(** [ldapdb_rdatalist_t] is an ISC_LIST of record-lists. *)
Definition ldapdb_rdatalist_t := list dns_rdatalist_t.

(** A caller's [dns_rdataset_t]: disassociated, or bound to a record-list. *)
Definition dns_rdataset_t := option dns_rdatalist_t.

(** ISC_MAGIC packs four characters into one word. *)
Definition ISC_MAGIC (a b c d : ascii) : Z :=
  Z.lor (Z.lor (Z.lor (Z.shiftl (Z.of_N (N_of_ascii a)) 24)
                      (Z.shiftl (Z.of_N (N_of_ascii b)) 16))
               (Z.shiftl (Z.of_N (N_of_ascii c)) 8))
        (Z.of_N (N_of_ascii d)).

Definition LDAPDB_MAGIC : Z := ISC_MAGIC "L" "D" "P" "D".
Definition LDAPDBNODE_MAGIC : Z := ISC_MAGIC "L" "D" "P" "N".
Definition DNS_DB_MAGIC : Z := ISC_MAGIC "D" "N" "S" "D".

(** ** The two object kinds *)

Record dns_db_t : Set := {
  magic : Z;
  impmagic : Z;
  attributes : Z;
  rdclass : dns_rdataclass_t;
  origin : dns_name_t;
  mctx : isc_mem_t
}.

Record ldapdb_t : Set := {
  common : dns_db_t;
  refs : N;
  ldap_db : ldap_db_t
}.

Record ldapdbnode_t : Set := {
  node_magic : Z;
  node_refs : N;
  node_owner : dns_name_t;
  node_rdatalist : ldapdb_rdatalist_t
}.

(** A heap block: fresh from [isc_mem_get] and not yet a finished object,
    or a Store, or a Node. *)
Inductive object : Set :=
  | ObjRaw
  | ObjDb (d : ldapdb_t)
  | ObjNode (n : ldapdbnode_t).

(** The version token.  [ldapdb_version] is the address of the static
    [dummy]; any other non-null version pointer is [addr_other]. *)
Inductive vaddr : Set := addr_dummy | addr_other (a : positive).

#[global] Instance vaddr_eq_dec : EqDecision vaddr.
Proof. solve_decision. Defined.

Definition dns_dbversion_ptr := option vaddr.
Definition ldapdb_version : dns_dbversion_ptr := Some addr_dummy.

(** ** The world *)

(** Resource events, as an instrumented allocator would record them. *)
Inductive event : Set :=
  | EvMemGet (m : isc_mem_t) (p : loc)
  | EvMemPut (m : isc_mem_t) (p : loc)
  | EvMemAttach (m : isc_mem_t)
  | EvMemDetach (m : isc_mem_t)
  | EvNameDup (n : dns_name_t)
  | EvNameFree (n : dns_name_t)
  | EvMutexInit
  | EvDestroyLock
  | EvRdatalistGet (n : dns_name_t)
  | EvRdatalistDestroy (l : ldapdb_rdatalist_t).

Record world : Type := {
  (** live heap blocks *)
  w_heap : gmap loc object;
  (** results of the fallible library calls still to come, in call order;
      once the list is used up every call succeeds *)
  w_plan : list isc_result_t;
  (** the Record-Set Resolver: for a name, the result code and the
      record-lists it leaves in the caller's variable *)
  w_ldap : dns_name_t -> isc_result_t * ldapdb_rdatalist_t;
  (** the instance manager: for an instance name, the result code and the
      handle it stores *)
  w_manager : string -> isc_result_t * ldap_db_t;
  (** resource events so far, newest first *)
  w_log : list event
}.

Definition with_heap (h : gmap loc object) (w : world) : world :=
  {| w_heap := h; w_plan := w_plan w; w_ldap := w_ldap w;
     w_manager := w_manager w; w_log := w_log w |}.

Definition with_plan (pl : list isc_result_t) (w : world) : world :=
  {| w_heap := w_heap w; w_plan := pl; w_ldap := w_ldap w;
     w_manager := w_manager w; w_log := w_log w |}.

Definition with_log (lg : list event) (w : world) : world :=
  {| w_heap := w_heap w; w_plan := w_plan w; w_ldap := w_ldap w;
     w_manager := w_manager w; w_log := lg |}.

(** ** The monad: state plus abnormal termination *)

Inductive fault : Set :=
  | AssertionFailed   (* a REQUIRE or INSIST did not hold *)
  | InvalidPointer    (* a pointer that is indeterminate, null or dangling was followed *)
  | FatalError.       (* fatal_error() *)

(** A run either returns a value and the world it leaves, or stops at a
    fault; [Stop f w] keeps the world [w] in which the run stopped, so
    that what was done before the fault can be read off it. *)
Inductive outcome (A : Type) : Type :=
  | Ok (a : A) (w : world)
  | Stop (f : fault) (w : world).
Arguments Ok {A} a w.
Arguments Stop {A} f w.

Definition M (A : Type) : Type := world -> outcome A.

Definition ret {A} (a : A) : M A := fun w => Ok a w.

Definition bind {A B} (c : M A) (k : A -> M B) : M B :=
  fun w => match c w with
           | Ok a w' => k a w'
           | Stop f w' => Stop f w'
           end.

Definition stop {A} (f : fault) : M A := fun w => Stop f w.

Declare Scope prog_scope.
Delimit Scope prog_scope with prog.
Notation "'let*' x ':=' c 'in' k" := (bind c (fun x => k))
  (at level 10, x name, c at level 100, k at level 200) : prog_scope.
Notation "'let*' ' p ':=' c 'in' k" := (bind c (fun x => match x with p => k end))
  (at level 10, p pattern, c at level 100, k at level 200) : prog_scope.
Notation "c1 ';;;' c2" := (bind c1 (fun _ => c2))
  (at level 100, c2 at level 200, right associativity) : prog_scope.
Local Open Scope prog_scope.

Definition get_world : M world := fun w => Ok w w.
Definition emit (e : event) : M unit := fun w => Ok tt (with_log (e :: w_log w) w).
Definition store (p : loc) (o : object) : M unit :=
  fun w => Ok tt (with_heap (<[p := o]> (w_heap w)) w).
Definition release (p : loc) : M unit :=
  fun w => Ok tt (with_heap (delete p (w_heap w)) w).

(** Modelled from the spec: REQUIRE and INSIST, the assertion macros of
    isc/util.h, which is not under src/.  Section 7 of the spec classes a
    violated precondition (wrong version token, wrong class or type at
    creation, the wildcard type at [find]) as a fatal assertion that is not
    caught anywhere in the core; of these checks the wildcard one is an
    INSIST in the driver and the others are REQUIREs.  A check that does
    not hold ends the computation. *)
Definition REQUIRE (c : bool) : M unit :=
  if c then ret tt else stop AssertionFailed.

Definition INSIST (c : bool) : M unit := REQUIRE c.

(** The result of the next fallible library call. *)
Definition next_result : M isc_result_t :=
  fun w => match w_plan w with
           | [] => Ok ISC_R_SUCCESS w
           | r :: rest => Ok r (with_plan rest w)
           end.

(** ** Library primitives

    The ISC and DNS library calls the driver makes.  Each fallible call
    takes its result from [next_result]; each acquisition and release is
    logged. *)

Definition isc_mem_get (m : isc_mem_t) : M (option loc) :=
  let* r := next_result in
  if is_success r then
    let* w := get_world in
    let p := fresh (dom (w_heap w)) in
    store p ObjRaw ;;;
    emit (EvMemGet m p) ;;;
    ret (Some p)
  else ret None.

Definition isc_mem_put (m : isc_mem_t) (p : loc) : M unit :=
  release p ;;; emit (EvMemPut m p).

Definition isc_mem_attach (m : isc_mem_t) : M unit := emit (EvMemAttach m).

(** [isc_mem_putanddetach(&field, ptr, size)] reads the context out of
    [field]; a field that was never assigned holds no context. *)
Definition isc_mem_putanddetach (field : option isc_mem_t) (p : loc) : M unit :=
  match field with
  | None => stop InvalidPointer
  | Some m => release p ;;; emit (EvMemPut m p) ;;; emit (EvMemDetach m)
  end.

Definition dns_name_dup (source : dns_name_t) (m : isc_mem_t) : M isc_result_t :=
  let* r := next_result in
  if is_success r then emit (EvNameDup source) ;;; ret ISC_R_SUCCESS
  else ret r.

Definition dns_name_dupwithoffsets (source : dns_name_t) (m : isc_mem_t) : M isc_result_t :=
  dns_name_dup source m.

Definition dns_name_free (n : dns_name_t) (m : isc_mem_t) : M unit :=
  emit (EvNameFree n).

Definition isc_mutex_init : M isc_result_t :=
  let* r := next_result in
  if is_success r then emit EvMutexInit ;;; ret ISC_R_SUCCESS
  else ret r.

Definition DESTROYLOCK : M unit := emit EvDestroyLock.

Definition isc_refcount_init : M isc_result_t := next_result.

Definition object_refs (o : object) : option N :=
  match o with
  | ObjRaw => None
  | ObjDb d => Some (refs d)
  | ObjNode n => Some (node_refs n)
  end.

Definition object_set_refs (r : N) (o : object) : object :=
  match o with
  | ObjRaw => ObjRaw
  | ObjDb d => ObjDb {| common := common d; refs := r; ldap_db := ldap_db d |}
  | ObjNode n => ObjNode {| node_magic := node_magic n; node_refs := r;
                            node_owner := node_owner n; node_rdatalist := node_rdatalist n |}
  end.

(** Modelled from the spec: isc_refcount_increment and
    isc_refcount_decrement (isc/refcount.h, not under src/).  The spec has
    attach increment the reference count with no failure mode and detach
    decrement it; the count is a natural number, and the decrement hands
    the new value back. *)
Definition isc_refcount_increment (p : loc) : M unit :=
  fun w => match w_heap w !! p with
           | Some o =>
               match object_refs o with
               | Some r => Ok tt (with_heap (<[p := object_set_refs (r + 1) o]> (w_heap w)) w)
               | None => Stop InvalidPointer w
               end
           | None => Stop InvalidPointer w
           end.

Definition isc_refcount_decrement (p : loc) : M N :=
  fun w => match w_heap w !! p with
           | Some o =>
               match object_refs o with
               | Some r => Ok (N.pred r)
                             (with_heap (<[p := object_set_refs (N.pred r) o]> (w_heap w)) w)
               | None => Stop InvalidPointer w
               end
           | None => Stop InvalidPointer w
           end.

(** ** Collaborators *)

(** The Record-Set Resolver's query, [ldapdb_rdatalist_get(mctx, name, &rdatalist)]. *)
Definition ldapdb_rdatalist_get (m : isc_mem_t) (name : dns_name_t)
  : M (isc_result_t * ldapdb_rdatalist_t) :=
  let* w := get_world in
  emit (EvRdatalistGet name) ;;;
  ret (w_ldap w name).

Definition ldapdb_rdatalist_destroy (m : isc_mem_t) (l : ldapdb_rdatalist_t) : M unit :=
  emit (EvRdatalistDestroy l).

(** Modelled from the spec: ldapdb_rdatalist_findrdatatype (ldap_helper.c,
    not under src/).  The spec gives the Resolver
    [find_type(records-by-type, type) -> record-list | NotFound]: the search
    of the record-lists for an entry whose type equals the requested type.
    [None] stands for the NotFound result, which leaves the caller's
    pointer as it was. *)
Fixpoint ldapdb_rdatalist_findrdatatype (l : ldapdb_rdatalist_t) (rdtype : dns_rdatatype_t)
  : option dns_rdatalist_t :=
  match l with
  | [] => None
  | rdlist :: rest =>
      if rdl_type rdlist =? rdtype then Some rdlist
      else ldapdb_rdatalist_findrdatatype rest rdtype
  end.

(** [manager_get_ldap_db(argv[0], &ldapdb->ldap_db)]. *)
Definition manager_get_ldap_db (name : string) : M (isc_result_t * ldap_db_t) :=
  let* w := get_world in ret (w_manager w name).

(** ** Pointer validity and loads *)

Definition VALID_LDAPDB (db : option loc) : M bool :=
  fun w => Ok (match db with
               | Some p => match w_heap w !! p with
                           | Some (ObjDb d) => impmagic (common d) =? LDAPDB_MAGIC
                           | _ => false
                           end
               | None => false
               end) w.

Definition VALID_LDAPDBNODE (node : option loc) : M bool :=
  fun w => Ok (match node with
               | Some p => match w_heap w !! p with
                           | Some (ObjNode n) => node_magic n =? LDAPDBNODE_MAGIC
                           | _ => false
                           end
               | None => false
               end) w.

Definition load_db (db : option loc) : M ldapdb_t :=
  fun w => match db with
           | Some p => match w_heap w !! p with
                       | Some (ObjDb d) => Ok d w
                       | _ => Stop InvalidPointer w
                       end
           | None => Stop InvalidPointer w
           end.

Definition load_node (node : option loc) : M ldapdbnode_t :=
  fun w => match node with
           | Some p => match w_heap w !! p with
                       | Some (ObjNode n) => Ok n w
                       | _ => Stop InvalidPointer w
                       end
           | None => Stop InvalidPointer w
           end.

(** A pointer to an output slot: [None] is a null [T **], [Some s] a slot
    whose current content is [s]. *)
Definition slot (A : Type) := option (option A).

Definition slot_is_empty {A} (s : slot A) : bool :=
  match s with Some None => true | _ => false end.

(** CHECK(op) keeps the result of [op] and leaves for the function's
    [cleanup] label unless it is success; [ldapdbnode_create] spells the
    jump out as the failure branch. *)
Definition failed (result : isc_result_t) : bool := negb (is_success result).

(** Modelled from the spec: fatal_error (log.h, not under src/).  The
    spec has the load and dump entry points terminate the process with a
    fatal diagnostic. *)
Definition fatal_error {A} (msg : string) : M A := stop FatalError.

(** ** ldapdbnode_t functions *)

Definition ldapdbnode_create (m : isc_mem_t) (owner_name : dns_name_t) (nodep : slot loc)
  : M (isc_result_t * option loc) :=
  REQUIRE (slot_is_empty nodep) ;;;
  let* node := isc_mem_get m in
  match node with
  | None => ret (ISC_R_NOMEMORY, None)
  | Some p =>
      let* result := isc_refcount_init in
      if failed result then
        (* cleanup: *)
        isc_mem_put m p ;;; ret (result, None)
      else
        let* result := dns_name_dup owner_name m in
        if failed result then
          (* cleanup: *)
          isc_mem_put m p ;;; ret (result, None)
        else
          store p (ObjNode {| node_magic := LDAPDBNODE_MAGIC; node_refs := 1;
                              node_owner := owner_name; node_rdatalist := [] |}) ;;;
          ret (ISC_R_SUCCESS, Some p)
  end.

(** ** Store reference counting *)

Definition free_ldapdb (p : loc) (d : ldapdb_t) : M unit :=
  DESTROYLOCK ;;;
  dns_name_free (origin (common d)) (mctx (common d)) ;;;
  isc_mem_putanddetach (Some (mctx (common d))) p.

(** [attach(source, targetp)]; the value is the final [*targetp]. *)
Definition attach (source : option loc) : M (option loc) :=
  let* valid := VALID_LDAPDB source in
  REQUIRE valid ;;;
  match source with
  | None => stop InvalidPointer
  | Some p => isc_refcount_increment p ;;; ret source
  end.

(** [detach(dbp)], given the content of [*dbp]; the value is the final [*dbp]. *)
Definition detach (dbp : option loc) : M (option loc) :=
  let* valid := VALID_LDAPDB dbp in
  REQUIRE valid ;;;
  match dbp with
  | None => stop InvalidPointer
  | Some p =>
      let* r := isc_refcount_decrement p in
      (if (r =? 0)%N then
         let* d := load_db dbp in free_ldapdb p d
       else ret tt) ;;;
      ret None
  end.

Definition beginload (db : option loc) : M isc_result_t :=
  fatal_error "ldapdb: method beginload() should never be called".

Definition endload (db : option loc) : M isc_result_t :=
  fatal_error "ldapdb: method endload() should never be called".

Definition dump (db : option loc) (version : dns_dbversion_ptr) (filename : string)
  : M isc_result_t :=
  fatal_error "ldapdb: method dump() should never be called".

(** ** The single version *)

(** [currentversion(db, versionp)]; the value is the final [*versionp]. *)
Definition currentversion (db : option loc) (versionp : slot vaddr) : M dns_dbversion_ptr :=
  let* valid := VALID_LDAPDB db in
  REQUIRE valid ;;;
  REQUIRE (slot_is_empty versionp) ;;;
  ret ldapdb_version.

Definition newversion (db : option loc) (versionp : slot vaddr)
  : M (isc_result_t * dns_dbversion_ptr) :=
  let* valid := VALID_LDAPDB db in
  REQUIRE valid ;;;
  REQUIRE (slot_is_empty versionp) ;;;
  ret (ISC_R_SUCCESS, ldapdb_version).

Definition attachversion (db : option loc) (source : dns_dbversion_ptr) (targetp : slot vaddr)
  : M dns_dbversion_ptr :=
  let* valid := VALID_LDAPDB db in
  REQUIRE valid ;;;
  REQUIRE (bool_decide (source = ldapdb_version)) ;;;
  REQUIRE (slot_is_empty targetp) ;;;
  ret ldapdb_version.

Definition closeversion (db : option loc) (versionp : slot vaddr) (commit : isc_boolean_t)
  : M dns_dbversion_ptr :=
  let* valid := VALID_LDAPDB db in
  REQUIRE valid ;;;
  REQUIRE (bool_decide (versionp = Some ldapdb_version)) ;;;
  ret None.

(** ** Node reference counting *)

Definition attachnode (db : option loc) (source : option loc) : M (option loc) :=
  let* valid := VALID_LDAPDBNODE source in
  REQUIRE valid ;;;
  match source with
  | None => stop InvalidPointer
  | Some p => isc_refcount_increment p ;;; ret source
  end.

(** [detachnode(db, targetp)], given the content of [*targetp]; the value
    is the final [*targetp]. *)
Definition detachnode (db : option loc) (targetp : option loc) : M (option loc) :=
  let* valid := VALID_LDAPDBNODE targetp in
  REQUIRE valid ;;;
  match targetp with
  | None => stop InvalidPointer
  | Some p =>
      let* r := isc_refcount_decrement p in
      (if (r =? 0)%N then
         let* ldapdb := load_db db in
         let* node := load_node targetp in
         ldapdb_rdatalist_destroy (mctx (common ldapdb)) (node_rdatalist node) ;;;
         dns_name_free (node_owner node) (mctx (common ldapdb)) ;;;
         isc_mem_put (mctx (common ldapdb)) p
       else ret tt) ;;;
      ret None
  end.

(** [memcpy(&node->rdatalist, &rdatalist, sizeof(rdatalist))]. *)
Definition set_node_rdatalist (node : option loc) (l : ldapdb_rdatalist_t) : M unit :=
  let* n := load_node node in
  match node with
  | None => stop InvalidPointer
  | Some p => store p (ObjNode {| node_magic := node_magic n; node_refs := node_refs n;
                                  node_owner := node_owner n; node_rdatalist := l |})
  end.

(** ** Lookups *)

(** [findnode(db, name, create, nodep)], given the content of [*nodep];
    the value is the result code and the final [*nodep]. *)
Definition findnode (db : option loc) (name : dns_name_t) (create : isc_boolean_t)
    (nodep : option loc) : M (isc_result_t * option loc) :=
  let* valid := VALID_LDAPDB db in
  REQUIRE valid ;;;
  let* ldapdb := load_db db in
  let* '(result, rdatalist) := ldapdb_rdatalist_get (mctx (common ldapdb)) name in
  INSIST (negb (bool_decide (result = DNS_R_PARTIALMATCH))) ;;;
  if bool_decide (result = ISC_R_NOMEMORY) then ret (ISC_R_NOMEMORY, nodep)
  else
    let cleanup (result : isc_result_t) :=
      ldapdb_rdatalist_destroy (mctx (common ldapdb)) rdatalist ;;;
      ret (result, nodep) in
    let continue :=
      let* '(result, node) := ldapdbnode_create (mctx (common ldapdb)) name (Some None) in
      if failed result then cleanup result
      else
        set_node_rdatalist node rdatalist ;;;
        ret (ISC_R_SUCCESS, node) in
    if negb create then
      if bool_decide (result = DNS_R_PARTIALMATCH) then cleanup ISC_R_NOTFOUND
      else if failed result then ret (result, nodep)
      else continue
    else continue.

(** The CNAME loop of [find]: from HEAD, follow NEXT while the entry is
    not a CNAME. *)
Fixpoint cname_scan (l : ldapdb_rdatalist_t) : option dns_rdatalist_t :=
  match l with
  | [] => None
  | rdlist :: rest =>
      if negb (rdl_type rdlist =? dns_rdatatype_cname) then cname_scan rest
      else Some rdlist
  end.

(** [dns_rdatalist_tordataset(rdlist, rdataset)]: binds the result set to
    the record-list and, as the driver notes, returns success only. *)
Definition dns_rdatalist_tordataset (rdlist : option dns_rdatalist_t)
  : M (isc_result_t * dns_rdataset_t) :=
  match rdlist with
  | None => stop InvalidPointer
  | Some e => ret (ISC_R_SUCCESS, Some e)
  end.

(** [ldapdb_rdatalist_findrdatatype(&list, type, &rdlist)] as called by the
    driver: the result code and the final [rdlist]. *)
Definition findrdatatype_call (l : ldapdb_rdatalist_t) (rdtype : dns_rdatatype_t)
    (rdlist : option dns_rdatalist_t) : isc_result_t * option dns_rdatalist_t :=
  match ldapdb_rdatalist_findrdatatype l rdtype with
  | Some e => (ISC_R_SUCCESS, Some e)
  | None => (ISC_R_NOTFOUND, rdlist)
  end.

(** The caller-visible outputs of [find]. *)
Record find_out : Set := {
  out_node : option loc;
  out_foundname : option dns_name_t;
  out_rdataset : dns_rdataset_t
}.

Definition find (db : option loc) (name : dns_name_t) (version : dns_dbversion_ptr)
    (type : dns_rdatatype_t) (options : Z) (now : isc_stdtime_t)
    (nodep : option loc) (foundname : option dns_name_t) (rdataset : dns_rdataset_t)
    (sigrdataset : dns_rdataset_t) : M (isc_result_t * find_out) :=
  let* valid := VALID_LDAPDB db in
  REQUIRE valid ;;;
  INSIST (negb (type =? dns_rdatatype_any)) ;;;
  (if bool_decide (version <> None) then REQUIRE (bool_decide (version = ldapdb_version))
   else ret tt) ;;;
  let* ldapdb := load_db db in
  let* '(result, rdatalist) := ldapdb_rdatalist_get (mctx (common ldapdb)) name in
  INSIST (negb (bool_decide (result = DNS_R_PARTIALMATCH))) ;;;
  if failed result && negb (bool_decide (result = DNS_R_PARTIALMATCH)) then
    ret (result, {| out_node := nodep; out_foundname := foundname; out_rdataset := rdataset |})
  else
    let* '(result, node) := ldapdbnode_create (mctx (common ldapdb)) name (Some None) in
    if failed result then
      ldapdb_rdatalist_destroy (mctx (common ldapdb)) rdatalist ;;;
      ret (result, {| out_node := nodep; out_foundname := foundname; out_rdataset := rdataset |})
    else
      set_node_rdatalist node rdatalist ;;;
      let* n := load_node node in
      let '(result, rdlist) := findrdatatype_call (node_rdatalist n) type None in
      let '(result, rdlist, is_cname) :=
        if failed result then
          (* No exact rdtype match. Check CNAME *)
          let rdlist := cname_scan (node_rdatalist n) in
          match rdlist with
          | Some _ => (ISC_R_SUCCESS, rdlist, ISC_TRUE)
          | None => (result, rdlist, ISC_FALSE)
          end
        else (result, rdlist, ISC_FALSE) in
      if failed result then
        (* cleanup: *)
        detachnode db node ;;;
        ret (DNS_R_NXRRSET,
             {| out_node := nodep; out_foundname := foundname; out_rdataset := rdataset |})
      else
        let* '(result, rdataset) := dns_rdatalist_tordataset rdlist in
        INSIST (bool_decide (result = ISC_R_SUCCESS)) ;;;
        let* result := dns_name_dupwithoffsets name (mctx (common ldapdb)) in
        if failed result then
          (* cleanup: *)
          detachnode db node ;;;
          ret (result,
               {| out_node := nodep; out_foundname := foundname; out_rdataset := rdataset |})
        else
          ret (if is_cname then DNS_R_CNAME else ISC_R_SUCCESS,
               {| out_node := node; out_foundname := Some name; out_rdataset := rdataset |}).

(** [findrdataset]; the value is the result code and the final [*rdataset]. *)
Definition findrdataset (db : option loc) (node : option loc) (version : dns_dbversion_ptr)
    (type covers : dns_rdatatype_t) (now : isc_stdtime_t)
    (rdataset sigrdataset : dns_rdataset_t) : M (isc_result_t * dns_rdataset_t) :=
  REQUIRE (covers =? 0) ;;;
  let* valid := VALID_LDAPDBNODE node in
  REQUIRE valid ;;;
  (if bool_decide (version <> None) then REQUIRE (bool_decide (version = ldapdb_version))
   else ret tt) ;;;
  let* ldapdbnode := load_node node in
  let '(result, rdlist) := findrdatatype_call (node_rdatalist ldapdbnode) type None in
  if failed result then ret (result, rdataset)
  else
    let* '(_, rdataset) := dns_rdatalist_tordataset rdlist in
    ret (ISC_R_SUCCESS, rdataset).

(** ** The unimplemented part of the method table

    [ptr] stands for the pointer arguments these methods never look at. *)
Definition ptr := option loc.

Definition findzonecut (db : option loc) (name : dns_name_t) (options : Z)
    (now : isc_stdtime_t) (nodep : option loc) (foundname : option dns_name_t)
    (rdataset sigrdataset : dns_rdataset_t) : M isc_result_t :=
  ret ISC_R_NOTIMPLEMENTED.

Definition expirenode (db : option loc) (node : option loc) (now : isc_stdtime_t)
  : M isc_result_t :=
  ret ISC_R_NOTIMPLEMENTED.

Definition printnode (db : option loc) (node : option loc) (out : ptr) : M unit :=
  ret tt.

Definition createiterator (db : option loc) (options : Z) (iteratorp : ptr)
  : M isc_result_t :=
  ret ISC_R_NOTIMPLEMENTED.

Definition allrdatasets (db : option loc) (node : option loc) (version : dns_dbversion_ptr)
    (now : isc_stdtime_t) (iteratorp : ptr) : M isc_result_t :=
  ret ISC_R_NOTIMPLEMENTED.

Definition addrdataset (db : option loc) (node : option loc) (version : dns_dbversion_ptr)
    (now : isc_stdtime_t) (rdataset : dns_rdataset_t) (options : Z)
    (addedrdataset : dns_rdataset_t) : M isc_result_t :=
  ret ISC_R_NOTIMPLEMENTED.

Definition subtractrdataset (db : option loc) (node : option loc)
    (version : dns_dbversion_ptr) (rdataset : dns_rdataset_t) (options : Z)
    (newrdataset : dns_rdataset_t) : M isc_result_t :=
  ret ISC_R_NOTIMPLEMENTED.

Definition deleterdataset (db : option loc) (node : option loc)
    (version : dns_dbversion_ptr) (type covers : dns_rdatatype_t) : M isc_result_t :=
  ret ISC_R_NOTIMPLEMENTED.

(** [issecure], [ispersistent] and [isdnssec] are declared [isc_boolean_t]
    and [nodecount] [unsigned int]; each returns the constant
    ISC_R_NOTIMPLEMENTED, which is what the model keeps. *)
Definition issecure (db : option loc) : M isc_result_t := ret ISC_R_NOTIMPLEMENTED.

Definition nodecount (db : option loc) : M isc_result_t := ret ISC_R_NOTIMPLEMENTED.

Definition ispersistent (db : option loc) : M isc_result_t := ret ISC_R_NOTIMPLEMENTED.

Definition overmem (db : option loc) (over : isc_boolean_t) : M unit := ret tt.

Definition settask (db : option loc) (task : ptr) : M unit := ret tt.

Definition getoriginnode (db : option loc) (nodep : option loc) : M isc_result_t :=
  ret ISC_R_NOTIMPLEMENTED.

Definition transfernode (db : option loc) (sourcep targetp : option loc) : M unit :=
  ret tt.

Definition getnsec3parameters (db : option loc) (version : dns_dbversion_ptr)
    (hash flags iterations salt salt_len : ptr) : M isc_result_t :=
  ret ISC_R_NOTIMPLEMENTED.

Definition findnsec3node (db : option loc) (name : dns_name_t) (create : isc_boolean_t)
    (nodep : option loc) : M isc_result_t :=
  ret ISC_R_NOTIMPLEMENTED.

Definition setsigningtime (db : option loc) (rdataset : dns_rdataset_t)
    (resign : isc_stdtime_t) : M isc_result_t :=
  ret ISC_R_NOTIMPLEMENTED.

Definition getsigningtime (db : option loc) (rdataset : dns_rdataset_t)
    (name : dns_name_t) : M isc_result_t :=
  ret ISC_R_NOTIMPLEMENTED.

Definition resigned (db : option loc) (rdataset : dns_rdataset_t)
    (version : dns_dbversion_ptr) : M unit :=
  ret tt.

Definition isdnssec (db : option loc) : M isc_result_t := ret ISC_R_NOTIMPLEMENTED.

Definition getrrsetstats (db : option loc) : M ptr := ret None.

(** ** Store construction *)

(** The three cleanup labels of [ldapdb_create], each falling through to
    the next.  [field_mctx] is the content of [ldapdb->common.mctx] at the
    time of the jump. *)
Definition clean_ldapdb (field_mctx : option isc_mem_t) (p : loc) (result : isc_result_t)
  : M (isc_result_t * option loc) :=
  isc_mem_putanddetach field_mctx p ;;;
  ret (result, None).

Definition clean_origin (m : isc_mem_t) (name : dns_name_t) (field_mctx : option isc_mem_t)
    (p : loc) (result : isc_result_t) : M (isc_result_t * option loc) :=
  dns_name_free name m ;;;
  clean_ldapdb field_mctx p result.

Definition clean_lock (m : isc_mem_t) (name : dns_name_t) (field_mctx : option isc_mem_t)
    (p : loc) (result : isc_result_t) : M (isc_result_t * option loc) :=
  DESTROYLOCK ;;;
  clean_origin m name field_mctx p result.

(** [ldapdb_create(mctx, name, type, rdclass, argc, argv, driverarg, dbp)];
    the value is the result code and the final [*dbp].  The block that
    [isc_mem_get] returns is uninitialised, so [ldapdb->common.mctx] holds
    no context until the assignment and [isc_mem_attach] that follow the
    copy of the origin name. *)
Definition ldapdb_create (m : isc_mem_t) (name : dns_name_t) (type : dns_dbtype_t)
    (rdclass_arg : dns_rdataclass_t) (argc : Z) (argv : list string) (dbp : slot loc)
  : M (isc_result_t * option loc) :=
  REQUIRE (0 <? argc) ;;;
  REQUIRE (bool_decide (type = dns_dbtype_zone)) ;;;
  REQUIRE (bool_decide (rdclass_arg = dns_rdataclass_in)) ;;;
  REQUIRE (slot_is_empty dbp) ;;;
  let* ldapdb := isc_mem_get m in
  match ldapdb with
  | None => ret (ISC_R_NOMEMORY, None)
  | Some p =>
      let field_mctx : option isc_mem_t := None in
      let* result := dns_name_dupwithoffsets name m in
      if failed result then clean_ldapdb field_mctx p result
      else
        let field_mctx := Some m in
        isc_mem_attach m ;;;
        let* result := isc_mutex_init in
        if failed result then clean_origin m name field_mctx p result
        else
          let* result := isc_refcount_init in
          if failed result then clean_lock m name field_mctx p result
          else
            match argv with
            | [] => stop InvalidPointer
            | argv0 :: _ =>
                let* '(result, handle) := manager_get_ldap_db argv0 in
                if failed result then clean_lock m name field_mctx p result
                else
                  store p (ObjDb {| common := {| magic := DNS_DB_MAGIC;
                                                 impmagic := LDAPDB_MAGIC;
                                                 attributes := 0;
                                                 rdclass := rdclass_arg;
                                                 origin := name;
                                                 mctx := m |};
                                    refs := 1;
                                    ldap_db := handle |}) ;;;
                  ret (ISC_R_SUCCESS, Some p)
            end
  end.

(** ** The example directory of the spec

    [www.example.] owns one A record-list, [alias.example.] one CNAME
    record-list, [both.example.] a CNAME and an A record-list,
    [deleg.example.] is only partially matched, and nothing else exists. *)

Definition rr_a : dns_rdatalist_t :=
  {| rdl_type := 1; rdl_ttl := 300; rdl_rdata := ["192.0.2.1"%string] |}.
Definition rr_cname : dns_rdatalist_t :=
  {| rdl_type := dns_rdatatype_cname; rdl_ttl := 300; rdl_rdata := ["canon.example."%string] |}.

Definition example_ldap (name : dns_name_t) : isc_result_t * ldapdb_rdatalist_t :=
  if String.eqb name "www.example." then (ISC_R_SUCCESS, [rr_a])
  else if String.eqb name "alias.example." then (ISC_R_SUCCESS, [rr_cname])
  else if String.eqb name "both.example." then (ISC_R_SUCCESS, [rr_cname; rr_a])
  else if String.eqb name "deleg.example." then (DNS_R_PARTIALMATCH, [rr_a])
  else (ISC_R_NOTFOUND, []).

Definition example_manager (name : string) : isc_result_t * ldap_db_t :=
  if String.eqb name "ipa" then (ISC_R_SUCCESS, 7%positive)
  else (ISC_R_NOTFOUND, 1%positive).

Definition example_db : ldapdb_t :=
  {| common := {| magic := DNS_DB_MAGIC; impmagic := LDAPDB_MAGIC; attributes := 0;
                  rdclass := dns_rdataclass_in; origin := "example."%string;
                  mctx := 1%positive |};
     refs := 1; ldap_db := 7%positive |}.

(** A world holding one Store at address 1, with the given plan. *)
Definition example_world (plan : list isc_result_t) : world :=
  {| w_heap := {[ 1%positive := ObjDb example_db ]};
     w_plan := plan;
     w_ldap := example_ldap;
     w_manager := example_manager;
     w_log := [] |}.

(** An empty world: nothing allocated yet. *)
Definition empty_world (plan : list isc_result_t) : world :=
  {| w_heap := ∅; w_plan := plan; w_ldap := example_ldap;
     w_manager := example_manager; w_log := [] |}.

(** A Node for [alias.example.] that holds the CNAME record-list. *)
Definition example_node : ldapdbnode_t :=
  {| node_magic := LDAPDBNODE_MAGIC; node_refs := 1;
     node_owner := "alias.example."%string; node_rdatalist := [rr_cname] |}.

(** A world with the example Store at address 1 and that Node at address 2. *)
Definition example_node_world : world :=
  {| w_heap := <[ 2%positive := ObjNode example_node ]> {[ 1%positive := ObjDb example_db ]};
     w_plan := [];
     w_ldap := example_ldap;
     w_manager := example_manager;
     w_log := [] |}.

(** ** Vocabulary of the properties *)

(** None of the next [n] fallible library calls is planned to fail. *)
Definition faultless (n : nat) (pl : list isc_result_t) : Prop :=
  Forall (fun r => r = ISC_R_SUCCESS) (take n pl).

(** The version argument of [find] and [findrdataset] passes its check. *)
Definition version_ok (version : dns_dbversion_ptr) : Prop :=
  version = None \/ version = ldapdb_version.

(** The Node that [ldapdbnode_create] leaves at [p]. *)
Definition fresh_node (name : dns_name_t) : ldapdbnode_t :=
  {| node_magic := LDAPDBNODE_MAGIC; node_refs := 1;
     node_owner := name; node_rdatalist := [] |}.

(** The Node a lookup hands out: the fresh Node with the Resolver's
    record-lists copied in. *)
Definition lookup_node (name : dns_name_t) (l : ldapdb_rdatalist_t) : ldapdbnode_t :=
  {| node_magic := LDAPDBNODE_MAGIC; node_refs := 1;
     node_owner := name; node_rdatalist := l |}.

(** The world after a [find] that hands a Node out. *)
Definition found_world (w : world) (m : isc_mem_t) (name : dns_name_t)
    (l : ldapdb_rdatalist_t) : world :=
  {| w_heap := <[fresh (dom (w_heap w)) := ObjNode (lookup_node name l)]> (w_heap w);
     w_plan := tail (tail (tail (tail (w_plan w))));
     w_ldap := w_ldap w; w_manager := w_manager w;
     w_log := EvNameDup name :: EvNameDup name :: EvMemGet m (fresh (dom (w_heap w)))
                :: EvRdatalistGet name :: w_log w |}.

(** The world after a [find] that built a Node and released it again. *)
Definition released_world (w : world) (m : isc_mem_t) (name : dns_name_t)
    (l : ldapdb_rdatalist_t) : world :=
  {| w_heap := w_heap w;
     w_plan := tail (tail (tail (w_plan w)));
     w_ldap := w_ldap w; w_manager := w_manager w;
     w_log := EvMemPut m (fresh (dom (w_heap w))) :: EvNameFree name
                :: EvRdatalistDestroy l
                :: EvNameDup name :: EvMemGet m (fresh (dom (w_heap w)))
                :: EvRdatalistGet name :: w_log w |}.

Inductive refop : Set := Attach | Detach.

(** A sequence of attach and detach calls on an object that holds [n]
    references is balanced when every call is made while a reference is
    still held and the last call drops the last reference. *)
Fixpoint balanced_from (n : N) (ops : list refop) : bool :=
  match ops with
  | [] => (n =? 0)%N
  | Attach :: rest => (0 <? n)%N && balanced_from (n + 1) rest
  | Detach :: rest => (0 <? n)%N && balanced_from (n - 1) rest
  end.

(** From construction the object holds one reference. *)
Definition balanced (ops : list refop) : bool := balanced_from 1 ops.

Fixpoint run_refops (att det : M (option loc)) (ops : list refop) : M unit :=
  match ops with
  | [] => ret tt
  | Attach :: rest => att ;;; run_refops att det rest
  | Detach :: rest => det ;;; run_refops att det rest
  end.

(** Every handle to the Store at [p] has the value [p]. *)
Definition store_ops (p : loc) : list refop -> M unit :=
  run_refops (attach (Some p)) (detach (Some p)).

(** Node handles likewise; [q] is the Store presented at each call. *)
Definition node_ops (q p : loc) : list refop -> M unit :=
  run_refops (attachnode (Some q) (Some p)) (detachnode (Some q) (Some p)).

(** The Store at [p], with common part [c], holds [n] references, and the
    log is still [lg]: nothing of it has been released. *)
Definition store_alive (p : loc) (c : dns_db_t) (lg : list event) (n : N) (w : world)
  : Prop :=
  exists d, w_heap w !! p = Some (ObjDb d) /\ common d = c /\ refs d = n /\ w_log w = lg.

(** [free_ldapdb] has run on the Store at [p], once: the block is gone and
    the log grew by exactly the four releases of one destruction. *)
Definition store_destroyed (p : loc) (c : dns_db_t) (lg : list event) (w : world) : Prop :=
  w_heap w !! p = None
  /\ w_log w = EvMemDetach (mctx c) :: EvMemPut (mctx c) p
                 :: EvNameFree (origin c) :: EvDestroyLock :: lg.

(** The Node at [p] holds [n] references, the Store at [q] is there to be
    presented, and the log is still [lg]. *)
Definition node_alive (q : loc) (d : ldapdb_t) (p : loc) (o : dns_name_t)
    (l : ldapdb_rdatalist_t) (lg : list event) (n : N) (w : world) : Prop :=
  exists nd, w_heap w !! q = Some (ObjDb d)
             /\ w_heap w !! p = Some (ObjNode nd)
             /\ node_magic nd = LDAPDBNODE_MAGIC
             /\ node_owner nd = o /\ node_rdatalist nd = l
             /\ node_refs nd = n /\ w_log w = lg.

(** The Node at [p] was destroyed, once. *)
Definition node_destroyed (d : ldapdb_t) (p : loc) (o : dns_name_t)
    (l : ldapdb_rdatalist_t) (lg : list event) (w : world) : Prop :=
  w_heap w !! p = None
  /\ w_log w = EvMemPut (mctx (common d)) p :: EvNameFree o
                 :: EvRdatalistDestroy l :: lg.

(** ** Driver registration

    [dynamic_driver_init] and [dynamic_driver_destroy] only call into the
    host's registry, the LDAP layer and the instance manager.  These calls
    are parameters of the model: [dns_db_register] for the registration of
    [ldapdb_create] under [ldapdb_impname], [new_ldap_db] with the result
    code and the final content of its [ldap_db] output, and so on. *)

Definition ldapdb_impname : string := "dynamic-ldap".

(** The loop that logs the arguments: from index 0, advance while
    [argv[i]] is not the terminating null; the value is the final [i]. *)
Fixpoint log_args (argv : list string) (i : Z) : Z :=
  match argv with
  | [] => i
  | _ :: rest => log_args rest (i + 1)
  end.

Section Registration.
Variable dns_db_register : string -> isc_mem_t -> M isc_result_t.
Variable dns_db_unregister : M unit.
Variable new_ldap_db : isc_mem_t -> ptr -> list string -> M (isc_result_t * option ldap_db_t).
Variable destroy_ldap_db : ldap_db_t -> M unit.
Variable manager_add_db_instance :
  isc_mem_t -> string -> option ldap_db_t -> ptr -> M isc_result_t.
Variable destroy_manager : M unit.

(** The [cleanup] label of [dynamic_driver_init]. *)
Definition init_cleanup (ldap_db_var : option ldap_db_t) (result : isc_result_t)
  : M isc_result_t :=
  (match ldap_db_var with
   | Some h => destroy_ldap_db h
   | None => ret tt
   end) ;;;
  ret result.

Definition dynamic_driver_init (m : option isc_mem_t) (name : option string)
    (argv : option (list string)) (view zmgr : ptr) : M isc_result_t :=
  REQUIRE (bool_decide (m <> None)) ;;;
  REQUIRE (bool_decide (name <> None)) ;;;
  REQUIRE (bool_decide (argv <> None)) ;;;
  REQUIRE (bool_decide (view <> None)) ;;;
  match m, name, argv with
  | Some m, Some name, Some argv =>
      let ldap_db_var : option ldap_db_t := None in
      let i := log_args argv 0 in
      let* result := dns_db_register ldapdb_impname m in
      let result := if bool_decide (result = ISC_R_EXISTS) then ISC_R_SUCCESS else result in
      if failed result then ret result
      else
        let* '(result, ldap_db_var) := new_ldap_db m view argv in
        if failed result then init_cleanup ldap_db_var result
        else
          let* result := manager_add_db_instance m name ldap_db_var zmgr in
          if failed result then init_cleanup ldap_db_var result
          else ret ISC_R_SUCCESS
  | _, _, _ => stop InvalidPointer
  end.

Definition dynamic_driver_destroy : M unit :=
  dns_db_unregister ;;; destroy_manager.
End Registration.

(** The Store that [ldapdb_create] leaves behind on success. *)
Definition created_store (m : isc_mem_t) (name : dns_name_t) (handle : ldap_db_t)
  : ldapdb_t :=
  {| common := {| magic := DNS_DB_MAGIC; impmagic := LDAPDB_MAGIC; attributes := 0;
                  rdclass := dns_rdataclass_in; origin := name; mctx := m |};
     refs := 1; ldap_db := handle |}.

(** The record-list [find] selects from [l] for a requested type: the
    result of the type search, or else of the CNAME loop. *)
Definition find_selection (l : ldapdb_rdatalist_t) (type : dns_rdatatype_t)
  : option dns_rdatalist_t :=
  match ldapdb_rdatalist_findrdatatype l type with
  | Some e => Some e
  | None => cname_scan l
  end.

(** * Properties *)

(** ** Proof support *)

Lemma faultless_tail n pl : faultless (S n) pl -> faultless n (tail pl).
Proof.
  unfold faultless. destruct pl as [|r rest]; simpl.
  - intros _. rewrite take_nil. constructor.
  - intros H. inversion H; assumption.
Qed.

Lemma faultless_head n pl : faultless (S n) pl -> hd ISC_R_SUCCESS pl = ISC_R_SUCCESS.
Proof.
  unfold faultless. destruct pl as [|r rest]; simpl; [reflexivity|].
  intros H. inversion H; assumption.
Qed.

Lemma faultless_weaken n : forall pl, faultless (S n) pl -> faultless n pl.
Proof.
  unfold faultless. induction n as [|n IH]; intros pl H; [constructor|].
  destruct pl as [|r rest]; [constructor|].
  change (take (S (S n)) (r :: rest)) with (r :: take (S n) rest) in H.
  change (take (S n) (r :: rest)) with (r :: take n rest).
  inversion H; subst. constructor; [reflexivity | apply IH; assumption].
Qed.

Create HintDb prog.
#[local] Hint Resolve faultless_tail : prog.

(** [next_result] hands out the head of the plan, or success once the plan
    is used up. *)
Lemma next_result_eq w :
  next_result w = Ok (hd ISC_R_SUCCESS (w_plan w)) (with_plan (tail (w_plan w)) w).
Proof.
  destruct w as [h pl ld mg lg]; unfold next_result, with_plan; simpl.
  destruct pl; reflexivity.
Qed.

Lemma next_result_faultless n w :
  faultless (S n) (w_plan w) ->
  next_result w = Ok ISC_R_SUCCESS (with_plan (tail (w_plan w)) w).
Proof.
  intros H. rewrite next_result_eq, (faultless_head n _ H). reflexivity.
Qed.

Lemma fresh_not_live (h : gmap loc object) (q : loc) (o : object) :
  h !! q = Some o -> fresh (dom h) <> q.
Proof.
  intros Hq Heq. apply (is_fresh (dom h)). rewrite Heq.
  apply elem_of_dom. exists o. exact Hq.
Qed.

Lemma fresh_unused (h : gmap loc object) : h !! fresh (dom h) = None.
Proof. apply not_elem_of_dom. apply is_fresh. Qed.

Ltac prog_unfold :=
  unfold isc_mem_get, isc_mem_put, isc_mem_putanddetach, isc_mem_attach,
    isc_refcount_init, dns_name_dupwithoffsets, dns_name_dup, dns_name_free,
    isc_mutex_init, DESTROYLOCK, ldapdb_rdatalist_get, ldapdb_rdatalist_destroy,
    manager_get_ldap_db, dns_rdatalist_tordataset, set_node_rdatalist,
    VALID_LDAPDB, VALID_LDAPDBNODE, load_db, load_node,
    isc_refcount_increment, isc_refcount_decrement,
    INSIST, REQUIRE, emit, store, release, get_world, bind, ret, stop,
    with_heap, with_plan, with_log.

Ltac prog_cbn :=
  cbn [w_heap w_plan w_ldap w_manager w_log is_success failed negb andb orb
       fst snd slot_is_empty object_refs object_set_refs
       common refs ldap_db node_magic node_refs node_owner node_rdatalist
       magic impmagic attributes rdclass origin mctx].

Ltac prog := prog_unfold; prog_cbn.

(** ** The two searches over a Node's record-lists *)

Lemma findrdatatype_Some l t e :
  ldapdb_rdatalist_findrdatatype l t = Some e -> e ∈ l /\ rdl_type e = t.
Proof.
  induction l as [|x r IH]; simpl; [discriminate|].
  destruct (rdl_type x =? t) eqn:E.
  - intros [= <-]. split; [left | apply Z.eqb_eq, E].
  - intros H. destruct (IH H) as [Hin Ht]. split; [right; exact Hin | exact Ht].
Qed.

Lemma findrdatatype_None l t :
  ldapdb_rdatalist_findrdatatype l t = None <-> (forall e, e ∈ l -> rdl_type e <> t).
Proof.
  induction l as [|x r IH]; simpl.
  - split; [intros _ e He; inversion He | reflexivity].
  - destruct (rdl_type x =? t) eqn:E.
    + split; [discriminate|]. intros H. exfalso.
      apply (H x); [left | apply Z.eqb_eq, E].
    + rewrite IH. split.
      * intros H e He. apply elem_of_cons in He as [-> | He]; [apply Z.eqb_neq, E | auto].
      * intros H e He. apply H. right. exact He.
Qed.

Lemma findrdatatype_present l t :
  (exists e, e ∈ l /\ rdl_type e = t) ->
  exists e', ldapdb_rdatalist_findrdatatype l t = Some e'.
Proof.
  intros (e & He & Ht).
  destruct (ldapdb_rdatalist_findrdatatype l t) as [e'|] eqn:E; [eauto|].
  exfalso. eapply findrdatatype_None; eauto.
Qed.

Lemma cname_scan_Some l c :
  cname_scan l = Some c -> c ∈ l /\ rdl_type c = dns_rdatatype_cname.
Proof.
  induction l as [|x r IH]; simpl; [discriminate|].
  destruct (rdl_type x =? dns_rdatatype_cname) eqn:E; simpl.
  - intros [= <-]. split; [left | apply Z.eqb_eq, E].
  - intros H. destruct (IH H) as [Hin Ht]. split; [right; exact Hin | exact Ht].
Qed.

Lemma cname_scan_None l :
  cname_scan l = None <-> (forall e, e ∈ l -> rdl_type e <> dns_rdatatype_cname).
Proof.
  induction l as [|x r IH]; simpl.
  - split; [intros _ e He; inversion He | reflexivity].
  - destruct (rdl_type x =? dns_rdatatype_cname) eqn:E; simpl.
    + split; [discriminate|]. intros H. exfalso.
      apply (H x); [left | apply Z.eqb_eq, E].
    + rewrite IH. split.
      * intros H e He. apply elem_of_cons in He as [-> | He]; [apply Z.eqb_neq, E | auto].
      * intros H e He. apply H. right. exact He.
Qed.

Lemma cname_scan_present l :
  (exists c, c ∈ l /\ rdl_type c = dns_rdatatype_cname) ->
  exists c', cname_scan l = Some c'.
Proof.
  intros (c & Hc & Ht).
  destruct (cname_scan l) as [c'|] eqn:E; [eauto|].
  exfalso. eapply cname_scan_None; eauto.
Qed.

Lemma version_check_ok version w :
  version_ok version ->
  (if bool_decide (version <> None) then REQUIRE (bool_decide (version = ldapdb_version))
   else ret tt) w = Ok tt w.
Proof. intros [-> | ->]; reflexivity. Qed.

(** ** The unimplemented surface *)

(** C8: every method of the table that is documented as not implemented
    (findzonecut, expirenode, createiterator, allrdatasets, addrdataset,
    subtractrdataset, deleterdataset, issecure, nodecount, ispersistent,
    isdnssec, getoriginnode, getnsec3parameters, findnsec3node,
    setsigningtime, getsigningtime) returns ISC_R_NOTIMPLEMENTED for every
    input and in every world, and returns the world exactly as it found it:
    nothing is allocated, released or changed. *)
Theorem not_implemented_surface_stable (w : world) :
  (forall db name options now nodep foundname rdataset sigrdataset,
      findzonecut db name options now nodep foundname rdataset sigrdataset w
      = Ok ISC_R_NOTIMPLEMENTED w)
  /\ (forall db node now, expirenode db node now w = Ok ISC_R_NOTIMPLEMENTED w)
  /\ (forall db options iteratorp,
         createiterator db options iteratorp w = Ok ISC_R_NOTIMPLEMENTED w)
  /\ (forall db node version now iteratorp,
         allrdatasets db node version now iteratorp w = Ok ISC_R_NOTIMPLEMENTED w)
  /\ (forall db node version now rdataset options addedrdataset,
         addrdataset db node version now rdataset options addedrdataset w
         = Ok ISC_R_NOTIMPLEMENTED w)
  /\ (forall db node version rdataset options newrdataset,
         subtractrdataset db node version rdataset options newrdataset w
         = Ok ISC_R_NOTIMPLEMENTED w)
  /\ (forall db node version type covers,
         deleterdataset db node version type covers w = Ok ISC_R_NOTIMPLEMENTED w)
  /\ (forall db, issecure db w = Ok ISC_R_NOTIMPLEMENTED w)
  /\ (forall db, nodecount db w = Ok ISC_R_NOTIMPLEMENTED w)
  /\ (forall db, ispersistent db w = Ok ISC_R_NOTIMPLEMENTED w)
  /\ (forall db, isdnssec db w = Ok ISC_R_NOTIMPLEMENTED w)
  /\ (forall db nodep, getoriginnode db nodep w = Ok ISC_R_NOTIMPLEMENTED w)
  /\ (forall db version hash flags iterations salt salt_len,
         getnsec3parameters db version hash flags iterations salt salt_len w
         = Ok ISC_R_NOTIMPLEMENTED w)
  /\ (forall db name create nodep,
         findnsec3node db name create nodep w = Ok ISC_R_NOTIMPLEMENTED w)
  /\ (forall db rdataset resign,
         setsigningtime db rdataset resign w = Ok ISC_R_NOTIMPLEMENTED w)
  /\ (forall db rdataset name,
         getsigningtime db rdataset name w = Ok ISC_R_NOTIMPLEMENTED w).
Proof. repeat split. Qed.

(** ** The single version *)

Lemma valid_ldapdb_live w p d :
  w_heap w !! p = Some (ObjDb d) ->
  impmagic (common d) = LDAPDB_MAGIC ->
  VALID_LDAPDB (Some p) w = Ok true w.
Proof.
  intros Hp Hm. unfold VALID_LDAPDB. rewrite Hp, Hm, Z.eqb_refl. reflexivity.
Qed.

Lemma valid_ldapdbnode_live w p n :
  w_heap w !! p = Some (ObjNode n) ->
  node_magic n = LDAPDBNODE_MAGIC ->
  VALID_LDAPDBNODE (Some p) w = Ok true w.
Proof.
  intros Hp Hm. unfold VALID_LDAPDBNODE. rewrite Hp, Hm, Z.eqb_refl. reflexivity.
Qed.

(** C7: on every valid Store, currentversion and newversion hand back the
    one static token [ldapdb_version] and leave the world untouched (no
    version is ever allocated); attachversion, given the token, hands the
    token back; closeversion, given a handle that holds the token, sets the
    handle to null whatever the commit flag is. *)
Theorem version_is_the_sentinel (w : world) (p : loc) (d : ldapdb_t) :
  w_heap w !! p = Some (ObjDb d) ->
  impmagic (common d) = LDAPDB_MAGIC ->
  currentversion (Some p) (Some None) w = Ok ldapdb_version w
  /\ newversion (Some p) (Some None) w = Ok (ISC_R_SUCCESS, ldapdb_version) w
  /\ attachversion (Some p) ldapdb_version (Some None) w = Ok ldapdb_version w
  /\ (forall commit : isc_boolean_t,
         closeversion (Some p) (Some ldapdb_version) commit w = Ok None w).
Proof.
  intros Hp Hm.
  unfold currentversion, newversion, attachversion, closeversion, bind.
  rewrite (valid_ldapdb_live w p d Hp Hm).
  repeat split.
Qed.

Lemma version_is_the_sentinel_witness :
  currentversion (Some 1%positive) (Some None) (example_world [])
    = Ok ldapdb_version (example_world [])
  /\ newversion (Some 1%positive) (Some None) (example_world [])
    = Ok (ISC_R_SUCCESS, ldapdb_version) (example_world [])
  /\ attachversion (Some 1%positive) ldapdb_version (Some None) (example_world [])
    = Ok ldapdb_version (example_world [])
  /\ (forall commit : isc_boolean_t,
         closeversion (Some 1%positive) (Some ldapdb_version) commit (example_world [])
         = Ok None (example_world [])).
Proof.
  apply (version_is_the_sentinel (example_world []) 1%positive example_db);
    reflexivity.
Defined.

(** ** findrdataset *)

(** C10: for a valid Node, covers = 0 and a version that is absent or the
    token, findrdataset leaves the world as it is and returns the result
    code of the type search: success exactly when the Node's record-lists
    hold an entry of the requested type, in which case the result set is
    bound to such an entry.  There is no CNAME fallback: without an entry
    of the requested type the search's failure code comes back and the
    caller's result set is left as it was, whatever else the Node holds. *)
Theorem findrdataset_exact_type_only (w : world) (db : option loc) (p : loc)
    (n : ldapdbnode_t) (version : dns_dbversion_ptr) (type : dns_rdatatype_t)
    (now : isc_stdtime_t) (rdataset sigrdataset : dns_rdataset_t) :
  w_heap w !! p = Some (ObjNode n) ->
  node_magic n = LDAPDBNODE_MAGIC ->
  version_ok version ->
  exists result rdataset',
    findrdataset db (Some p) version type 0 now rdataset sigrdataset w
      = Ok (result, rdataset') w
    /\ result = fst (findrdatatype_call (node_rdatalist n) type None)
    /\ (result = ISC_R_SUCCESS <->
        exists e, e ∈ node_rdatalist n /\ rdl_type e = type)
    /\ (result = ISC_R_SUCCESS ->
        exists e, rdataset' = Some e /\ e ∈ node_rdatalist n /\ rdl_type e = type)
    /\ (result <> ISC_R_SUCCESS -> result = ISC_R_NOTFOUND /\ rdataset' = rdataset).
Proof.
  intros Hp Hm Hv.
  unfold findrdataset, findrdatatype_call.
  unfold bind at 1. cbn [REQUIRE Z.eqb ret].
  unfold bind at 1. rewrite (valid_ldapdbnode_live w p n Hp Hm).
  unfold bind at 1. cbn [REQUIRE ret].
  unfold bind at 1. rewrite (version_check_ok version w Hv).
  unfold bind at 1, load_node. rewrite Hp.
  destruct (ldapdb_rdatalist_findrdatatype (node_rdatalist n) type) as [e|] eqn:E.
  - destruct (findrdatatype_Some _ _ _ E) as [Hin Ht].
    exists ISC_R_SUCCESS, (Some e). cbn.
    repeat split; eauto; congruence.
  - exists ISC_R_NOTFOUND, rdataset. cbn.
    repeat split; try congruence.
    intros (e & Hin & Ht). exfalso.
    apply (proj1 (findrdatatype_None _ _) E e Hin Ht).
Qed.

Lemma findrdataset_exact_type_only_witness :
  exists result rdataset',
    findrdataset (Some 1%positive) (Some 2%positive) None 1 0 0 None None example_node_world
      = Ok (result, rdataset') example_node_world
    /\ result = fst (findrdatatype_call (node_rdatalist example_node) 1 None)
    /\ (result = ISC_R_SUCCESS <->
        exists e, e ∈ node_rdatalist example_node /\ rdl_type e = 1)
    /\ (result = ISC_R_SUCCESS ->
        exists e, rdataset' = Some e /\ e ∈ node_rdatalist example_node /\ rdl_type e = 1)
    /\ (result <> ISC_R_SUCCESS -> result = ISC_R_NOTFOUND /\ rdataset' = None).
Proof.
  apply (findrdataset_exact_type_only example_node_world (Some 1%positive) 2%positive
           example_node None 1 0 None None).
  - reflexivity.
  - reflexivity.
  - left; reflexivity.
Defined.

(** ** Node construction and the last detach *)

Lemma ldapdbnode_create_faultless m name w :
  faultless 3 (w_plan w) ->
  ldapdbnode_create m name (Some None) w =
    Ok (ISC_R_SUCCESS, Some (fresh (dom (w_heap w))))
       {| w_heap := <[fresh (dom (w_heap w)) := ObjNode (fresh_node name)]> (w_heap w);
          w_plan := tail (tail (tail (w_plan w)));
          w_ldap := w_ldap w; w_manager := w_manager w;
          w_log := EvNameDup name :: EvMemGet m (fresh (dom (w_heap w))) :: w_log w |}.
Proof.
  intros H. unfold ldapdbnode_create. prog.
  erewrite next_result_faultless by eassumption. prog.
  erewrite next_result_faultless by (cbn; eauto with prog). prog.
  erewrite next_result_faultless by (cbn; eauto with prog). prog.
  rewrite insert_insert_eq. reflexivity.
Qed.

(** [ldapdbnode_create] always returns.  Either it reports success and a
    fresh Node sits at a fresh address, or it reports a failure code, hands
    out no Node and leaves the heap as it was. *)
Lemma ldapdbnode_create_cases m name w :
  exists result node w',
    ldapdbnode_create m name (Some None) w = Ok (result, node) w'
    /\ w_ldap w' = w_ldap w /\ w_manager w' = w_manager w
    /\ ((result = ISC_R_SUCCESS
         /\ node = Some (fresh (dom (w_heap w)))
         /\ w_heap w' = <[fresh (dom (w_heap w)) := ObjNode (fresh_node name)]> (w_heap w)
         /\ w_log w' = EvNameDup name :: EvMemGet m (fresh (dom (w_heap w))) :: w_log w)
        \/ (result <> ISC_R_SUCCESS /\ node = None /\ w_heap w' = w_heap w)).
Proof.
  destruct w as [h pl ld mg lg]. unfold ldapdbnode_create. prog.
  assert (Hdel : forall o, delete (fresh (dom h)) (<[fresh (dom h) := o]> h) = h)
    by (intros o; apply delete_insert_id, fresh_unused).
  unfold next_result at 1; prog.
  destruct pl as [|r1 pl]; prog.
  { unfold next_result; prog. rewrite insert_insert_eq.
    eexists _, _, _. split; [reflexivity|]. repeat split. left. repeat split. }
  destruct r1; prog;
    try (eexists _, _, _; split; [reflexivity|]; repeat split; right;
         repeat split; congruence).
  unfold next_result at 1; prog.
  destruct pl as [|r2 pl]; prog.
  { unfold next_result; prog. rewrite insert_insert_eq.
    eexists _, _, _. split; [reflexivity|]. repeat split. left. repeat split. }
  destruct r2; prog; rewrite ?Hdel;
    try (eexists _, _, _; split; [reflexivity|]; repeat split; right;
         repeat split; congruence).
  unfold next_result at 1; prog.
  destruct pl as [|r3 pl]; prog.
  { rewrite insert_insert_eq.
    eexists _, _, _. split; [reflexivity|]. repeat split. left. repeat split. }
  destruct r3; prog; rewrite ?Hdel, ?insert_insert_eq;
    try (eexists _, _, _; split; [reflexivity|]; repeat split; right;
         repeat split; congruence).
  eexists _, _, _. split; [reflexivity|]. repeat split. left. repeat split.
Qed.

(** Dropping the only reference to a Node destroys it: its record-lists go
    back to the Resolver, its owner name is freed and its block returned. *)
Lemma detachnode_last w q d p n :
  w_heap w !! q = Some (ObjDb d) ->
  w_heap w !! p = Some (ObjNode n) ->
  node_magic n = LDAPDBNODE_MAGIC ->
  node_refs n = 1%N ->
  detachnode (Some q) (Some p) w =
    Ok None {| w_heap := delete p (w_heap w);
               w_plan := w_plan w; w_ldap := w_ldap w; w_manager := w_manager w;
               w_log := EvMemPut (mctx (common d)) p :: EvNameFree (node_owner n)
                          :: EvRdatalistDestroy (node_rdatalist n) :: w_log w |}.
Proof.
  intros Hq Hp Hm Hr.
  assert (Hne : p <> q) by (intros ->; congruence).
  unfold detachnode. unfold bind at 1.
  rewrite (valid_ldapdbnode_live w p n Hp Hm).
  prog. rewrite Hp. prog. rewrite Hr.
  change (N.pred 1 =? 0)%N with true. prog_cbn.
  rewrite lookup_insert_ne by exact Hne. rewrite Hq. prog_cbn.
  rewrite lookup_insert_eq. prog_cbn.
  rewrite delete_insert_eq. reflexivity.
Qed.

(** The same for the Node a lookup has just built at a fresh address. *)
Lemma detachnode_fresh (h : gmap loc object) pl ld mg lg q d nd :
  h !! q = Some (ObjDb d) ->
  node_magic nd = LDAPDBNODE_MAGIC ->
  node_refs nd = 1%N ->
  detachnode (Some q) (Some (fresh (dom h)))
    {| w_heap := <[fresh (dom h) := ObjNode nd]> h;
       w_plan := pl; w_ldap := ld; w_manager := mg; w_log := lg |}
  = Ok None {| w_heap := h; w_plan := pl; w_ldap := ld; w_manager := mg;
               w_log := EvMemPut (mctx (common d)) (fresh (dom h))
                          :: EvNameFree (node_owner nd)
                          :: EvRdatalistDestroy (node_rdatalist nd) :: lg |}.
Proof.
  intros Hq Hm Hr.
  rewrite (detachnode_last _ q d _ nd); prog_cbn.
  - rewrite delete_insert_id by apply fresh_unused. reflexivity.
  - rewrite lookup_insert_ne by (eapply fresh_not_live; exact Hq). exact Hq.
  - apply lookup_insert_eq.
  - exact Hm.
  - exact Hr.
Qed.

(** ** find *)

(** What [find] does when its preconditions hold, the Resolver answers
    with record-lists and the Node can be built.  [r4] is the result of the
    fourth library call, the copy of the found name. *)
Lemma find_run w q d name version type options now nodep foundname rdataset sigrdataset l :
  w_heap w !! q = Some (ObjDb d) ->
  impmagic (common d) = LDAPDB_MAGIC ->
  type <> dns_rdatatype_any ->
  version_ok version ->
  w_ldap w name = (ISC_R_SUCCESS, l) ->
  faultless 3 (w_plan w) ->
  find (Some q) name version type options now nodep foundname rdataset sigrdataset w =
    let r4 := hd ISC_R_SUCCESS (tail (tail (tail (w_plan w)))) in
    let hit (status : isc_result_t) (e : dns_rdatalist_t) :=
      if is_success r4 then
        Ok (status,
            {| out_node := Some (fresh (dom (w_heap w))); out_foundname := Some name;
               out_rdataset := Some e |})
           (found_world w (mctx (common d)) name l)
      else
        Ok (r4,
            {| out_node := nodep; out_foundname := foundname; out_rdataset := Some e |})
           (with_plan (tail (tail (tail (tail (w_plan w)))))
              (released_world w (mctx (common d)) name l)) in
    match ldapdb_rdatalist_findrdatatype l type, cname_scan l with
    | Some e, _ => hit ISC_R_SUCCESS e
    | None, Some c => hit DNS_R_CNAME c
    | None, None =>
        Ok (DNS_R_NXRRSET,
            {| out_node := nodep; out_foundname := foundname; out_rdataset := rdataset |})
           (released_world w (mctx (common d)) name l)
    end.
Proof.
  intros Hq Hm Hty Hv Hl Hpl.
  unfold find.
  unfold bind at 1. rewrite (valid_ldapdb_live w q d Hq Hm).
  unfold bind at 1. cbn [REQUIRE ret].
  unfold bind at 1, INSIST. rewrite (proj2 (Z.eqb_neq _ _) Hty). cbn [negb REQUIRE ret].
  unfold bind at 1. rewrite (version_check_ok version w Hv).
  unfold bind at 1, load_db. rewrite Hq.
  unfold bind at 1. unfold ldapdb_rdatalist_get at 1. prog. rewrite Hl.
  change (bool_decide (ISC_R_SUCCESS = DNS_R_PARTIALMATCH)) with false. prog_cbn.
  rewrite ldapdbnode_create_faultless by exact Hpl. prog_cbn.
  rewrite lookup_insert_eq. prog_cbn.
  rewrite insert_insert_eq, lookup_insert_eq. prog_cbn.
  unfold findrdatatype_call. cbv zeta.
  destruct (ldapdb_rdatalist_findrdatatype l type) as [e|]; prog_cbn.
  - change (bool_decide (ISC_R_SUCCESS = ISC_R_SUCCESS)) with true. prog_cbn.
    rewrite next_result_eq. prog.
    destruct (hd ISC_R_SUCCESS (tail (tail (tail (w_plan w))))) eqn:E4; prog_cbn;
      try reflexivity;
      rewrite (detachnode_fresh _ _ _ _ _ q d) by (first [exact Hq | reflexivity]);
      reflexivity.
  - destruct (cname_scan l) as [c|]; prog_cbn.
    + change (bool_decide (ISC_R_SUCCESS = ISC_R_SUCCESS)) with true. prog_cbn.
      rewrite next_result_eq. prog.
      destruct (hd ISC_R_SUCCESS (tail (tail (tail (w_plan w))))) eqn:E4; prog_cbn;
        try reflexivity;
        rewrite (detachnode_fresh _ _ _ _ _ q d) by (first [exact Hq | reflexivity]);
        reflexivity.
    + rewrite (detachnode_fresh _ _ _ _ _ q d) by (first [exact Hq | reflexivity]).
      reflexivity.
Qed.

(** C1: when [find] runs under its preconditions, the Resolver answers
    with the record-lists [l] of the name and none of the four library
    calls of [find] fails (the three that build the Node and the copy of
    the found name), then
    (1) if [l] holds an entry of the requested type, [find] returns plain
    ISC_R_SUCCESS and binds the result set to the entry the type search
    selects, an entry of [l] of the requested type, whether or not [l] also
    holds a CNAME entry; (2) only if [l] holds no entry of the requested
    type is the CNAME entry looked for, and when there is one [find]
    returns DNS_R_CNAME with the result set bound to a CNAME entry of [l].
    Either way the caller receives the freshly built Node. *)
Theorem find_exact_type_before_cname (w : world) (q : loc) (d : ldapdb_t)
    (name : dns_name_t) (version : dns_dbversion_ptr) (type : dns_rdatatype_t)
    (options : Z) (now : isc_stdtime_t) (nodep : option loc)
    (foundname : option dns_name_t) (rdataset sigrdataset : dns_rdataset_t)
    (l : ldapdb_rdatalist_t) :
  w_heap w !! q = Some (ObjDb d) ->
  impmagic (common d) = LDAPDB_MAGIC ->
  type <> dns_rdatatype_any ->
  version_ok version ->
  w_ldap w name = (ISC_R_SUCCESS, l) ->
  faultless 4 (w_plan w) ->
  ((exists e, e ∈ l /\ rdl_type e = type) ->
   exists e',
     find (Some q) name version type options now nodep foundname rdataset sigrdataset w
     = Ok (ISC_R_SUCCESS,
           {| out_node := Some (fresh (dom (w_heap w))); out_foundname := Some name;
              out_rdataset := Some e' |})
          (found_world w (mctx (common d)) name l)
     /\ ldapdb_rdatalist_findrdatatype l type = Some e'
     /\ e' ∈ l /\ rdl_type e' = type)
  /\ ((forall e, e ∈ l -> rdl_type e <> type) ->
      (exists c, c ∈ l /\ rdl_type c = dns_rdatatype_cname) ->
      exists c',
        find (Some q) name version type options now nodep foundname rdataset sigrdataset w
        = Ok (DNS_R_CNAME,
              {| out_node := Some (fresh (dom (w_heap w))); out_foundname := Some name;
                 out_rdataset := Some c' |})
             (found_world w (mctx (common d)) name l)
        /\ c' ∈ l /\ rdl_type c' = dns_rdatatype_cname).
Proof.
  intros Hq Hm Hty Hv Hl Hpl.
  rewrite (find_run w q d name version type options now nodep foundname rdataset
             sigrdataset l Hq Hm Hty Hv Hl (faultless_weaken 3 _ Hpl)).
  assert (Hr4 : hd ISC_R_SUCCESS (tail (tail (tail (w_plan w)))) = ISC_R_SUCCESS)
    by (apply (faultless_head 0); auto with prog).
  cbv zeta. rewrite Hr4. cbn [is_success].
  split.
  - intros Hex. destruct (findrdatatype_present l type Hex) as [e' He'].
    rewrite He'. exists e'.
    destruct (findrdatatype_Some _ _ _ He') as [Hin Ht]. auto.
  - intros Hnone Hex.
    rewrite (proj2 (findrdatatype_None l type) Hnone).
    destruct (cname_scan_present l Hex) as [c' Hc'].
    rewrite Hc'. exists c'.
    destruct (cname_scan_Some _ _ Hc') as [Hin Ht]. auto.
Qed.

Lemma find_exact_type_before_cname_witness :
  exists e',
    find (Some 1%positive) "both.example." None 1 0 0 None None None None (example_world [])
    = Ok (ISC_R_SUCCESS,
          {| out_node := Some (fresh (dom (w_heap (example_world []))));
             out_foundname := Some "both.example."%string;
             out_rdataset := Some e' |})
         (found_world (example_world []) (mctx (common example_db)) "both.example."
            [rr_cname; rr_a])
    /\ ldapdb_rdatalist_findrdatatype [rr_cname; rr_a] 1 = Some e'
    /\ e' ∈ [rr_cname; rr_a] /\ rdl_type e' = 1.
Proof.
  refine (proj1 (find_exact_type_before_cname (example_world []) 1%positive example_db
                   "both.example." None 1 0 0 None None None None [rr_cname; rr_a]
                   _ _ _ _ _ _) _).
  - reflexivity.
  - reflexivity.
  - discriminate.
  - left; reflexivity.
  - reflexivity.
  - constructor.
  - exists rr_a. split; [right; left | reflexivity].
Defined.

(** C2: when [find] runs under its preconditions, the Resolver answers
    with record-lists that hold neither an entry of the requested type nor
    a CNAME entry, and the Node can be built (none of the three library
    calls of its construction fails), then [find] returns
    DNS_R_NXRRSET (which is not ISC_R_NOTFOUND) and leaves the caller's
    node, name and result set as they were.  The Node it had built is
    released before the return: the record-lists are destroyed, the owner
    name is freed, the block is put back, and the heap is again the heap
    of the call's start. *)
Theorem find_no_such_record_set (w : world) (q : loc) (d : ldapdb_t)
    (name : dns_name_t) (version : dns_dbversion_ptr) (type : dns_rdatatype_t)
    (options : Z) (now : isc_stdtime_t) (nodep : option loc)
    (foundname : option dns_name_t) (rdataset sigrdataset : dns_rdataset_t)
    (l : ldapdb_rdatalist_t) :
  w_heap w !! q = Some (ObjDb d) ->
  impmagic (common d) = LDAPDB_MAGIC ->
  type <> dns_rdatatype_any ->
  version_ok version ->
  w_ldap w name = (ISC_R_SUCCESS, l) ->
  faultless 3 (w_plan w) ->
  (forall e, e ∈ l -> rdl_type e <> type) ->
  (forall e, e ∈ l -> rdl_type e <> dns_rdatatype_cname) ->
  exists w',
    find (Some q) name version type options now nodep foundname rdataset sigrdataset w
    = Ok (DNS_R_NXRRSET,
          {| out_node := nodep; out_foundname := foundname; out_rdataset := rdataset |}) w'
    /\ DNS_R_NXRRSET <> ISC_R_NOTFOUND
    /\ w_heap w' = w_heap w
    /\ w_log w' = EvMemPut (mctx (common d)) (fresh (dom (w_heap w)))
                    :: EvNameFree name
                    :: EvRdatalistDestroy l
                    :: EvNameDup name
                    :: EvMemGet (mctx (common d)) (fresh (dom (w_heap w)))
                    :: EvRdatalistGet name :: w_log w.
Proof.
  intros Hq Hm Hty Hv Hl Hpl Hnone Hnocname.
  rewrite (find_run w q d name version type options now nodep foundname rdataset
             sigrdataset l Hq Hm Hty Hv Hl Hpl).
  cbv zeta.
  rewrite (proj2 (findrdatatype_None l type) Hnone).
  rewrite (proj2 (cname_scan_None l) Hnocname).
  eexists. split; [reflexivity|].
  split; [discriminate|]. split; reflexivity.
Qed.

Lemma find_no_such_record_set_witness :
  exists w',
    find (Some 1%positive) "www.example." None 15 0 0 None None None None (example_world [])
    = Ok (DNS_R_NXRRSET,
          {| out_node := None; out_foundname := None; out_rdataset := None |}) w'
    /\ DNS_R_NXRRSET <> ISC_R_NOTFOUND
    /\ w_heap w' = w_heap (example_world [])
    /\ w_log w' = EvMemPut (mctx (common example_db)) (fresh (dom (w_heap (example_world []))))
                    :: EvNameFree "www.example."
                    :: EvRdatalistDestroy [rr_a]
                    :: EvNameDup "www.example."
                    :: EvMemGet (mctx (common example_db))
                         (fresh (dom (w_heap (example_world []))))
                    :: EvRdatalistGet "www.example." :: w_log (example_world []).
Proof.
  apply (find_no_such_record_set (example_world []) 1%positive example_db
           "www.example." None 15 0 0 None None None None [rr_a]).
  - reflexivity.
  - reflexivity.
  - discriminate.
  - left; reflexivity.
  - reflexivity.
  - constructor.
  - intros e He. apply list_elem_of_singleton in He. subst e. discriminate.
  - intros e He. apply list_elem_of_singleton in He. subst e. discriminate.
Defined.

(** ** Partial matches *)

(** A pointer that passes VALID_LDAPDB can be loaded. *)
Lemma valid_ldapdb_cases db w :
  VALID_LDAPDB db w = Ok false w
  \/ exists p d, db = Some p /\ w_heap w !! p = Some (ObjDb d)
                 /\ VALID_LDAPDB db w = Ok true w /\ load_db db w = Ok d w.
Proof.
  unfold VALID_LDAPDB, load_db.
  destruct db as [p|]; [|left; reflexivity].
  destruct (w_heap w !! p) as [[| d | n]|] eqn:E; try (left; reflexivity).
  destruct (impmagic (common d) =? LDAPDB_MAGIC); [|left; reflexivity].
  right. exists p, d. rewrite E. auto.
Qed.

(** The INSIST that follows the Resolver query in [findnode]: the call
    stops there, in the world the query left, unless the REQUIRE on the
    Store stopped it at its start. *)
Lemma findnode_insist_partial_match w db name create nodep l :
  w_ldap w name = (DNS_R_PARTIALMATCH, l) ->
  findnode db name create nodep w
  = Stop AssertionFailed
      (match VALID_LDAPDB db w with
       | Ok true _ => with_log (EvRdatalistGet name :: w_log w) w
       | _ => w
       end).
Proof.
  intros Hl. unfold findnode. unfold bind at 1.
  destruct (valid_ldapdb_cases db w) as [Hv | (p & d & -> & Hp & Hv & Hload)];
    rewrite Hv; [reflexivity|].
  unfold bind at 1. cbn [REQUIRE ret].
  unfold bind at 1. rewrite Hload.
  unfold bind at 1. unfold ldapdb_rdatalist_get at 1. prog. rewrite Hl.
  reflexivity.
Qed.

(** C3, as the code has it: whenever the Resolver reports a partial match,
    [findnode] stops at an assertion, with either value of the create
    flag.  It returns no result code (so not ISC_R_NOTFOUND) and no Node:
    the INSIST on the Resolver's result comes before the test that would
    turn a partial match into ISC_R_NOTFOUND.  The world in which the call
    stops is the world of its start, with the Resolver query logged when
    the Store passed VALID_LDAPDB: no block was allocated and nothing was
    destroyed. *)
Theorem findnode_partial_match_stops (w : world) (db : option loc) (name : dns_name_t)
    (create : isc_boolean_t) (nodep : option loc) (l : ldapdb_rdatalist_t) :
  w_ldap w name = (DNS_R_PARTIALMATCH, l) ->
  (exists w', findnode db name create nodep w = Stop AssertionFailed w'
              /\ (w' = w \/ w' = with_log (EvRdatalistGet name :: w_log w) w))
  /\ (VALID_LDAPDB db w = Ok true w ->
      findnode db name create nodep w
      = Stop AssertionFailed (with_log (EvRdatalistGet name :: w_log w) w))
  /\ (forall result node w', findnode db name create nodep w <> Ok (result, node) w').
Proof.
  intros Hl. rewrite (findnode_insist_partial_match w db name create nodep l Hl).
  split; [|split; [intros ->; reflexivity | discriminate]].
  eexists. split; [reflexivity|].
  destruct (VALID_LDAPDB db w) as [[|] ?|]; auto.
Qed.

Lemma findnode_partial_match_stops_witness :
  (exists w',
      findnode (Some 1%positive) "deleg.example." ISC_TRUE None (example_world [ISC_R_NOMEMORY])
      = Stop AssertionFailed w'
      /\ (w' = example_world [ISC_R_NOMEMORY]
          \/ w' = with_log (EvRdatalistGet "deleg.example."
                              :: w_log (example_world [ISC_R_NOMEMORY]))
                    (example_world [ISC_R_NOMEMORY])))
  /\ (VALID_LDAPDB (Some 1%positive) (example_world [ISC_R_NOMEMORY])
      = Ok true (example_world [ISC_R_NOMEMORY]) ->
      findnode (Some 1%positive) "deleg.example." ISC_TRUE None (example_world [ISC_R_NOMEMORY])
      = Stop AssertionFailed
          (with_log (EvRdatalistGet "deleg.example."
                       :: w_log (example_world [ISC_R_NOMEMORY]))
             (example_world [ISC_R_NOMEMORY])))
  /\ (forall result node w',
         findnode (Some 1%positive) "deleg.example." ISC_TRUE None
           (example_world [ISC_R_NOMEMORY]) <> Ok (result, node) w').
Proof.
  apply (findnode_partial_match_stops (example_world [ISC_R_NOMEMORY]) (Some 1%positive)
           "deleg.example." ISC_TRUE None [rr_a]).
  reflexivity.
Defined.

(** The claim fails where the Resolver reports a partial match for
    [deleg.example.] and [findnode] is called with create = false: the
    call does not return ISC_R_NOTFOUND, it stops at the assertion. *)
Lemma findnode_partial_match_counterexample :
  w_ldap (example_world []) "deleg.example." = (DNS_R_PARTIALMATCH, [rr_a])
  /\ findnode (Some 1%positive) "deleg.example." ISC_FALSE None (example_world [])
     = Stop AssertionFailed
         (with_log [EvRdatalistGet "deleg.example."] (example_world []))
  /\ forall node w',
       findnode (Some 1%positive) "deleg.example." ISC_FALSE None (example_world [])
       <> Ok (ISC_R_NOTFOUND, node) w'.
Proof.
  split; [reflexivity|]. split; [reflexivity|].
  intros node w' H. vm_compute in H. discriminate H.
Qed.




(** ** findnode in create mode *)

(** C9, as the code has it: [findnode] with create = true on a valid
    Store.  An out-of-memory outcome of the Resolver is returned
    unchanged, with no Node.  Any other outcome that is not a partial
    match, ISC_R_NOTFOUND included, is not returned: the call goes on to
    [ldapdbnode_create], and its result is the result of [findnode].  On
    success the caller receives a fresh Node that holds the record-lists
    the Resolver left behind; on a failure of the node allocation the
    record-lists are destroyed, the failure code is returned and the heap
    is unchanged.  A partial match, finally, stops the call at the INSIST. *)
Theorem findnode_create_ignores_resolver_failure (w : world) (q : loc) (d : ldapdb_t)
    (name : dns_name_t) (nodep : option loc) (r : isc_result_t)
    (l : ldapdb_rdatalist_t) :
  w_heap w !! q = Some (ObjDb d) ->
  impmagic (common d) = LDAPDB_MAGIC ->
  w_ldap w name = (r, l) ->
  (r = DNS_R_PARTIALMATCH ->
   findnode (Some q) name ISC_TRUE nodep w
   = Stop AssertionFailed (with_log (EvRdatalistGet name :: w_log w) w))
  /\ (r = ISC_R_NOMEMORY ->
   exists w',
     findnode (Some q) name ISC_TRUE nodep w = Ok (ISC_R_NOMEMORY, nodep) w'
     /\ w_heap w' = w_heap w)
  /\ (r <> ISC_R_NOMEMORY -> r <> DNS_R_PARTIALMATCH ->
      exists result node w1 w',
        ldapdbnode_create (mctx (common d)) name (Some None)
          (with_log (EvRdatalistGet name :: w_log w) w) = Ok (result, node) w1
        /\ findnode (Some q) name ISC_TRUE nodep w
           = Ok (result, if is_success result then node else nodep) w'
        /\ (result = ISC_R_SUCCESS ->
            node = Some (fresh (dom (w_heap w)))
            /\ w_heap w !! fresh (dom (w_heap w)) = None
            /\ w_heap w' = <[fresh (dom (w_heap w)) := ObjNode (lookup_node name l)]> (w_heap w))
        /\ (result <> ISC_R_SUCCESS ->
            w_heap w' = w_heap w
            /\ w_log w' = EvRdatalistDestroy l :: w_log w1)).
Proof.
  intros Hq Hm Hl.
  split.
  { intros ->. rewrite (findnode_insist_partial_match w _ name _ nodep l Hl).
    rewrite (valid_ldapdb_live w q d Hq Hm). reflexivity. }
  split.
  - intros ->. eexists. unfold findnode.
    unfold bind at 1. rewrite (valid_ldapdb_live w q d Hq Hm).
    unfold bind at 1. cbn [REQUIRE ret].
    unfold bind at 1, load_db. rewrite Hq.
    unfold bind at 1, ldapdb_rdatalist_get. prog. rewrite Hl.
    split; reflexivity.
  - intros Hnm Hnp.
    destruct (ldapdbnode_create_cases (mctx (common d)) name
                (with_log (EvRdatalistGet name :: w_log w) w))
      as (result & node & w1 & Hc & _ & _ & Hcases).
    exists result, node, w1.
    unfold findnode.
    unfold bind at 1. rewrite (valid_ldapdb_live w q d Hq Hm).
    unfold bind at 1. cbn [REQUIRE ret].
    unfold bind at 1, load_db. rewrite Hq.
    unfold bind at 1, ldapdb_rdatalist_get at 1. 
    unfold bind at 1, get_world at 1.
    unfold bind at 1, emit at 1. unfold ret at 1. rewrite Hl.
    unfold bind at 1, INSIST.
    rewrite (bool_decide_eq_false_2 _ Hnp). cbn [negb REQUIRE ret].
    rewrite (bool_decide_eq_false_2 _ Hnm).
    cbn [negb ISC_TRUE]. unfold bind at 1.
    rewrite Hc.
    destruct Hcases as [(-> & -> & Hh & Hlg) | (Hf & -> & Hh)].
    + cbn [failed is_success negb].
      unfold set_node_rdatalist, load_node, store, bind, ret.
      rewrite Hh, lookup_insert_eq. cbn [with_log w_heap] in *.
      eexists. split; [reflexivity|]. split; [reflexivity|]. split.
      * intros _. split; [reflexivity|]. split; [apply fresh_unused|].
        unfold with_heap; cbn [w_heap]. rewrite Hh, insert_insert_eq. reflexivity.
      * intros H; contradiction H; reflexivity.
    + assert (Hfail : failed result = true) by (destruct result; try reflexivity; congruence).
      assert (His : is_success result = false) by (destruct result; try reflexivity; congruence).
      rewrite Hfail, His.
      unfold ldapdb_rdatalist_destroy, emit, bind, ret.
      eexists. split; [reflexivity|]. split; [reflexivity|]. split.
      * intros ->. discriminate His.
      * intros _. unfold with_log; cbn [w_heap w_log]. split; [exact Hh | reflexivity].
Qed.

Lemma findnode_create_ignores_resolver_failure_witness :
  (ISC_R_NOTFOUND = DNS_R_PARTIALMATCH ->
   findnode (Some 1%positive) "nx.example." ISC_TRUE None (example_world [])
   = Stop AssertionFailed
       (with_log (EvRdatalistGet "nx.example." :: w_log (example_world []))
          (example_world [])))
  /\ (ISC_R_NOTFOUND = ISC_R_NOMEMORY ->
   exists w',
     findnode (Some 1%positive) "nx.example." ISC_TRUE None (example_world [])
     = Ok (ISC_R_NOMEMORY, None) w'
     /\ w_heap w' = w_heap (example_world []))
  /\ (ISC_R_NOTFOUND <> ISC_R_NOMEMORY -> ISC_R_NOTFOUND <> DNS_R_PARTIALMATCH ->
      exists result node w1 w',
        ldapdbnode_create (mctx (common example_db)) "nx.example." (Some None)
          (with_log (EvRdatalistGet "nx.example." :: w_log (example_world []))
             (example_world [])) = Ok (result, node) w1
        /\ findnode (Some 1%positive) "nx.example." ISC_TRUE None (example_world [])
           = Ok (result, if is_success result then node else None) w'
        /\ (result = ISC_R_SUCCESS ->
            node = Some (fresh (dom (w_heap (example_world []))))
            /\ w_heap (example_world []) !! fresh (dom (w_heap (example_world []))) = None
            /\ w_heap w' = <[fresh (dom (w_heap (example_world [])))
                               := ObjNode (lookup_node "nx.example." [])]>
                             (w_heap (example_world [])))
        /\ (result <> ISC_R_SUCCESS ->
            w_heap w' = w_heap (example_world [])
            /\ w_log w' = EvRdatalistDestroy [] :: w_log w1)).
Proof.
  apply (findnode_create_ignores_resolver_failure (example_world []) 1%positive example_db
           "nx.example." None ISC_R_NOTFOUND []).
  - reflexivity.
  - reflexivity.
  - reflexivity.
Defined.

(** The claim fails where the Resolver reports a partial match, an outcome
    other than out-of-memory, and the node allocation would succeed:
    [findnode] with create = true does not report success, it stops at the
    assertion. *)
Lemma findnode_create_counterexample :
  w_ldap (example_world []) "deleg.example." = (DNS_R_PARTIALMATCH, [rr_a])
  /\ DNS_R_PARTIALMATCH <> ISC_R_NOMEMORY
  /\ (exists node w',
        ldapdbnode_create (mctx (common example_db)) "deleg.example." (Some None)
          (example_world []) = Ok (ISC_R_SUCCESS, node) w')
  /\ findnode (Some 1%positive) "deleg.example." ISC_TRUE None (example_world [])
     = Stop AssertionFailed
         (with_log [EvRdatalistGet "deleg.example."] (example_world []))
  /\ forall node w',
       findnode (Some 1%positive) "deleg.example." ISC_TRUE None (example_world [])
       <> Ok (ISC_R_SUCCESS, node) w'.
Proof.
  split; [reflexivity|]. split; [discriminate|].
  split; [eexists _, _; vm_compute; reflexivity|].
  split; [reflexivity|].
  intros node w' H. vm_compute in H. discriminate H.
Qed.

(** ** Reference counting *)

Section Refcount.
Variables att det : M (option loc).
(** [alive n w]: the object holds [n] references and is untouched. *)
Variable alive : N -> world -> Prop.
(** [dead w]: the object was destroyed, once. *)
Variable dead : world -> Prop.

Hypothesis att_step : forall n w,
  (0 < n)%N -> alive n w -> exists v w', att w = Ok v w' /\ alive (n + 1) w'.
Hypothesis det_step : forall n w,
  (1 < n)%N -> alive n w -> exists v w', det w = Ok v w' /\ alive (n - 1) w'.
Hypothesis det_last : forall w,
  alive 1 w -> exists v w', det w = Ok v w' /\ dead w'.

Lemma balanced_from_zero ops : balanced_from 0 ops = true -> ops = [].
Proof. destruct ops as [|[|] rest]; simpl; [reflexivity | discriminate | discriminate]. Qed.

Lemma balanced_from_positive n op rest :
  balanced_from n (op :: rest) = true -> (0 < n)%N.
Proof.
  destruct op; simpl; intros H; apply andb_true_iff in H as [H _];
    apply N.ltb_lt in H; exact H.
Qed.

(** A balanced sequence runs to its end and leaves the object destroyed. *)
Lemma run_refops_balanced ops : forall n w,
  (0 < n)%N -> alive n w -> balanced_from n ops = true ->
  exists w', run_refops att det ops w = Ok tt w' /\ dead w'.
Proof.
  induction ops as [|op rest IH]; intros n w Hn Hal Hb.
  - simpl in Hb. apply N.eqb_eq in Hb. lia.
  - destruct op; simpl in Hb; apply andb_true_iff in Hb as [_ Hb]; simpl.
    + destruct (att_step n w Hn Hal) as (v & w1 & Hrun & Hal1).
      destruct (IH (n + 1)%N w1 ltac:(lia) Hal1 Hb) as (w' & Hrest & Hdead).
      exists w'. unfold bind. rewrite Hrun. auto.
    + destruct (N.eq_dec n 1%N) as [-> | Hne].
      * destruct (det_last w Hal) as (v & w1 & Hrun & Hdead).
        change (1 - 1)%N with 0%N in Hb.
        rewrite (balanced_from_zero rest Hb).
        exists w1. unfold bind. rewrite Hrun. auto.
      * destruct (det_step n w ltac:(lia) Hal) as (v & w1 & Hrun & Hal1).
        destruct (IH (n - 1)%N w1 ltac:(lia) Hal1 Hb) as (w' & Hrest & Hdead).
        exists w'. unfold bind. rewrite Hrun. auto.
Qed.

(** Before the last call of a balanced sequence the object is alive. *)
Lemma run_refops_prefix pre : forall suf n w,
  alive n w -> balanced_from n (pre ++ suf) = true -> suf <> [] ->
  exists w1 k, run_refops att det pre w = Ok tt w1 /\ (0 < k)%N /\ alive k w1.
Proof.
  induction pre as [|op rest IH]; intros suf n w Hal Hb Hsuf.
  - exists w, n. split; [reflexivity|]. split; [|exact Hal].
    destruct suf as [|op suf]; [contradiction|].
    exact (balanced_from_positive n op suf Hb).
  - assert (Hn : (0 < n)%N) by exact (balanced_from_positive n op (rest ++ suf) Hb).
    destruct op; simpl in Hb; apply andb_true_iff in Hb as [_ Hb]; simpl.
    + destruct (att_step n w Hn Hal) as (v & w1 & Hrun & Hal1).
      destruct (IH suf (n + 1)%N w1 Hal1 Hb Hsuf) as (w2 & k & Hrest & Hk & Hal2).
      exists w2, k. unfold bind. rewrite Hrun. auto.
    + destruct (N.eq_dec n 1%N) as [-> | Hne].
      * change (1 - 1)%N with 0%N in Hb.
        apply balanced_from_zero in Hb.
        apply app_eq_nil in Hb as [_ Hb]. contradiction.
      * destruct (det_step n w ltac:(lia) Hal) as (v & w1 & Hrun & Hal1).
        destruct (IH suf (n - 1)%N w1 Hal1 Hb Hsuf) as (w2 & k & Hrest & Hk & Hal2).
        exists w2, k. unfold bind. rewrite Hrun. auto.
Qed.
End Refcount.

Lemma attach_alive p c lg n w :
  impmagic c = LDAPDB_MAGIC ->
  store_alive p c lg n w ->
  exists v w', attach (Some p) w = Ok v w' /\ store_alive p c lg (n + 1) w'.
Proof.
  intros Hm (d & Hp & <- & <- & Hlg).
  unfold attach. unfold bind at 1. rewrite (valid_ldapdb_live w p d Hp Hm).
  prog. rewrite Hp. prog.
  eexists _, _. split; [reflexivity|].
  eexists. cbn [w_heap w_log]. rewrite lookup_insert_eq. repeat split. exact Hlg.
Qed.

Lemma detach_alive p c lg n w :
  impmagic c = LDAPDB_MAGIC ->
  (1 < n)%N ->
  store_alive p c lg n w ->
  exists v w', detach (Some p) w = Ok v w' /\ store_alive p c lg (n - 1) w'.
Proof.
  intros Hm Hn (d & Hp & <- & <- & Hlg).
  unfold detach. unfold bind at 1. rewrite (valid_ldapdb_live w p d Hp Hm).
  prog. rewrite Hp. prog.
  assert (Hz : (N.pred (refs d) =? 0)%N = false) by (apply N.eqb_neq; lia).
  rewrite Hz.
  eexists _, _. split; [reflexivity|].
  eexists. cbn [w_heap w_log]. rewrite lookup_insert_eq.
  repeat split; [cbn [refs]; lia | exact Hlg].
Qed.

Lemma detach_last p c lg w :
  impmagic c = LDAPDB_MAGIC ->
  store_alive p c lg 1 w ->
  exists v w', detach (Some p) w = Ok v w' /\ store_destroyed p c lg w'.
Proof.
  intros Hm (d & Hp & <- & Hr & Hlg).
  unfold detach. unfold bind at 1. rewrite (valid_ldapdb_live w p d Hp Hm).
  prog. rewrite Hp. prog. rewrite Hr.
  change (N.pred 1 =? 0)%N with true. prog_cbn.
  rewrite lookup_insert_eq. unfold free_ldapdb. prog.
  eexists _, _. split; [reflexivity|].
  split; cbn [w_heap w_log].
  - apply lookup_delete_eq.
  - rewrite Hlg. reflexivity.
Qed.

Lemma attachnode_alive q d p o l lg n w :
  node_alive q d p o l lg n w ->
  exists v w', attachnode (Some q) (Some p) w = Ok v w'
               /\ node_alive q d p o l lg (n + 1) w'.
Proof.
  intros (nd & Hq & Hp & Hm & <- & <- & <- & Hlg).
  assert (Hne : p <> q) by (intros ->; congruence).
  unfold attachnode. unfold bind at 1. rewrite (valid_ldapdbnode_live w p nd Hp Hm).
  prog. rewrite Hp. prog.
  eexists _, _. split; [reflexivity|].
  eexists. cbn [w_heap w_log].
  rewrite lookup_insert_eq, lookup_insert_ne by exact Hne.
  repeat split; [exact Hq | exact Hm | exact Hlg].
Qed.

Lemma detachnode_alive q d p o l lg n w :
  (1 < n)%N ->
  node_alive q d p o l lg n w ->
  exists v w', detachnode (Some q) (Some p) w = Ok v w'
               /\ node_alive q d p o l lg (n - 1) w'.
Proof.
  intros Hn (nd & Hq & Hp & Hm & <- & <- & <- & Hlg).
  assert (Hne : p <> q) by (intros ->; congruence).
  unfold detachnode. unfold bind at 1. rewrite (valid_ldapdbnode_live w p nd Hp Hm).
  prog. rewrite Hp. prog.
  assert (Hz : (N.pred (node_refs nd) =? 0)%N = false) by (apply N.eqb_neq; lia).
  rewrite Hz.
  eexists _, _. split; [reflexivity|].
  eexists. cbn [w_heap w_log].
  rewrite lookup_insert_eq, lookup_insert_ne by exact Hne.
  repeat split; [exact Hq | exact Hm | cbn [node_refs]; lia | exact Hlg].
Qed.

Lemma detachnode_last_alive q d p o l lg w :
  node_alive q d p o l lg 1 w ->
  exists v w', detachnode (Some q) (Some p) w = Ok v w' /\ node_destroyed d p o l lg w'.
Proof.
  intros (nd & Hq & Hp & Hm & <- & <- & Hr & Hlg).
  rewrite (detachnode_last w q d p nd Hq Hp Hm Hr).
  eexists _, _. split; [reflexivity|].
  split; cbn [w_heap w_log].
  - apply lookup_delete_eq.
  - rewrite Hlg. reflexivity.
Qed.

(** C6: take any balanced sequence of calls on an object that holds the
    one reference of its construction.  For a Store under attach and
    detach, and for a Node under attachnode and detachnode, the sequence
    runs to its end; at the end the object has been destroyed exactly once
    (its block is gone and the log shows the releases of one destruction
    and nothing else); and after every proper prefix of the sequence the
    object is still there with a positive count and an unchanged log, so
    the destruction happens at the last detach and at no earlier one. *)
Theorem refcount_symmetry (ops : list refop) :
  balanced ops = true ->
  (forall w p c lg,
      impmagic c = LDAPDB_MAGIC ->
      store_alive p c lg 1 w ->
      (exists w', store_ops p ops w = Ok tt w' /\ store_destroyed p c lg w')
      /\ (forall pre suf, ops = pre ++ suf -> suf <> [] ->
          exists w1 n, store_ops p pre w = Ok tt w1 /\ (0 < n)%N
                       /\ store_alive p c lg n w1))
  /\ (forall w q d p o l lg,
         node_alive q d p o l lg 1 w ->
         (exists w', node_ops q p ops w = Ok tt w' /\ node_destroyed d p o l lg w')
         /\ (forall pre suf, ops = pre ++ suf -> suf <> [] ->
             exists w1 n, node_ops q p pre w = Ok tt w1 /\ (0 < n)%N
                          /\ node_alive q d p o l lg n w1)).
Proof.
  intros Hb. split.
  - intros w p c lg Hm Hal. split.
    + apply (run_refops_balanced _ _ (store_alive p c lg) (store_destroyed p c lg)
               (fun n w _ => attach_alive p c lg n w Hm)
               (fun n w => detach_alive p c lg n w Hm)
               (fun w => detach_last p c lg w Hm) ops 1%N w); [lia | exact Hal | exact Hb].
    + intros pre suf -> Hsuf.
      apply (run_refops_prefix _ _ (store_alive p c lg)
               (fun n w _ => attach_alive p c lg n w Hm)
               (fun n w => detach_alive p c lg n w Hm) pre suf 1%N w);
        [exact Hal | exact Hb | exact Hsuf].
  - intros w q d p o l lg Hal. split.
    + apply (run_refops_balanced _ _ (node_alive q d p o l lg) (node_destroyed d p o l lg)
               (fun n w _ => attachnode_alive q d p o l lg n w)
               (fun n w => detachnode_alive q d p o l lg n w)
               (fun w => detachnode_last_alive q d p o l lg w) ops 1%N w);
        [lia | exact Hal | exact Hb].
    + intros pre suf -> Hsuf.
      apply (run_refops_prefix _ _ (node_alive q d p o l lg)
               (fun n w _ => attachnode_alive q d p o l lg n w)
               (fun n w => detachnode_alive q d p o l lg n w) pre suf 1%N w);
        [exact Hal | exact Hb | exact Hsuf].
Qed.

Lemma refcount_symmetry_witness :
  (exists w', store_ops 1%positive [Attach; Detach; Detach] (example_world []) = Ok tt w'
              /\ store_destroyed 1%positive (common example_db) [] w')
  /\ (exists w', node_ops 1%positive 2%positive [Attach; Detach; Detach] example_node_world
                 = Ok tt w'
                 /\ node_destroyed example_db 2%positive "alias.example." [rr_cname] [] w').
Proof.
  destruct (refcount_symmetry [Attach; Detach; Detach] eq_refl) as [Hs Hn].
  split.
  - destruct (Hs (example_world []) 1%positive (common example_db) []) as [H _];
      [reflexivity | | exact H].
    exists example_db. repeat split; reflexivity.
  - destruct (Hn example_node_world 1%positive example_db 2%positive
                "alias.example."%string [rr_cname] []) as [H _]; [| exact H].
    exists example_node. repeat split; reflexivity.
Defined.

(** ** Store construction: the unwinding paths *)

(** When the instance manager does not resolve the name and nothing before
    it failed, [ldapdb_create] returns the manager's code, leaves [*dbp]
    null, and has released the lock, the origin name and the block, in the
    reverse of the order it acquired them; the heap is as before. *)
Lemma ldapdb_create_unknown_instance w m name argc argv0 argv r handle :
  0 < argc ->
  faultless 4 (w_plan w) ->
  w_manager w argv0 = (r, handle) ->
  r <> ISC_R_SUCCESS ->
  exists w',
    ldapdb_create m name dns_dbtype_zone dns_rdataclass_in argc (argv0 :: argv) (Some None) w
    = Ok (r, None) w'
    /\ w_heap w' = w_heap w
    /\ w_log w' = EvMemDetach m :: EvMemPut m (fresh (dom (w_heap w)))
                    :: EvNameFree name :: EvDestroyLock
                    :: EvMutexInit :: EvMemAttach m :: EvNameDup name
                    :: EvMemGet m (fresh (dom (w_heap w))) :: w_log w.
Proof.
  intros Hargc Hpl Hmg Hr.
  assert (Hfail : failed r = true) by (destruct r; try reflexivity; congruence).
  unfold ldapdb_create.
  rewrite (proj2 (Z.ltb_lt 0 argc) Hargc).
  change (bool_decide (dns_dbtype_zone = dns_dbtype_zone)) with true.
  change (bool_decide (dns_rdataclass_in = dns_rdataclass_in)) with true.
  unfold clean_lock, clean_origin, clean_ldapdb. prog.
  erewrite next_result_faultless by eassumption. prog.
  erewrite next_result_faultless by (cbn; eauto with prog). prog.
  erewrite next_result_faultless by (cbn; eauto with prog). prog.
  erewrite next_result_faultless by (cbn; eauto with prog). prog.
  rewrite Hmg, Hfail.
  eexists. split; [reflexivity|]. cbn [w_heap w_log].
  split; [apply delete_insert_id, fresh_unused | reflexivity].
Qed.

(** When the copy of the origin name fails, the jump to [clean_ldapdb]
    hands [isc_mem_putanddetach] the field [ldapdb->common.mctx] of a block
    that was never written: the call has no memory context to put the
    block back to, and the failure code is never returned.  The world in
    which the call stops still holds the block. *)
Lemma ldapdb_create_origin_failure w m name argc argv r rest :
  0 < argc ->
  w_plan w = ISC_R_SUCCESS :: r :: rest ->
  r <> ISC_R_SUCCESS ->
  ldapdb_create m name dns_dbtype_zone dns_rdataclass_in argc argv (Some None) w
  = Stop InvalidPointer
      {| w_heap := <[fresh (dom (w_heap w)) := ObjRaw]> (w_heap w);
         w_plan := rest; w_ldap := w_ldap w; w_manager := w_manager w;
         w_log := EvMemGet m (fresh (dom (w_heap w))) :: w_log w |}.
Proof.
  intros Hargc Hpl Hr.
  assert (Hfail : is_success r = false) by (destruct r; try reflexivity; congruence).
  destruct w as [h pl ld mg lg]. cbn [w_plan] in Hpl. subst pl.
  unfold ldapdb_create.
  rewrite (proj2 (Z.ltb_lt 0 argc) Hargc).
  change (bool_decide (dns_dbtype_zone = dns_dbtype_zone)) with true.
  change (bool_decide (dns_rdataclass_in = dns_rdataclass_in)) with true.
  unfold clean_ldapdb. prog.
  unfold next_result at 1. prog.
  unfold next_result at 1. prog.
  rewrite Hfail. prog_cbn. unfold failed. rewrite Hfail. reflexivity.
Qed.

(** C5 fails on the code.  A create call with a valid argument set, in
    which [isc_mem_get] succeeds and the copy of the origin name then runs
    out of memory, is a failure after partial allocation.  The claim has
    create return the failure code after unwinding; the code jumps to
    [clean_ldapdb] before [ldapdb->common.mctx] is assigned, and stops in
    [isc_mem_putanddetach] without returning anything.  In the world in
    which it stops the block is still allocated and the log shows its
    allocation and no release. *)
Theorem ldapdb_create_origin_failure_does_not_unwind :
  ldapdb_create 1%positive "example." dns_dbtype_zone dns_rdataclass_in 1 ["ipa"%string]
    (Some None) (empty_world [ISC_R_SUCCESS; ISC_R_NOMEMORY])
  = Stop InvalidPointer
      {| w_heap := <[1%positive := ObjRaw]> ∅; w_plan := [];
         w_ldap := example_ldap; w_manager := example_manager;
         w_log := [EvMemGet 1%positive 1%positive] |}
  /\ forall dbp w',
       ldapdb_create 1%positive "example." dns_dbtype_zone dns_rdataclass_in 1 ["ipa"%string]
         (Some None) (empty_world [ISC_R_SUCCESS; ISC_R_NOMEMORY])
       <> Ok (ISC_R_NOMEMORY, dbp) w'.
Proof.
  split; [reflexivity|].
  intros dbp w' H. vm_compute in H. discriminate H.
Qed.

(** The two failures between the origin copy and the manager unwind as
    well: a failed [isc_mutex_init] releases the origin name and the
    block, a failed [isc_refcount_init] the lock before them. *)
Lemma ldapdb_create_lock_failure w m name argc argv r rest :
  0 < argc ->
  w_plan w = ISC_R_SUCCESS :: ISC_R_SUCCESS :: r :: rest ->
  r <> ISC_R_SUCCESS ->
  exists w',
    ldapdb_create m name dns_dbtype_zone dns_rdataclass_in argc argv (Some None) w
    = Ok (r, None) w'
    /\ w_heap w' = w_heap w
    /\ w_log w' = EvMemDetach m :: EvMemPut m (fresh (dom (w_heap w)))
                    :: EvNameFree name
                    :: EvMemAttach m :: EvNameDup name
                    :: EvMemGet m (fresh (dom (w_heap w))) :: w_log w.
Proof.
  intros Hargc Hpl Hr.
  assert (Hfail : is_success r = false) by (destruct r; try reflexivity; congruence).
  destruct w as [h pl ld mg lg]. cbn [w_plan] in Hpl. subst pl.
  unfold ldapdb_create.
  rewrite (proj2 (Z.ltb_lt 0 argc) Hargc).
  change (bool_decide (dns_dbtype_zone = dns_dbtype_zone)) with true.
  change (bool_decide (dns_rdataclass_in = dns_rdataclass_in)) with true.
  unfold clean_origin, clean_ldapdb. prog.
  unfold next_result at 1. prog.
  unfold next_result at 1. prog.
  unfold next_result at 1. prog.
  rewrite Hfail. prog_cbn. unfold failed. rewrite Hfail. prog_cbn.
  eexists. split; [reflexivity|]. cbn [w_heap w_log].
  split; [apply delete_insert_id, fresh_unused | reflexivity].
Qed.

Lemma ldapdb_create_refcount_failure w m name argc argv r rest :
  0 < argc ->
  w_plan w = ISC_R_SUCCESS :: ISC_R_SUCCESS :: ISC_R_SUCCESS :: r :: rest ->
  r <> ISC_R_SUCCESS ->
  exists w',
    ldapdb_create m name dns_dbtype_zone dns_rdataclass_in argc argv (Some None) w
    = Ok (r, None) w'
    /\ w_heap w' = w_heap w
    /\ w_log w' = EvMemDetach m :: EvMemPut m (fresh (dom (w_heap w)))
                    :: EvNameFree name :: EvDestroyLock
                    :: EvMutexInit :: EvMemAttach m :: EvNameDup name
                    :: EvMemGet m (fresh (dom (w_heap w))) :: w_log w.
Proof.
  intros Hargc Hpl Hr.
  assert (Hfail : failed r = true) by (destruct r; try reflexivity; congruence).
  destruct w as [h pl ld mg lg]. cbn [w_plan] in Hpl. subst pl.
  unfold ldapdb_create.
  rewrite (proj2 (Z.ltb_lt 0 argc) Hargc).
  change (bool_decide (dns_dbtype_zone = dns_dbtype_zone)) with true.
  change (bool_decide (dns_rdataclass_in = dns_rdataclass_in)) with true.
  unfold clean_lock, clean_origin, clean_ldapdb. prog.
  unfold next_result at 1. prog.
  unfold next_result at 1. prog.
  unfold next_result at 1. prog.
  unfold next_result at 1. prog.
  rewrite Hfail. prog_cbn.
  eexists. split; [reflexivity|]. cbn [w_heap w_log].
  split; [apply delete_insert_id, fresh_unused | reflexivity].
Qed.

(** * Further properties of the driver *)

(** ** Node construction *)

Lemma failed_not_success r : failed r = false -> r = ISC_R_SUCCESS.
Proof. destruct r; simpl; intros H; try discriminate; reflexivity. Qed.

Lemma not_success_failed r : r <> ISC_R_SUCCESS -> failed r = true.
Proof. destruct r; simpl; intros H; try reflexivity; congruence. Qed.

Lemma faultless_heads pl :
  hd ISC_R_SUCCESS pl = ISC_R_SUCCESS ->
  hd ISC_R_SUCCESS (tail pl) = ISC_R_SUCCESS ->
  hd ISC_R_SUCCESS (tail (tail pl)) = ISC_R_SUCCESS ->
  faultless 3 pl.
Proof.
  unfold faultless.
  destruct pl as [|a [|b [|c rest]]]; simpl; intros H1 H2 H3; subst;
    repeat constructor.
Qed.

(** [ldapdbnode_create], read off the plan: the results of its three
    library calls decide the outcome. *)
Lemma ldapdbnode_create_plan m name w :
  ldapdbnode_create m name (Some None) w =
    let p := fresh (dom (w_heap w)) in
    let r1 := hd ISC_R_SUCCESS (w_plan w) in
    let r2 := hd ISC_R_SUCCESS (tail (w_plan w)) in
    let r3 := hd ISC_R_SUCCESS (tail (tail (w_plan w))) in
    if failed r1 then Ok (ISC_R_NOMEMORY, None) (with_plan (tail (w_plan w)) w)
    else if failed r2 then
      Ok (r2, None)
         {| w_heap := w_heap w; w_plan := tail (tail (w_plan w));
            w_ldap := w_ldap w; w_manager := w_manager w;
            w_log := EvMemPut m p :: EvMemGet m p :: w_log w |}
    else if failed r3 then
      Ok (r3, None)
         {| w_heap := w_heap w; w_plan := tail (tail (tail (w_plan w)));
            w_ldap := w_ldap w; w_manager := w_manager w;
            w_log := EvMemPut m p :: EvMemGet m p :: w_log w |}
    else
      Ok (ISC_R_SUCCESS, Some p)
         {| w_heap := <[p := ObjNode (fresh_node name)]> (w_heap w);
            w_plan := tail (tail (tail (w_plan w)));
            w_ldap := w_ldap w; w_manager := w_manager w;
            w_log := EvNameDup name :: EvMemGet m p :: w_log w |}.
Proof.
  cbv zeta.
  assert (Hdel : forall o, delete (fresh (dom (w_heap w)))
                             (<[fresh (dom (w_heap w)) := o]> (w_heap w)) = w_heap w)
    by (intros o; apply delete_insert_id, fresh_unused).
  unfold ldapdbnode_create, failed. prog.
  rewrite next_result_eq. prog.
  destruct (is_success (hd ISC_R_SUCCESS (w_plan w))) eqn:E1; prog_cbn; [|reflexivity].
  rewrite next_result_eq. prog.
  destruct (is_success (hd ISC_R_SUCCESS (tail (w_plan w)))) eqn:E2; prog_cbn.
  2:{ rewrite Hdel. reflexivity. }
  rewrite next_result_eq. prog.
  destruct (is_success (hd ISC_R_SUCCESS (tail (tail (w_plan w))))) eqn:E3; prog_cbn.
  - rewrite insert_insert_eq. reflexivity.
  - rewrite E3. prog_cbn. rewrite Hdel. reflexivity.
Qed.

(** X1: [ldapdbnode_create] is all or nothing.  Called with an empty
    slot it always returns.  On ISC_R_SUCCESS the slot holds a Node at an
    address that was not in use, with one reference, a copy of the owner
    name and no record-lists.  On any other code the slot stays null and
    the heap is the heap of the call's start: the block was put back.  A
    failed block allocation is reported as ISC_R_NOMEMORY.  With a null
    slot pointer or a slot that already holds a Node, the call stops at
    its REQUIRE, in the world of its start. *)
Theorem ldapdbnode_create_all_or_nothing (m : isc_mem_t) (name : dns_name_t) (w : world) :
  (exists result node w',
      ldapdbnode_create m name (Some None) w = Ok (result, node) w'
      /\ (result = ISC_R_SUCCESS ->
          exists p, node = Some p /\ w_heap w !! p = None
                    /\ w_heap w' = <[p := ObjNode {| node_magic := LDAPDBNODE_MAGIC;
                                                    node_refs := 1;
                                                    node_owner := name;
                                                    node_rdatalist := [] |}]> (w_heap w))
      /\ (result <> ISC_R_SUCCESS -> node = None /\ w_heap w' = w_heap w)
      /\ (hd ISC_R_SUCCESS (w_plan w) <> ISC_R_SUCCESS -> result = ISC_R_NOMEMORY))
  /\ (forall nodep : slot loc,
         slot_is_empty nodep = false ->
         ldapdbnode_create m name nodep w = Stop AssertionFailed w).
Proof.
  split.
  - rewrite ldapdbnode_create_plan. cbv zeta.
    destruct (failed (hd ISC_R_SUCCESS (w_plan w))) eqn:E1.
    { eexists _, _, _. split; [reflexivity|].
      repeat split; try discriminate; destruct w; reflexivity. }
    apply failed_not_success in E1.
    destruct (failed (hd ISC_R_SUCCESS (tail (w_plan w)))) eqn:E2.
    { eexists _, _, _. split; [reflexivity|].
      repeat split; try congruence.
      intros H. rewrite H in E2. discriminate E2. }
    destruct (failed (hd ISC_R_SUCCESS (tail (tail (w_plan w))))) eqn:E3.
    { eexists _, _, _. split; [reflexivity|].
      repeat split; try congruence.
      intros H. rewrite H in E3. discriminate E3. }
    eexists _, _, _. split; [reflexivity|].
    split; [|split; congruence].
    intros _. eexists. split; [reflexivity|]. split; [apply fresh_unused | reflexivity].
  - intros nodep Hne. unfold ldapdbnode_create, bind. rewrite Hne. reflexivity.
Qed.

(** ** Reference counting: round trips *)

Lemma ldapdb_eta d : {| common := common d; refs := refs d; ldap_db := ldap_db d |} = d.
Proof. destruct d; reflexivity. Qed.

Lemma ldapdbnode_eta n :
  {| node_magic := node_magic n; node_refs := node_refs n;
     node_owner := node_owner n; node_rdatalist := node_rdatalist n |} = n.
Proof. destruct n; reflexivity. Qed.

Lemma world_eta w :
  {| w_heap := w_heap w; w_plan := w_plan w; w_ldap := w_ldap w;
     w_manager := w_manager w; w_log := w_log w |} = w.
Proof. destruct w; reflexivity. Qed.

(** X2: on a valid Store that holds at least one reference, [attach]
    hands back the very handle it was given, and a [detach] of the new
    handle right after it sets that handle to null and leaves the world
    exactly as it was before the [attach]: same count, nothing freed. *)
Theorem attach_detach_round_trip (w : world) (p : loc) (d : ldapdb_t) :
  w_heap w !! p = Some (ObjDb d) ->
  impmagic (common d) = LDAPDB_MAGIC ->
  (0 < refs d)%N ->
  exists w1,
    attach (Some p) w = Ok (Some p) w1
    /\ w_heap w1 !! p = Some (ObjDb {| common := common d; refs := refs d + 1;
                                      ldap_db := ldap_db d |})
    /\ detach (Some p) w1 = Ok None w.
Proof.
  intros Hp Hm Hr.
  unfold attach. unfold bind at 1. rewrite (valid_ldapdb_live w p d Hp Hm).
  prog. rewrite Hp. prog.
  eexists. split; [reflexivity|]. cbn [w_heap].
  split; [apply lookup_insert_eq|].
  unfold detach. unfold bind at 1.
  erewrite valid_ldapdb_live; [| cbn [w_heap]; apply lookup_insert_eq | exact Hm].
  prog. rewrite lookup_insert_eq. prog.
  assert (Hz : (N.pred (refs d + 1) =? 0)%N = false) by (apply N.eqb_neq; lia).
  rewrite Hz.
  rewrite insert_insert_eq.
  replace (N.pred (refs d + 1)) with (refs d) by lia.
  rewrite ldapdb_eta, (insert_id _ _ _ Hp), world_eta. reflexivity.
Qed.

Lemma attach_detach_round_trip_witness :
  exists w1,
    attach (Some 1%positive) (example_world []) = Ok (Some 1%positive) w1
    /\ w_heap w1 !! 1%positive
       = Some (ObjDb {| common := common example_db; refs := refs example_db + 1;
                        ldap_db := ldap_db example_db |})
    /\ detach (Some 1%positive) w1 = Ok None (example_world []).
Proof.
  apply (attach_detach_round_trip (example_world []) 1%positive example_db).
  - reflexivity.
  - reflexivity.
  - reflexivity.
Defined.

(** X3: the same for a Node: [attachnode] hands back the handle it was
    given, and a [detachnode] right after it nulls the new handle and
    restores the world; the Store argument is not looked at. *)
Theorem attachnode_detachnode_round_trip (w : world) (db : option loc) (p : loc)
    (n : ldapdbnode_t) :
  w_heap w !! p = Some (ObjNode n) ->
  node_magic n = LDAPDBNODE_MAGIC ->
  (0 < node_refs n)%N ->
  exists w1,
    attachnode db (Some p) w = Ok (Some p) w1
    /\ detachnode db (Some p) w1 = Ok None w.
Proof.
  intros Hp Hm Hr.
  unfold attachnode. unfold bind at 1. rewrite (valid_ldapdbnode_live w p n Hp Hm).
  prog. rewrite Hp. prog.
  eexists. split; [reflexivity|].
  unfold detachnode. unfold bind at 1.
  erewrite valid_ldapdbnode_live; [| cbn [w_heap]; apply lookup_insert_eq | exact Hm].
  prog. rewrite lookup_insert_eq. prog.
  assert (Hz : (N.pred (node_refs n + 1) =? 0)%N = false) by (apply N.eqb_neq; lia).
  rewrite Hz.
  rewrite insert_insert_eq.
  replace (N.pred (node_refs n + 1)) with (node_refs n) by lia.
  rewrite ldapdbnode_eta, (insert_id _ _ _ Hp), world_eta. reflexivity.
Qed.

Lemma attachnode_detachnode_round_trip_witness :
  exists w1,
    attachnode None (Some 2%positive) example_node_world = Ok (Some 2%positive) w1
    /\ detachnode None (Some 2%positive) w1 = Ok None example_node_world.
Proof.
  apply (attachnode_detachnode_round_trip example_node_world None 2%positive example_node).
  - reflexivity.
  - reflexivity.
  - reflexivity.
Defined.

(** ** Versions and other preconditions *)

(** X4: the version handles compose.  On a valid Store the token that
    [currentversion] (or [newversion]) stores is accepted by
    [attachversion], and [closeversion] on the handle, with either commit
    flag, takes it back to null; the whole sequence leaves the world
    untouched, so it can be repeated any number of times. *)
Theorem version_open_attach_close (w : world) (p : loc) (d : ldapdb_t)
    (commit : isc_boolean_t) :
  w_heap w !! p = Some (ObjDb d) ->
  impmagic (common d) = LDAPDB_MAGIC ->
  (let* v := currentversion (Some p) (Some None) in
   let* v2 := attachversion (Some p) v (Some None) in
   let* h2 := closeversion (Some p) (Some v2) commit in
   let* h := closeversion (Some p) (Some v) commit in
   ret (h, h2)) w = Ok (None, None) w
  /\ (let* '(r, v) := newversion (Some p) (Some None) in
      let* h := closeversion (Some p) (Some v) commit in
      ret (r, h)) w = Ok (ISC_R_SUCCESS, None) w.
Proof.
  intros Hp Hm.
  assert (Hcur : currentversion (Some p) (Some None) w = Ok ldapdb_version w)
    by (unfold currentversion, bind; rewrite (valid_ldapdb_live w p d Hp Hm); reflexivity).
  assert (Hnew : newversion (Some p) (Some None) w = Ok (ISC_R_SUCCESS, ldapdb_version) w)
    by (unfold newversion, bind; rewrite (valid_ldapdb_live w p d Hp Hm); reflexivity).
  assert (Hatt : attachversion (Some p) ldapdb_version (Some None) w = Ok ldapdb_version w)
    by (unfold attachversion, bind; rewrite (valid_ldapdb_live w p d Hp Hm); reflexivity).
  assert (Hclo : closeversion (Some p) (Some ldapdb_version) commit w = Ok None w)
    by (unfold closeversion, bind; rewrite (valid_ldapdb_live w p d Hp Hm); reflexivity).
  split.
  - unfold bind at 1. rewrite Hcur.
    unfold bind at 1. rewrite Hatt.
    unfold bind at 1. rewrite Hclo.
    unfold bind at 1. rewrite Hclo. reflexivity.
  - unfold bind at 1. rewrite Hnew.
    unfold bind at 1. rewrite Hclo. reflexivity.
Qed.

Lemma version_open_attach_close_witness :
  (let* v := currentversion (Some 1%positive) (Some None) in
   let* v2 := attachversion (Some 1%positive) v (Some None) in
   let* h2 := closeversion (Some 1%positive) (Some v2) ISC_TRUE in
   let* h := closeversion (Some 1%positive) (Some v) ISC_TRUE in
   ret (h, h2)) (example_world []) = Ok (None, None) (example_world [])
  /\ (let* '(r, v) := newversion (Some 1%positive) (Some None) in
      let* h := closeversion (Some 1%positive) (Some v) ISC_TRUE in
      ret (r, h)) (example_world []) = Ok (ISC_R_SUCCESS, None) (example_world []).
Proof.
  apply (version_open_attach_close (example_world []) 1%positive example_db ISC_TRUE);
    reflexivity.
Defined.

Lemma valid_ldapdb_value db w : exists b, VALID_LDAPDB db w = Ok b w.
Proof. unfold VALID_LDAPDB. eexists. reflexivity. Qed.

Lemma valid_ldapdbnode_value node w : exists b, VALID_LDAPDBNODE node w = Ok b w.
Proof. unfold VALID_LDAPDBNODE. eexists. reflexivity. Qed.

(** X5: no method takes a foreign version.  Whatever the other
    arguments and the world are, a version pointer that is neither null
    nor the token stops [find] and [findrdataset] at an assertion; any
    source other than the token (null included) stops [attachversion],
    and any handle that does not hold the token stops [closeversion].
    Each of them stops in the world of its start. *)
Theorem foreign_version_is_rejected (w : world) (a : positive) :
  (forall db name type options now nodep foundname rdataset sigrdataset,
      find db name (Some (addr_other a)) type options now nodep foundname rdataset
        sigrdataset w = Stop AssertionFailed w)
  /\ (forall db node type covers now rdataset sigrdataset,
         findrdataset db node (Some (addr_other a)) type covers now rdataset sigrdataset w
         = Stop AssertionFailed w)
  /\ (forall db source targetp,
         source <> ldapdb_version ->
         attachversion db source targetp w = Stop AssertionFailed w)
  /\ (forall db versionp commit,
         versionp <> Some ldapdb_version ->
         closeversion db versionp commit w = Stop AssertionFailed w).
Proof.
  repeat split.
  - intros db name type options now nodep foundname rdataset sigrdataset.
    unfold find. unfold bind at 1.
    destruct (valid_ldapdb_value db w) as [[|] ->]; [|reflexivity].
    unfold bind at 1. cbn [REQUIRE ret].
    unfold bind at 1, INSIST.
    destruct (type =? dns_rdatatype_any); reflexivity.
  - intros db node type covers now rdataset sigrdataset.
    unfold findrdataset. unfold bind at 1.
    destruct (covers =? 0); [|reflexivity]. cbn [REQUIRE ret].
    unfold bind at 1.
    destruct (valid_ldapdbnode_value node w) as [[|] ->]; reflexivity.
  - intros db source targetp Hs.
    unfold attachversion. unfold bind at 1.
    destruct (valid_ldapdb_value db w) as [[|] ->]; [|reflexivity].
    unfold bind at 1. cbn [REQUIRE ret].
    unfold bind at 1. rewrite (bool_decide_eq_false_2 _ Hs). reflexivity.
  - intros db versionp commit Hs.
    unfold closeversion. unfold bind at 1.
    destruct (valid_ldapdb_value db w) as [[|] ->]; [|reflexivity].
    unfold bind at 1. cbn [REQUIRE ret].
    unfold bind at 1. rewrite (bool_decide_eq_false_2 _ Hs). reflexivity.
Qed.

(** X6: the two unsupported queries stop at an assertion whatever else
    is passed: [find] for the wildcard type ANY, and [findrdataset] with a
    covers argument other than 0.  Both stop in the world of their start:
    the Resolver has not been asked. *)
Theorem unsupported_queries_stop (w : world) :
  (forall db name version options now nodep foundname rdataset sigrdataset,
      find db name version dns_rdatatype_any options now nodep foundname rdataset
        sigrdataset w = Stop AssertionFailed w)
  /\ (forall db node version type covers now rdataset sigrdataset,
         covers <> 0 ->
         findrdataset db node version type covers now rdataset sigrdataset w
         = Stop AssertionFailed w).
Proof.
  split.
  - intros db name version options now nodep foundname rdataset sigrdataset.
    unfold find. unfold bind at 1.
    destruct (valid_ldapdb_value db w) as [[|] ->]; reflexivity.
  - intros db node version type covers now rdataset sigrdataset Hc.
    unfold findrdataset. unfold bind at 1.
    rewrite (proj2 (Z.eqb_neq covers 0) Hc). reflexivity.
Qed.

(** ** findnode: every outcome *)

(** The tail of [findnode] from [ldapdbnode_create] on, started in [w1]. *)
Lemma findnode_build m name (l : ldapdb_rdatalist_t) (nodep : option loc) w1 :
  exists result node w',
    (let* x := ldapdbnode_create m name (Some None) in
     let '(result, node) := x in
     if failed result then
       ldapdb_rdatalist_destroy m l ;;; ret (result, nodep)
     else
       set_node_rdatalist node l ;;; ret (ISC_R_SUCCESS, node)) w1
    = Ok (result, node) w'
    /\ ((result = ISC_R_SUCCESS
         /\ node = Some (fresh (dom (w_heap w1)))
         /\ w_heap w' = <[fresh (dom (w_heap w1)) := ObjNode (lookup_node name l)]> (w_heap w1)
         /\ w_log w' = EvNameDup name :: EvMemGet m (fresh (dom (w_heap w1))) :: w_log w1)
        \/ (result <> ISC_R_SUCCESS
            /\ node = nodep
            /\ w_heap w' = w_heap w1
            /\ exists lg, w_log w' = EvRdatalistDestroy l :: lg)).
Proof.
  unfold bind at 1. rewrite ldapdbnode_create_plan. cbv zeta.
  destruct (failed (hd ISC_R_SUCCESS (w_plan w1))) eqn:E1.
  { prog. eexists _, _, _. split; [reflexivity|]. right.
    repeat split; try discriminate. eexists; reflexivity. }
  destruct (failed (hd ISC_R_SUCCESS (tail (w_plan w1)))) eqn:E2.
  { rewrite E2. prog. eexists _, _, _. split; [reflexivity|]. right.
    repeat split; [intros H; rewrite H in E2; discriminate E2 | eexists; reflexivity]. }
  destruct (failed (hd ISC_R_SUCCESS (tail (tail (w_plan w1))))) eqn:E3.
  { rewrite E3. prog. eexists _, _, _. split; [reflexivity|]. right.
    repeat split; [intros H; rewrite H in E3; discriminate E3 | eexists; reflexivity]. }
  prog. rewrite lookup_insert_eq. prog_cbn. rewrite insert_insert_eq.
  eexists _, _, _. split; [reflexivity|]. left. repeat split.
Qed.

(** The head of [findnode] up to and including the INSIST. *)
Ltac findnode_head Hq Hm Hl Hnp :=
  unfold findnode;
  unfold bind at 1; rewrite (valid_ldapdb_live _ _ _ Hq Hm);
  unfold bind at 1; cbn [REQUIRE ret];
  unfold bind at 1, load_db; rewrite Hq;
  unfold bind at 1, ldapdb_rdatalist_get at 1;
  unfold bind at 1, get_world at 1;
  unfold bind at 1, emit at 1; unfold ret at 1; rewrite Hl;
  unfold bind at 1, INSIST;
  rewrite (bool_decide_eq_false_2 _ Hnp); cbn [negb REQUIRE ret].

(** X7: [findnode] hands out a Node exactly when it returns
    ISC_R_SUCCESS.  On a valid Store, with either create flag, for every
    Resolver outcome but a partial match and whichever library calls fail,
    the call returns; on success [*nodep] is a Node at an address that was
    not in use, holding one reference, a copy of the name and the
    Resolver's record-lists, and every block that existed before is
    unchanged (in particular the Store's reference count: a Node holds no
    reference on its Store); on any other code [*nodep] is as it was and
    the heap is as it was. *)
Theorem findnode_node_iff_success (w : world) (q : loc) (d : ldapdb_t)
    (name : dns_name_t) (create : isc_boolean_t) (nodep : option loc)
    (r : isc_result_t) (l : ldapdb_rdatalist_t) :
  w_heap w !! q = Some (ObjDb d) ->
  impmagic (common d) = LDAPDB_MAGIC ->
  w_ldap w name = (r, l) ->
  r <> DNS_R_PARTIALMATCH ->
  exists result node w',
    findnode (Some q) name create nodep w = Ok (result, node) w'
    /\ (result = ISC_R_SUCCESS ->
        exists p, node = Some p /\ w_heap w !! p = None
                  /\ w_heap w' = <[p := ObjNode (lookup_node name l)]> (w_heap w)
                  /\ forall k o, w_heap w !! k = Some o -> w_heap w' !! k = Some o)
    /\ (result <> ISC_R_SUCCESS -> node = nodep /\ w_heap w' = w_heap w).
Proof.
  intros Hq Hm Hl Hnp.
  findnode_head Hq Hm Hl Hnp.
  destruct (bool_decide (r = ISC_R_NOMEMORY)) eqn:Enm.
  { eexists _, _, _. split; [reflexivity|]. split; [discriminate|].
    intros _. split; reflexivity. }
  cbv zeta.
  assert (Hgo : forall w1, w_heap w1 = w_heap w ->
    exists result node w',
      (let* x := ldapdbnode_create (mctx (common d)) name (Some None) in
       let '(result, node) := x in
       if failed result then
         ldapdb_rdatalist_destroy (mctx (common d)) l ;;; ret (result, nodep)
       else
         set_node_rdatalist node l ;;; ret (ISC_R_SUCCESS, node)) w1
      = Ok (result, node) w'
      /\ (result = ISC_R_SUCCESS ->
          exists p, node = Some p /\ w_heap w !! p = None
                    /\ w_heap w' = <[p := ObjNode (lookup_node name l)]> (w_heap w)
                    /\ forall k o, w_heap w !! k = Some o -> w_heap w' !! k = Some o)
      /\ (result <> ISC_R_SUCCESS -> node = nodep /\ w_heap w' = w_heap w)).
  { intros w1 Hh.
    destruct (findnode_build (mctx (common d)) name l nodep w1)
      as (result & node & w' & Hrun & [(-> & -> & Hheap & _) | (Hf & -> & Hheap & _)]).
    - exists ISC_R_SUCCESS, (Some (fresh (dom (w_heap w1)))), w'.
      split; [exact Hrun|]. rewrite Hh in *. split; [|intros H; contradiction H; reflexivity].
      intros _. eexists. split; [reflexivity|]. split; [apply fresh_unused|].
      split; [exact Hheap|].
      intros k o Hk. rewrite Hheap, lookup_insert_ne; [exact Hk|].
      eapply fresh_not_live; exact Hk.
    - exists result, nodep, w'. split; [exact Hrun|].
      split; [intros H; contradiction (Hf H)|].
      intros _. split; [reflexivity | rewrite Hheap; exact Hh]. }
  destruct create; cbn [negb].
  - apply Hgo. reflexivity.
  - destruct (failed r) eqn:Ef.
    + eexists _, _, _. split; [reflexivity|].
      split; [intros ->; discriminate Ef|]. intros _. split; reflexivity.
    + apply Hgo. reflexivity.
Qed.

Lemma findnode_node_iff_success_witness :
  exists result node w',
    findnode (Some 1%positive) "www.example." ISC_FALSE None
      (example_world [ISC_R_SUCCESS; ISC_R_SUCCESS; ISC_R_NOMEMORY])
    = Ok (result, node) w'
    /\ (result = ISC_R_SUCCESS ->
        exists p, node = Some p
                  /\ w_heap (example_world [ISC_R_SUCCESS; ISC_R_SUCCESS; ISC_R_NOMEMORY]) !! p
                     = None
                  /\ w_heap w' = <[p := ObjNode (lookup_node "www.example." [rr_a])]>
                                   (w_heap (example_world
                                              [ISC_R_SUCCESS; ISC_R_SUCCESS; ISC_R_NOMEMORY]))
                  /\ forall k o,
                       w_heap (example_world [ISC_R_SUCCESS; ISC_R_SUCCESS; ISC_R_NOMEMORY])
                         !! k = Some o -> w_heap w' !! k = Some o)
    /\ (result <> ISC_R_SUCCESS ->
        node = None
        /\ w_heap w' = w_heap (example_world [ISC_R_SUCCESS; ISC_R_SUCCESS; ISC_R_NOMEMORY])).
Proof.
  apply (findnode_node_iff_success
           (example_world [ISC_R_SUCCESS; ISC_R_SUCCESS; ISC_R_NOMEMORY])
           1%positive example_db "www.example." ISC_FALSE None ISC_R_SUCCESS [rr_a]).
  - reflexivity.
  - reflexivity.
  - reflexivity.
  - discriminate.
Defined.

(** The world after a [findnode] that hands a Node out. *)
Lemma findnode_run w q d name create nodep r l :
  w_heap w !! q = Some (ObjDb d) ->
  impmagic (common d) = LDAPDB_MAGIC ->
  w_ldap w name = (r, l) ->
  r <> DNS_R_PARTIALMATCH ->
  r <> ISC_R_NOMEMORY ->
  create || is_success r = true ->
  faultless 3 (w_plan w) ->
  findnode (Some q) name create nodep w =
    Ok (ISC_R_SUCCESS, Some (fresh (dom (w_heap w))))
       {| w_heap := <[fresh (dom (w_heap w)) := ObjNode (lookup_node name l)]> (w_heap w);
          w_plan := tail (tail (tail (w_plan w)));
          w_ldap := w_ldap w; w_manager := w_manager w;
          w_log := EvNameDup name :: EvMemGet (mctx (common d)) (fresh (dom (w_heap w)))
                     :: EvRdatalistGet name :: w_log w |}.
Proof.
  intros Hq Hm Hl Hnp Hnm Hmode Hpl.
  findnode_head Hq Hm Hl Hnp.
  rewrite (bool_decide_eq_false_2 _ Hnm). cbv zeta.
  assert (Hgo :
    (let* x := ldapdbnode_create (mctx (common d)) name (Some None) in
     let '(result, node) := x in
     if failed result then
       ldapdb_rdatalist_destroy (mctx (common d)) l ;;; ret (result, nodep)
     else
       set_node_rdatalist node l ;;; ret (ISC_R_SUCCESS, node))
      (with_log (EvRdatalistGet name :: w_log w) w)
    = Ok (ISC_R_SUCCESS, Some (fresh (dom (w_heap w))))
         {| w_heap := <[fresh (dom (w_heap w)) := ObjNode (lookup_node name l)]> (w_heap w);
            w_plan := tail (tail (tail (w_plan w)));
            w_ldap := w_ldap w; w_manager := w_manager w;
            w_log := EvNameDup name :: EvMemGet (mctx (common d)) (fresh (dom (w_heap w)))
                       :: EvRdatalistGet name :: w_log w |}).
  { unfold bind at 1. rewrite ldapdbnode_create_faultless by exact Hpl.
    prog. rewrite lookup_insert_eq. prog_cbn. rewrite insert_insert_eq. reflexivity. }
  destruct create; cbn [negb].
  - exact Hgo.
  - cbn [orb] in Hmode. unfold failed. rewrite Hmode. cbn [negb]. exact Hgo.
Qed.

(** X8: in lookup mode the Resolver's verdict is final.  With create =
    false on a valid Store, every Resolver failure other than a partial
    match (ISC_R_NOTFOUND, ISC_R_NOMEMORY, any other code) is returned
    unchanged; [*nodep] is not written, no block is allocated and nothing
    is destroyed: the only trace of the call is the query itself. *)
Theorem findnode_lookup_failure_is_returned (w : world) (q : loc) (d : ldapdb_t)
    (name : dns_name_t) (nodep : option loc) (r : isc_result_t)
    (l : ldapdb_rdatalist_t) :
  w_heap w !! q = Some (ObjDb d) ->
  impmagic (common d) = LDAPDB_MAGIC ->
  w_ldap w name = (r, l) ->
  r <> DNS_R_PARTIALMATCH ->
  r <> ISC_R_SUCCESS ->
  findnode (Some q) name ISC_FALSE nodep w
  = Ok (r, nodep) (with_log (EvRdatalistGet name :: w_log w) w).
Proof.
  intros Hq Hm Hl Hnp Hns.
  findnode_head Hq Hm Hl Hnp.
  destruct (bool_decide (r = ISC_R_NOMEMORY)) eqn:Enm.
  - apply bool_decide_eq_true_1 in Enm. subst r. reflexivity.
  - cbv zeta. cbn [negb ISC_FALSE]. rewrite (not_success_failed r Hns). reflexivity.
Qed.

Lemma findnode_lookup_failure_is_returned_witness :
  findnode (Some 1%positive) "nx.example." ISC_FALSE (Some 9%positive) (example_world [])
  = Ok (ISC_R_NOTFOUND, Some 9%positive)
       (with_log (EvRdatalistGet "nx.example." :: w_log (example_world []))
          (example_world [])).
Proof.
  apply (findnode_lookup_failure_is_returned (example_world []) 1%positive example_db
           "nx.example." (Some 9%positive) ISC_R_NOTFOUND []).
  - reflexivity.
  - reflexivity.
  - reflexivity.
  - discriminate.
  - discriminate.
Defined.

(** X9: every lookup builds its own Node.  Two successful [findnode]
    calls for the same name, one after the other, return two different
    addresses; both Nodes are alive afterwards and hold the same owner
    name and the same record-lists, each with its own single reference. *)
Theorem findnode_twice_independent_nodes (w : world) (q : loc) (d : ldapdb_t)
    (name : dns_name_t) (l : ldapdb_rdatalist_t) :
  w_heap w !! q = Some (ObjDb d) ->
  impmagic (common d) = LDAPDB_MAGIC ->
  w_ldap w name = (ISC_R_SUCCESS, l) ->
  faultless 6 (w_plan w) ->
  exists p1 p2 w',
    (let* '(r1, n1) := findnode (Some q) name ISC_FALSE None in
     let* '(r2, n2) := findnode (Some q) name ISC_FALSE None in
     ret (r1, n1, r2, n2)) w
    = Ok (ISC_R_SUCCESS, Some p1, ISC_R_SUCCESS, Some p2) w'
    /\ p1 <> p2
    /\ w_heap w' !! p1 = Some (ObjNode (lookup_node name l))
    /\ w_heap w' !! p2 = Some (ObjNode (lookup_node name l)).
Proof.
  intros Hq Hm Hl Hpl.
  assert (Hpl3 : faultless 3 (w_plan w)) by auto using faultless_weaken.
  assert (Hpl3' : faultless 3 (tail (tail (tail (w_plan w))))) by auto using faultless_tail.
  unfold bind at 1.
  rewrite (findnode_run w q d name ISC_FALSE None ISC_R_SUCCESS l Hq Hm Hl)
    by (first [discriminate | reflexivity | exact Hpl3]).
  unfold bind at 1.
  assert (Hne : fresh (dom (w_heap w)) <> q) by (eapply fresh_not_live; exact Hq).
  erewrite (findnode_run _ q d name ISC_FALSE None ISC_R_SUCCESS l);
    [ | cbn [w_heap]; rewrite lookup_insert_ne by exact Hne; exact Hq
      | exact Hm | exact Hl | discriminate | discriminate | reflexivity | exact Hpl3' ].
  cbn [w_heap].
  set (p1 := fresh (dom (w_heap w))).
  set (h1 := <[p1 := ObjNode (lookup_node name l)]> (w_heap w)).
  assert (H12 : fresh (dom h1) <> p1)
    by (eapply fresh_not_live; unfold h1; apply lookup_insert_eq).
  eexists _, _, _. split; [reflexivity|]. cbn [w_heap].
  split; [congruence|]. split.
  - rewrite lookup_insert_ne by exact H12. unfold h1. apply lookup_insert_eq.
  - apply lookup_insert_eq.
Qed.

Lemma findnode_twice_independent_nodes_witness :
  exists p1 p2 w',
    (let* '(r1, n1) := findnode (Some 1%positive) "www.example." ISC_FALSE None in
     let* '(r2, n2) := findnode (Some 1%positive) "www.example." ISC_FALSE None in
     ret (r1, n1, r2, n2)) (example_world [])
    = Ok (ISC_R_SUCCESS, Some p1, ISC_R_SUCCESS, Some p2) w'
    /\ p1 <> p2
    /\ w_heap w' !! p1 = Some (ObjNode (lookup_node "www.example." [rr_a]))
    /\ w_heap w' !! p2 = Some (ObjNode (lookup_node "www.example." [rr_a])).
Proof.
  apply (findnode_twice_independent_nodes (example_world []) 1%positive example_db
           "www.example." [rr_a]).
  - reflexivity.
  - reflexivity.
  - reflexivity.
  - constructor.
Defined.

(** X10: a Node handed out by [findnode] and given back with
    [detachnode] leaves no trace on the heap.  After the pair of calls the
    heap is the heap of the start, the caller's handle is null, and the
    log shows that the record-lists went back to the Resolver, the owner
    name was freed and the block was put back. *)
Theorem findnode_detachnode_round_trip (w : world) (q : loc) (d : ldapdb_t)
    (name : dns_name_t) (create : isc_boolean_t) (r : isc_result_t)
    (l : ldapdb_rdatalist_t) :
  w_heap w !! q = Some (ObjDb d) ->
  impmagic (common d) = LDAPDB_MAGIC ->
  w_ldap w name = (r, l) ->
  r <> DNS_R_PARTIALMATCH ->
  r <> ISC_R_NOMEMORY ->
  create || is_success r = true ->
  faultless 3 (w_plan w) ->
  exists w',
    (let* '(result, node) := findnode (Some q) name create None in
     let* handle := detachnode (Some q) node in
     ret (result, handle)) w = Ok (ISC_R_SUCCESS, None) w'
    /\ w_heap w' = w_heap w
    /\ w_log w' = EvMemPut (mctx (common d)) (fresh (dom (w_heap w)))
                    :: EvNameFree name :: EvRdatalistDestroy l
                    :: EvNameDup name
                    :: EvMemGet (mctx (common d)) (fresh (dom (w_heap w)))
                    :: EvRdatalistGet name :: w_log w.
Proof.
  intros Hq Hm Hl Hnp Hnm Hmode Hpl.
  unfold bind at 1.
  rewrite (findnode_run w q d name create None r l Hq Hm Hl Hnp Hnm Hmode Hpl).
  unfold bind at 1.
  rewrite (detachnode_fresh _ _ _ _ _ q d) by (first [exact Hq | reflexivity]).
  eexists. split; [reflexivity|]. split; reflexivity.
Qed.

Lemma findnode_detachnode_round_trip_witness :
  exists w',
    (let* '(result, node) := findnode (Some 1%positive) "nx.example." ISC_TRUE None in
     let* handle := detachnode (Some 1%positive) node in
     ret (result, handle)) (example_world []) = Ok (ISC_R_SUCCESS, None) w'
    /\ w_heap w' = w_heap (example_world [])
    /\ w_log w' = EvMemPut (mctx (common example_db)) (fresh (dom (w_heap (example_world []))))
                    :: EvNameFree "nx.example." :: EvRdatalistDestroy []
                    :: EvNameDup "nx.example."
                    :: EvMemGet (mctx (common example_db))
                         (fresh (dom (w_heap (example_world []))))
                    :: EvRdatalistGet "nx.example." :: w_log (example_world []).
Proof.
  apply (findnode_detachnode_round_trip (example_world []) 1%positive example_db
           "nx.example." ISC_TRUE ISC_R_NOTFOUND []).
  - reflexivity.
  - reflexivity.
  - reflexivity.
  - discriminate.
  - discriminate.
  - reflexivity.
  - constructor.
Defined.

(** ** find: every outcome *)

(** X11: [find] returns a Resolver failure as it is.  On a valid Store,
    with a type other than ANY and an acceptable version, every Resolver
    outcome other than success and partial match is the result of [find];
    the caller's node, name and result set are not written, no Node is
    built and nothing is destroyed: the only trace is the query. *)
Theorem find_resolver_failure_is_returned (w : world) (q : loc) (d : ldapdb_t)
    (name : dns_name_t) (version : dns_dbversion_ptr) (type : dns_rdatatype_t)
    (options : Z) (now : isc_stdtime_t) (nodep : option loc)
    (foundname : option dns_name_t) (rdataset sigrdataset : dns_rdataset_t)
    (r : isc_result_t) (l : ldapdb_rdatalist_t) :
  w_heap w !! q = Some (ObjDb d) ->
  impmagic (common d) = LDAPDB_MAGIC ->
  type <> dns_rdatatype_any ->
  version_ok version ->
  w_ldap w name = (r, l) ->
  r <> DNS_R_PARTIALMATCH ->
  r <> ISC_R_SUCCESS ->
  find (Some q) name version type options now nodep foundname rdataset sigrdataset w
  = Ok (r, {| out_node := nodep; out_foundname := foundname; out_rdataset := rdataset |})
       (with_log (EvRdatalistGet name :: w_log w) w).
Proof.
  intros Hq Hm Hty Hv Hl Hnp Hns.
  unfold find.
  unfold bind at 1. rewrite (valid_ldapdb_live w q d Hq Hm).
  unfold bind at 1. cbn [REQUIRE ret].
  unfold bind at 1, INSIST. rewrite (proj2 (Z.eqb_neq _ _) Hty). cbn [negb REQUIRE ret].
  unfold bind at 1. rewrite (version_check_ok version w Hv).
  unfold bind at 1, load_db. rewrite Hq.
  unfold bind at 1. unfold ldapdb_rdatalist_get at 1. prog. rewrite Hl.
  rewrite (bool_decide_eq_false_2 _ Hnp). prog_cbn.
  rewrite (not_success_failed r Hns). reflexivity.
Qed.

Lemma find_resolver_failure_is_returned_witness :
  find (Some 1%positive) "nx.example." None 1 0 0 (Some 9%positive) None (Some rr_cname) None
    (example_world [])
  = Ok (ISC_R_NOTFOUND,
        {| out_node := Some 9%positive; out_foundname := None;
           out_rdataset := Some rr_cname |})
       (with_log (EvRdatalistGet "nx.example." :: w_log (example_world []))
          (example_world [])).
Proof.
  apply (find_resolver_failure_is_returned (example_world []) 1%positive example_db
           "nx.example." None 1 0 0 (Some 9%positive) None (Some rr_cname) None
           ISC_R_NOTFOUND []).
  - reflexivity.
  - reflexivity.
  - discriminate.
  - left; reflexivity.
  - reflexivity.
  - discriminate.
  - discriminate.
Defined.

(** [find] when the Node cannot be built. *)
Lemma find_build_failure w q d name version type options now nodep foundname rdataset
    sigrdataset l res node w2 :
  w_heap w !! q = Some (ObjDb d) ->
  impmagic (common d) = LDAPDB_MAGIC ->
  type <> dns_rdatatype_any ->
  version_ok version ->
  w_ldap w name = (ISC_R_SUCCESS, l) ->
  ldapdbnode_create (mctx (common d)) name (Some None)
    {| w_heap := w_heap w; w_plan := w_plan w; w_ldap := w_ldap w;
       w_manager := w_manager w; w_log := EvRdatalistGet name :: w_log w |}
  = Ok (res, node) w2 ->
  failed res = true ->
  find (Some q) name version type options now nodep foundname rdataset sigrdataset w
  = Ok (res, {| out_node := nodep; out_foundname := foundname; out_rdataset := rdataset |})
       (with_log (EvRdatalistDestroy l :: w_log w2) w2).
Proof.
  intros Hq Hm Hty Hv Hl Hc Hf.
  unfold find.
  unfold bind at 1. rewrite (valid_ldapdb_live w q d Hq Hm).
  unfold bind at 1. cbn [REQUIRE ret].
  unfold bind at 1, INSIST. rewrite (proj2 (Z.eqb_neq _ _) Hty). cbn [negb REQUIRE ret].
  unfold bind at 1. rewrite (version_check_ok version w Hv).
  unfold bind at 1, load_db. rewrite Hq.
  unfold bind at 1. unfold ldapdb_rdatalist_get at 1.
  unfold bind at 1, get_world at 1.
  unfold bind at 1, emit at 1. unfold ret at 1. rewrite Hl.
  unfold bind at 1, INSIST.
  change (bool_decide (ISC_R_SUCCESS = DNS_R_PARTIALMATCH)) with false.
  cbn [negb REQUIRE ret failed is_success andb].
  unfold bind at 1. unfold with_log at 1. cbn [w_heap w_plan w_ldap w_manager w_log].
  rewrite Hc, Hf. reflexivity.
Qed.

Lemma elem_of_log_head (e : event) (lg : list event) : e ∈ e :: lg.
Proof. left. Qed.

(** X12: [find] hands out a Node exactly when it found a record-list,
    and releases what it took otherwise.  On a valid Store, with a type
    other than ANY, an acceptable version and a Resolver that answers with
    the record-lists [l], the call returns whichever library calls fail,
    in one of two ways.  Either the result is ISC_R_SUCCESS or DNS_R_CNAME:
    then the caller holds a Node at an address that was not in use, the
    found name and a result set bound to an entry of [l], and the
    record-lists belong to that Node (they were not destroyed).  Or the
    result is a failure code: then the caller's node and found name are as
    they were, the heap is the heap of the start, and the record-lists
    were handed back to the Resolver. *)
Theorem find_node_iff_found (w : world) (q : loc) (d : ldapdb_t)
    (name : dns_name_t) (version : dns_dbversion_ptr) (type : dns_rdatatype_t)
    (options : Z) (now : isc_stdtime_t) (nodep : option loc)
    (foundname : option dns_name_t) (rdataset sigrdataset : dns_rdataset_t)
    (l : ldapdb_rdatalist_t) :
  w_heap w !! q = Some (ObjDb d) ->
  impmagic (common d) = LDAPDB_MAGIC ->
  type <> dns_rdatatype_any ->
  version_ok version ->
  w_ldap w name = (ISC_R_SUCCESS, l) ->
  exists result out w' new,
    find (Some q) name version type options now nodep foundname rdataset sigrdataset w
    = Ok (result, out) w'
    /\ w_log w' = new ++ w_log w
    /\ (((result = ISC_R_SUCCESS \/ result = DNS_R_CNAME)
         /\ (exists p e, out = {| out_node := Some p; out_foundname := Some name;
                                  out_rdataset := Some e |}
                         /\ e ∈ l /\ w_heap w !! p = None
                         /\ w_heap w' = <[p := ObjNode (lookup_node name l)]> (w_heap w))
         /\ EvRdatalistDestroy l ∉ new)
        \/ (result <> ISC_R_SUCCESS
            /\ out_node out = nodep /\ out_foundname out = foundname
            /\ w_heap w' = w_heap w
            /\ EvRdatalistDestroy l ∈ new)).
Proof.
  intros Hq Hm Hty Hv Hl.
  pose proof (ldapdbnode_create_plan (mctx (common d)) name
                {| w_heap := w_heap w; w_plan := w_plan w; w_ldap := w_ldap w;
                   w_manager := w_manager w; w_log := EvRdatalistGet name :: w_log w |})
    as Hc.
  cbv zeta in Hc. cbn [w_heap w_plan w_ldap w_manager w_log with_plan] in Hc.
  unfold with_plan in Hc. cbn [w_heap w_plan w_ldap w_manager w_log] in Hc.
  destruct (failed (hd ISC_R_SUCCESS (w_plan w))) eqn:E1.
  { rewrite (find_build_failure w q d name version type options now nodep foundname
               rdataset sigrdataset l _ _ _ Hq Hm Hty Hv Hl Hc eq_refl).
    eexists _, _, _, [EvRdatalistDestroy l; EvRdatalistGet name].
    split; [reflexivity|]. split; [reflexivity|]. right.
    repeat split; [discriminate | apply elem_of_log_head]. }
  destruct (failed (hd ISC_R_SUCCESS (tail (w_plan w)))) eqn:E2.
  { rewrite (find_build_failure w q d name version type options now nodep foundname
               rdataset sigrdataset l _ _ _ Hq Hm Hty Hv Hl Hc E2).
    eexists _, _, _, [EvRdatalistDestroy l; _; _; EvRdatalistGet name].
    split; [reflexivity|]. split; [reflexivity|]. right.
    repeat split; [intros H; rewrite H in E2; discriminate E2 | apply elem_of_log_head]. }
  destruct (failed (hd ISC_R_SUCCESS (tail (tail (w_plan w))))) eqn:E3.
  { rewrite (find_build_failure w q d name version type options now nodep foundname
               rdataset sigrdataset l _ _ _ Hq Hm Hty Hv Hl Hc E3).
    eexists _, _, _, [EvRdatalistDestroy l; _; _; EvRdatalistGet name].
    split; [reflexivity|]. split; [reflexivity|]. right.
    repeat split; [intros H; rewrite H in E3; discriminate E3 | apply elem_of_log_head]. }
  clear Hc.
  assert (Hpl : faultless 3 (w_plan w))
    by (apply faultless_heads; apply failed_not_success; assumption).
  rewrite (find_run w q d name version type options now nodep foundname rdataset
             sigrdataset l Hq Hm Hty Hv Hl Hpl).
  cbv zeta.
  assert (Hkeep : EvRdatalistDestroy l ∉
                  [EvNameDup name; EvNameDup name;
                   EvMemGet (mctx (common d)) (fresh (dom (w_heap w)));
                   EvRdatalistGet name]).
  { intros H. repeat (apply elem_of_cons in H as [H|H]; [discriminate H|]).
    inversion H. }
  assert (Hgone : EvRdatalistDestroy l ∈
                  [EvMemPut (mctx (common d)) (fresh (dom (w_heap w))); EvNameFree name;
                   EvRdatalistDestroy l; EvNameDup name;
                   EvMemGet (mctx (common d)) (fresh (dom (w_heap w)));
                   EvRdatalistGet name])
    by (right; right; left).
  assert (Hhit : forall status e,
            status = ISC_R_SUCCESS \/ status = DNS_R_CNAME -> e ∈ l ->
            exists result out w' new,
              (if is_success (hd ISC_R_SUCCESS (tail (tail (tail (w_plan w))))) then
                 Ok (status,
                     {| out_node := Some (fresh (dom (w_heap w)));
                        out_foundname := Some name; out_rdataset := Some e |})
                    (found_world w (mctx (common d)) name l)
               else
                 Ok (hd ISC_R_SUCCESS (tail (tail (tail (w_plan w)))),
                     {| out_node := nodep; out_foundname := foundname;
                        out_rdataset := Some e |})
                    (with_plan (tail (tail (tail (tail (w_plan w)))))
                       (released_world w (mctx (common d)) name l)))
              = Ok (result, out) w'
              /\ w_log w' = new ++ w_log w
              /\ (((result = ISC_R_SUCCESS \/ result = DNS_R_CNAME)
                   /\ (exists p e, out = {| out_node := Some p; out_foundname := Some name;
                                            out_rdataset := Some e |}
                                   /\ e ∈ l /\ w_heap w !! p = None
                                   /\ w_heap w' = <[p := ObjNode (lookup_node name l)]>
                                                    (w_heap w))
                   /\ EvRdatalistDestroy l ∉ new)
                  \/ (result <> ISC_R_SUCCESS
                      /\ out_node out = nodep /\ out_foundname out = foundname
                      /\ w_heap w' = w_heap w
                      /\ EvRdatalistDestroy l ∈ new))).
  { intros status e Hst He.
    destruct (is_success (hd ISC_R_SUCCESS (tail (tail (tail (w_plan w)))))) eqn:E4.
    - eexists _, _, _, [EvNameDup name; EvNameDup name;
                   EvMemGet (mctx (common d)) (fresh (dom (w_heap w)));
                   EvRdatalistGet name].
      split; [reflexivity|]. split; [reflexivity|]. left.
      split; [exact Hst|]. split; [|exact Hkeep].
      eexists _, e. split; [reflexivity|]. split; [exact He|].
      split; [apply fresh_unused | reflexivity].
    - eexists _, _, _, [EvMemPut (mctx (common d)) (fresh (dom (w_heap w))); EvNameFree name;
                   EvRdatalistDestroy l; EvNameDup name;
                   EvMemGet (mctx (common d)) (fresh (dom (w_heap w)));
                   EvRdatalistGet name].
      split; [reflexivity|]. split; [reflexivity|]. right.
      split; [intros H; rewrite H in E4; discriminate E4|].
      repeat split. exact Hgone. }
  destruct (ldapdb_rdatalist_findrdatatype l type) as [e|] eqn:Ee.
  - apply Hhit; [left; reflexivity | exact (proj1 (findrdatatype_Some _ _ _ Ee))].
  - destruct (cname_scan l) as [c|] eqn:Ec.
    + apply Hhit; [right; reflexivity | exact (proj1 (cname_scan_Some _ _ Ec))].
    + eexists _, _, _, [EvMemPut (mctx (common d)) (fresh (dom (w_heap w))); EvNameFree name;
                   EvRdatalistDestroy l; EvNameDup name;
                   EvMemGet (mctx (common d)) (fresh (dom (w_heap w)));
                   EvRdatalistGet name].
      split; [reflexivity|]. split; [reflexivity|]. right.
      split; [discriminate|]. repeat split. exact Hgone.
Qed.

Lemma find_node_iff_found_witness :
  exists result out w' new,
    find (Some 1%positive) "alias.example." None 1 0 0 None None None None
      (example_world [ISC_R_SUCCESS; ISC_R_NOMEMORY])
    = Ok (result, out) w'
    /\ w_log w' = new ++ w_log (example_world [ISC_R_SUCCESS; ISC_R_NOMEMORY])
    /\ (((result = ISC_R_SUCCESS \/ result = DNS_R_CNAME)
         /\ (exists p e, out = {| out_node := Some p;
                                  out_foundname := Some "alias.example."%string;
                                  out_rdataset := Some e |}
                         /\ e ∈ [rr_cname]
                         /\ w_heap (example_world [ISC_R_SUCCESS; ISC_R_NOMEMORY]) !! p = None
                         /\ w_heap w' = <[p := ObjNode (lookup_node "alias.example." [rr_cname])]>
                                          (w_heap (example_world [ISC_R_SUCCESS; ISC_R_NOMEMORY])))
         /\ EvRdatalistDestroy [rr_cname] ∉ new)
        \/ (result <> ISC_R_SUCCESS
            /\ out_node out = None /\ out_foundname out = None
            /\ w_heap w' = w_heap (example_world [ISC_R_SUCCESS; ISC_R_NOMEMORY])
            /\ EvRdatalistDestroy [rr_cname] ∈ new)).
Proof.
  apply (find_node_iff_found (example_world [ISC_R_SUCCESS; ISC_R_NOMEMORY]) 1%positive
           example_db "alias.example." None 1 0 0 None None None None [rr_cname]).
  - reflexivity.
  - reflexivity.
  - discriminate.
  - left; reflexivity.
  - reflexivity.
Defined.

(** X13: when the copy of the found name fails, [find] undoes the
    lookup but not the result set.  With the Node built and a record-list
    [e] selected (by the type search, or else by the CNAME loop), a
    failure of [dns_name_dupwithoffsets] is returned as the result; the
    Node is released, the heap is the heap of the start and the caller's
    node and found name are untouched.  The caller's result set, however,
    was bound to the selected record-list before the copy and stays
    bound, although the record-lists have been destroyed with the Node. *)
Theorem find_name_copy_failure (w : world) (q : loc) (d : ldapdb_t)
    (name : dns_name_t) (version : dns_dbversion_ptr) (type : dns_rdatatype_t)
    (options : Z) (now : isc_stdtime_t) (nodep : option loc)
    (foundname : option dns_name_t) (rdataset sigrdataset : dns_rdataset_t)
    (l : ldapdb_rdatalist_t) (e : dns_rdatalist_t) (r4 : isc_result_t) :
  w_heap w !! q = Some (ObjDb d) ->
  impmagic (common d) = LDAPDB_MAGIC ->
  type <> dns_rdatatype_any ->
  version_ok version ->
  w_ldap w name = (ISC_R_SUCCESS, l) ->
  faultless 3 (w_plan w) ->
  hd ISC_R_SUCCESS (tail (tail (tail (w_plan w)))) = r4 ->
  r4 <> ISC_R_SUCCESS ->
  find_selection l type = Some e ->
  exists w',
    find (Some q) name version type options now nodep foundname rdataset sigrdataset w
    = Ok (r4, {| out_node := nodep; out_foundname := foundname; out_rdataset := Some e |}) w'
    /\ w_heap w' = w_heap w
    /\ w_log w' = EvMemPut (mctx (common d)) (fresh (dom (w_heap w)))
                    :: EvNameFree name :: EvRdatalistDestroy l
                    :: EvNameDup name
                    :: EvMemGet (mctx (common d)) (fresh (dom (w_heap w)))
                    :: EvRdatalistGet name :: w_log w.
Proof.
  intros Hq Hm Hty Hv Hl Hpl Hr4 Hfail Hsel.
  rewrite (find_run w q d name version type options now nodep foundname rdataset
             sigrdataset l Hq Hm Hty Hv Hl Hpl).
  cbv zeta. rewrite Hr4.
  assert (His : is_success r4 = false) by (destruct r4; try reflexivity; congruence).
  rewrite His. unfold find_selection in Hsel.
  destruct (ldapdb_rdatalist_findrdatatype l type) as [y|] eqn:Ey.
  - injection Hsel as ->. eexists. split; [reflexivity|]. split; reflexivity.
  - rewrite Hsel. eexists. split; [reflexivity|]. split; reflexivity.
Qed.

Lemma find_name_copy_failure_witness :
  exists w',
    find (Some 1%positive) "www.example." None 1 0 0 None None None None
      (example_world [ISC_R_SUCCESS; ISC_R_SUCCESS; ISC_R_SUCCESS; ISC_R_NOMEMORY])
    = Ok (ISC_R_NOMEMORY,
          {| out_node := None; out_foundname := None; out_rdataset := Some rr_a |}) w'
    /\ w_heap w'
       = w_heap (example_world [ISC_R_SUCCESS; ISC_R_SUCCESS; ISC_R_SUCCESS; ISC_R_NOMEMORY])
    /\ w_log w'
       = EvMemPut (mctx (common example_db))
           (fresh (dom (w_heap (example_world
                                  [ISC_R_SUCCESS; ISC_R_SUCCESS; ISC_R_SUCCESS; ISC_R_NOMEMORY]))))
           :: EvNameFree "www.example." :: EvRdatalistDestroy [rr_a]
           :: EvNameDup "www.example."
           :: EvMemGet (mctx (common example_db))
                (fresh (dom (w_heap (example_world
                                       [ISC_R_SUCCESS; ISC_R_SUCCESS; ISC_R_SUCCESS;
                                        ISC_R_NOMEMORY]))))
           :: EvRdatalistGet "www.example."
           :: w_log (example_world
                       [ISC_R_SUCCESS; ISC_R_SUCCESS; ISC_R_SUCCESS; ISC_R_NOMEMORY]).
Proof.
  apply (find_name_copy_failure
           (example_world [ISC_R_SUCCESS; ISC_R_SUCCESS; ISC_R_SUCCESS; ISC_R_NOMEMORY])
           1%positive example_db "www.example." None 1 0 0 None None None None [rr_a]
           rr_a ISC_R_NOMEMORY).
  - reflexivity.
  - reflexivity.
  - discriminate.
  - left; reflexivity.
  - reflexivity.
  - repeat constructor.
  - reflexivity.
  - discriminate.
  - reflexivity.
Defined.

(** ** find and the calls that follow it *)

Lemma cname_scan_is_type_search l :
  cname_scan l = ldapdb_rdatalist_findrdatatype l dns_rdatatype_cname.
Proof.
  induction l as [|x r IH]; simpl; [reflexivity|].
  destruct (rdl_type x =? dns_rdatatype_cname); simpl; [reflexivity | exact IH].
Qed.

(** [find] when a record-list is selected and nothing fails. *)
Lemma find_hit w q d name version type options now nodep foundname rdataset sigrdataset l e :
  w_heap w !! q = Some (ObjDb d) ->
  impmagic (common d) = LDAPDB_MAGIC ->
  type <> dns_rdatatype_any ->
  version_ok version ->
  w_ldap w name = (ISC_R_SUCCESS, l) ->
  faultless 4 (w_plan w) ->
  find_selection l type = Some e ->
  find (Some q) name version type options now nodep foundname rdataset sigrdataset w
  = Ok (match ldapdb_rdatalist_findrdatatype l type with
        | Some _ => ISC_R_SUCCESS
        | None => DNS_R_CNAME
        end,
        {| out_node := Some (fresh (dom (w_heap w))); out_foundname := Some name;
           out_rdataset := Some e |})
       (found_world w (mctx (common d)) name l).
Proof.
  intros Hq Hm Hty Hv Hl Hpl Hsel.
  rewrite (find_run w q d name version type options now nodep foundname rdataset
             sigrdataset l Hq Hm Hty Hv Hl (faultless_weaken 3 _ Hpl)).
  assert (Hr4 : hd ISC_R_SUCCESS (tail (tail (tail (w_plan w)))) = ISC_R_SUCCESS)
    by (apply (faultless_head 0); auto with prog).
  cbv zeta. rewrite Hr4. cbn [is_success]. unfold find_selection in Hsel.
  destruct (ldapdb_rdatalist_findrdatatype l type) as [y|].
  - injection Hsel as ->. reflexivity.
  - rewrite Hsel. reflexivity.
Qed.

Lemma findrdataset_run w db p n version type now rdataset sigrdataset :
  w_heap w !! p = Some (ObjNode n) ->
  node_magic n = LDAPDBNODE_MAGIC ->
  version_ok version ->
  findrdataset db (Some p) version type 0 now rdataset sigrdataset w
  = match ldapdb_rdatalist_findrdatatype (node_rdatalist n) type with
    | Some e => Ok (ISC_R_SUCCESS, Some e) w
    | None => Ok (ISC_R_NOTFOUND, rdataset) w
    end.
Proof.
  intros Hp Hm Hv.
  unfold findrdataset, findrdatatype_call.
  unfold bind at 1. cbn [REQUIRE Z.eqb ret].
  unfold bind at 1. rewrite (valid_ldapdbnode_live w p n Hp Hm).
  unfold bind at 1. cbn [REQUIRE ret].
  unfold bind at 1. rewrite (version_check_ok version w Hv).
  unfold bind at 1, load_node. rewrite Hp.
  destruct (ldapdb_rdatalist_findrdatatype (node_rdatalist n) type); reflexivity.
Qed.

(** X14: the Node that [find] hands out answers [findrdataset] the way
    [find] answered.  After a [find] that returned ISC_R_SUCCESS with the
    result set bound to [e], [findrdataset] on the returned Node for the
    same type succeeds and binds the same [e].  After a [find] that
    returned DNS_R_CNAME with the result set bound to [c],
    [findrdataset] on the returned Node fails for the requested type with
    ISC_R_NOTFOUND, leaving its result set alone, and succeeds for the type
    CNAME with the same [c].  Neither [findrdataset] changes the world. *)
Theorem find_then_findrdataset (w : world) (q : loc) (d : ldapdb_t)
    (name : dns_name_t) (version : dns_dbversion_ptr) (type : dns_rdatatype_t)
    (options : Z) (now : isc_stdtime_t) (rs : dns_rdataset_t)
    (l : ldapdb_rdatalist_t) :
  w_heap w !! q = Some (ObjDb d) ->
  impmagic (common d) = LDAPDB_MAGIC ->
  type <> dns_rdatatype_any ->
  version_ok version ->
  w_ldap w name = (ISC_R_SUCCESS, l) ->
  faultless 4 (w_plan w) ->
  (forall e, ldapdb_rdatalist_findrdatatype l type = Some e ->
     (let* '(r1, out) := find (Some q) name version type options now None None None None in
      let* '(r2, rs2) := findrdataset (Some q) (out_node out) version type 0 now rs None in
      ret (r1, out_rdataset out, r2, rs2)) w
     = Ok (ISC_R_SUCCESS, Some e, ISC_R_SUCCESS, Some e)
          (found_world w (mctx (common d)) name l))
  /\ (forall c, ldapdb_rdatalist_findrdatatype l type = None -> cname_scan l = Some c ->
        (let* '(r1, out) := find (Some q) name version type options now None None None None in
         let* '(r2, rs2) := findrdataset (Some q) (out_node out) version type 0 now rs None in
         let* '(r3, rs3) := findrdataset (Some q) (out_node out) version dns_rdatatype_cname
                              0 now rs None in
         ret (r1, out_rdataset out, r2, rs2, r3, rs3)) w
        = Ok (DNS_R_CNAME, Some c, ISC_R_NOTFOUND, rs, ISC_R_SUCCESS, Some c)
             (found_world w (mctx (common d)) name l)).
Proof.
  intros Hq Hm Hty Hv Hl Hpl.
  assert (Hnode : w_heap (found_world w (mctx (common d)) name l) !! fresh (dom (w_heap w))
                  = Some (ObjNode (lookup_node name l)))
    by (cbn [found_world w_heap]; apply lookup_insert_eq).
  split.
  - intros e He.
    unfold bind at 1.
    rewrite (find_hit w q d name version type options now None None None None l e
               Hq Hm Hty Hv Hl Hpl) by (unfold find_selection; rewrite He; reflexivity).
    rewrite He. cbn [out_node out_rdataset].
    unfold bind at 1.
    rewrite (findrdataset_run _ (Some q) _ (lookup_node name l) version type now rs None
               Hnode eq_refl Hv).
    cbn [lookup_node node_rdatalist]. rewrite He. reflexivity.
  - intros c He Hc.
    unfold bind at 1.
    rewrite (find_hit w q d name version type options now None None None None l c
               Hq Hm Hty Hv Hl Hpl) by (unfold find_selection; rewrite He; exact Hc).
    rewrite He. cbn [out_node out_rdataset].
    unfold bind at 1.
    rewrite (findrdataset_run _ (Some q) _ (lookup_node name l) version type now rs None
               Hnode eq_refl Hv).
    cbn [lookup_node node_rdatalist]. rewrite He.
    unfold bind at 1.
    rewrite (findrdataset_run _ (Some q) _ (lookup_node name l) version dns_rdatatype_cname
               now rs None Hnode eq_refl Hv).
    cbn [lookup_node node_rdatalist]. rewrite <- cname_scan_is_type_search, Hc.
    reflexivity.
Qed.

Lemma find_then_findrdataset_witness :
  (forall e, ldapdb_rdatalist_findrdatatype [rr_cname] 1 = Some e ->
     (let* '(r1, out) := find (Some 1%positive) "alias.example." None 1 0 0
                           None None None None in
      let* '(r2, rs2) := findrdataset (Some 1%positive) (out_node out) None 1 0 0 None None in
      ret (r1, out_rdataset out, r2, rs2)) (example_world [])
     = Ok (ISC_R_SUCCESS, Some e, ISC_R_SUCCESS, Some e)
          (found_world (example_world []) (mctx (common example_db)) "alias.example."
             [rr_cname]))
  /\ (forall c, ldapdb_rdatalist_findrdatatype [rr_cname] 1 = None ->
        cname_scan [rr_cname] = Some c ->
        (let* '(r1, out) := find (Some 1%positive) "alias.example." None 1 0 0
                              None None None None in
         let* '(r2, rs2) := findrdataset (Some 1%positive) (out_node out) None 1 0 0
                              None None in
         let* '(r3, rs3) := findrdataset (Some 1%positive) (out_node out) None
                              dns_rdatatype_cname 0 0 None None in
         ret (r1, out_rdataset out, r2, rs2, r3, rs3)) (example_world [])
        = Ok (DNS_R_CNAME, Some c, ISC_R_NOTFOUND, None, ISC_R_SUCCESS, Some c)
             (found_world (example_world []) (mctx (common example_db)) "alias.example."
                [rr_cname])).
Proof.
  apply (find_then_findrdataset (example_world []) 1%positive example_db "alias.example."
           None 1 0 0 None [rr_cname]).
  - reflexivity.
  - reflexivity.
  - discriminate.
  - left; reflexivity.
  - reflexivity.
  - constructor.
Defined.

(** X15: a Node handed out by [find] and given back with [detachnode]
    leaves no trace on the heap.  Whenever [find] selects a record-list
    and nothing fails, the pair of calls ends with a null handle and the
    heap of the start; the record-lists went back to the Resolver. *)
Theorem find_detachnode_round_trip (w : world) (q : loc) (d : ldapdb_t)
    (name : dns_name_t) (version : dns_dbversion_ptr) (type : dns_rdatatype_t)
    (options : Z) (now : isc_stdtime_t) (l : ldapdb_rdatalist_t) (e : dns_rdatalist_t) :
  w_heap w !! q = Some (ObjDb d) ->
  impmagic (common d) = LDAPDB_MAGIC ->
  type <> dns_rdatatype_any ->
  version_ok version ->
  w_ldap w name = (ISC_R_SUCCESS, l) ->
  faultless 4 (w_plan w) ->
  find_selection l type = Some e ->
  exists result w',
    (let* '(result, out) := find (Some q) name version type options now None None None None in
     let* handle := detachnode (Some q) (out_node out) in
     ret (result, handle)) w = Ok (result, None) w'
    /\ (result = ISC_R_SUCCESS \/ result = DNS_R_CNAME)
    /\ w_heap w' = w_heap w
    /\ w_log w' = EvMemPut (mctx (common d)) (fresh (dom (w_heap w)))
                    :: EvNameFree name :: EvRdatalistDestroy l
                    :: EvNameDup name :: EvNameDup name
                    :: EvMemGet (mctx (common d)) (fresh (dom (w_heap w)))
                    :: EvRdatalistGet name :: w_log w.
Proof.
  intros Hq Hm Hty Hv Hl Hpl Hsel.
  unfold bind at 1.
  rewrite (find_hit w q d name version type options now None None None None l e
             Hq Hm Hty Hv Hl Hpl Hsel).
  cbn [out_node]. unfold bind at 1. unfold found_world.
  rewrite (detachnode_fresh _ _ _ _ _ q d) by (first [exact Hq | reflexivity]).
  eexists _, _. split; [reflexivity|].
  split; [destruct (ldapdb_rdatalist_findrdatatype l type); auto|].
  split; reflexivity.
Qed.

Lemma find_detachnode_round_trip_witness :
  exists result w',
    (let* '(result, out) := find (Some 1%positive) "both.example." ldapdb_version 1 0 0
                              None None None None in
     let* handle := detachnode (Some 1%positive) (out_node out) in
     ret (result, handle)) (example_world []) = Ok (result, None) w'
    /\ (result = ISC_R_SUCCESS \/ result = DNS_R_CNAME)
    /\ w_heap w' = w_heap (example_world [])
    /\ w_log w' = EvMemPut (mctx (common example_db)) (fresh (dom (w_heap (example_world []))))
                    :: EvNameFree "both.example." :: EvRdatalistDestroy [rr_cname; rr_a]
                    :: EvNameDup "both.example." :: EvNameDup "both.example."
                    :: EvMemGet (mctx (common example_db))
                         (fresh (dom (w_heap (example_world []))))
                    :: EvRdatalistGet "both.example." :: w_log (example_world []).
Proof.
  apply (find_detachnode_round_trip (example_world []) 1%positive example_db
           "both.example." ldapdb_version 1 0 0 [rr_cname; rr_a] rr_a).
  - reflexivity.
  - reflexivity.
  - discriminate.
  - right; reflexivity.
  - reflexivity.
  - constructor.
  - reflexivity.
Defined.

(** X16: a query for the type CNAME itself is never redirected.  When
    nothing fails, [find] for dns_rdatatype_cname returns ISC_R_SUCCESS
    with the first CNAME entry if the name has one and DNS_R_NXRRSET if it
    has none; it does not return DNS_R_CNAME. *)
Theorem find_cname_type_is_exact (w : world) (q : loc) (d : ldapdb_t)
    (name : dns_name_t) (version : dns_dbversion_ptr) (options : Z) (now : isc_stdtime_t)
    (nodep : option loc) (foundname : option dns_name_t)
    (rdataset sigrdataset : dns_rdataset_t) (l : ldapdb_rdatalist_t) :
  w_heap w !! q = Some (ObjDb d) ->
  impmagic (common d) = LDAPDB_MAGIC ->
  version_ok version ->
  w_ldap w name = (ISC_R_SUCCESS, l) ->
  faultless 4 (w_plan w) ->
  exists result out w',
    find (Some q) name version dns_rdatatype_cname options now nodep foundname rdataset
      sigrdataset w = Ok (result, out) w'
    /\ result <> DNS_R_CNAME
    /\ ((exists c, c ∈ l /\ rdl_type c = dns_rdatatype_cname) ->
        result = ISC_R_SUCCESS /\ out_rdataset out = cname_scan l)
    /\ ((forall c, c ∈ l -> rdl_type c <> dns_rdatatype_cname) ->
        result = DNS_R_NXRRSET /\ out_rdataset out = rdataset).
Proof.
  intros Hq Hm Hv Hl Hpl.
  assert (Hty : dns_rdatatype_cname <> dns_rdatatype_any) by discriminate.
  rewrite (find_run w q d name version dns_rdatatype_cname options now nodep foundname
             rdataset sigrdataset l Hq Hm Hty Hv Hl (faultless_weaken 3 _ Hpl)).
  assert (Hr4 : hd ISC_R_SUCCESS (tail (tail (tail (w_plan w)))) = ISC_R_SUCCESS)
    by (apply (faultless_head 0); auto with prog).
  cbv zeta. rewrite Hr4. cbn [is_success].
  rewrite <- cname_scan_is_type_search.
  destruct (cname_scan l) as [c|] eqn:Ec.
  - eexists _, _, _. split; [reflexivity|]. split; [discriminate|].
    split; [intros _; split; reflexivity|].
    intros Hnone. exfalso.
    destruct (cname_scan_Some _ _ Ec) as [Hin Ht]. exact (Hnone c Hin Ht).
  - eexists _, _, _. split; [reflexivity|]. split; [discriminate|].
    split; [|intros _; split; reflexivity].
    intros Hex. exfalso.
    destruct (cname_scan_present l Hex) as [c' Hc']. congruence.
Qed.

Lemma find_cname_type_is_exact_witness :
  exists result out w',
    find (Some 1%positive) "alias.example." None dns_rdatatype_cname 0 0 None None None None
      (example_world []) = Ok (result, out) w'
    /\ result <> DNS_R_CNAME
    /\ ((exists c, c ∈ [rr_cname] /\ rdl_type c = dns_rdatatype_cname) ->
        result = ISC_R_SUCCESS /\ out_rdataset out = cname_scan [rr_cname])
    /\ ((forall c, c ∈ [rr_cname] -> rdl_type c <> dns_rdatatype_cname) ->
        result = DNS_R_NXRRSET /\ out_rdataset out = None).
Proof.
  apply (find_cname_type_is_exact (example_world []) 1%positive example_db
           "alias.example." None 0 0 None None None None [rr_cname]).
  - reflexivity.
  - reflexivity.
  - left; reflexivity.
  - reflexivity.
  - constructor.
Defined.

(** ** Store construction: every outcome *)

(** [ldapdb_create], read off the plan and the instance manager. *)
Lemma ldapdb_create_plan w m name argc argv0 argv :
  0 < argc ->
  ldapdb_create m name dns_dbtype_zone dns_rdataclass_in argc (argv0 :: argv) (Some None) w =
    let p := fresh (dom (w_heap w)) in
    let r1 := hd ISC_R_SUCCESS (w_plan w) in
    let r2 := hd ISC_R_SUCCESS (tail (w_plan w)) in
    let r3 := hd ISC_R_SUCCESS (tail (tail (w_plan w))) in
    let r4 := hd ISC_R_SUCCESS (tail (tail (tail (w_plan w)))) in
    let pl4 := tail (tail (tail (tail (w_plan w)))) in
    let unwound := EvMemDetach m :: EvMemPut m p :: EvNameFree name :: EvDestroyLock
                     :: EvMutexInit :: EvMemAttach m :: EvNameDup name
                     :: EvMemGet m p :: w_log w in
    if failed r1 then Ok (ISC_R_NOMEMORY, None) (with_plan (tail (w_plan w)) w)
    else if failed r2 then
      Stop InvalidPointer
        {| w_heap := <[p := ObjRaw]> (w_heap w); w_plan := tail (tail (w_plan w));
           w_ldap := w_ldap w; w_manager := w_manager w;
           w_log := EvMemGet m p :: w_log w |}
    else if failed r3 then
      Ok (r3, None)
         {| w_heap := w_heap w; w_plan := tail (tail (tail (w_plan w)));
            w_ldap := w_ldap w; w_manager := w_manager w;
            w_log := EvMemDetach m :: EvMemPut m p :: EvNameFree name
                       :: EvMemAttach m :: EvNameDup name :: EvMemGet m p :: w_log w |}
    else if failed r4 then
      Ok (r4, None)
         {| w_heap := w_heap w; w_plan := pl4; w_ldap := w_ldap w;
            w_manager := w_manager w; w_log := unwound |}
    else if failed (fst (w_manager w argv0)) then
      Ok (fst (w_manager w argv0), None)
         {| w_heap := w_heap w; w_plan := pl4; w_ldap := w_ldap w;
            w_manager := w_manager w; w_log := unwound |}
    else
      Ok (ISC_R_SUCCESS, Some p)
         {| w_heap := <[p := ObjDb (created_store m name (snd (w_manager w argv0)))]>
                        (w_heap w);
            w_plan := pl4; w_ldap := w_ldap w; w_manager := w_manager w;
            w_log := EvMutexInit :: EvMemAttach m :: EvNameDup name
                       :: EvMemGet m p :: w_log w |}.
Proof.
  intros Hargc. cbv zeta.
  assert (Hdel : forall o, delete (fresh (dom (w_heap w)))
                             (<[fresh (dom (w_heap w)) := o]> (w_heap w)) = w_heap w)
    by (intros o; apply delete_insert_id, fresh_unused).
  unfold ldapdb_create.
  rewrite (proj2 (Z.ltb_lt 0 argc) Hargc).
  change (bool_decide (dns_dbtype_zone = dns_dbtype_zone)) with true.
  change (bool_decide (dns_rdataclass_in = dns_rdataclass_in)) with true.
  unfold clean_lock, clean_origin, clean_ldapdb, failed. prog.
  rewrite next_result_eq. prog.
  destruct (is_success (hd ISC_R_SUCCESS (w_plan w))) eqn:E1; prog_cbn; [|reflexivity].
  rewrite next_result_eq. prog.
  destruct (is_success (hd ISC_R_SUCCESS (tail (w_plan w)))) eqn:E2; prog_cbn.
  2:{ rewrite E2. reflexivity. }
  rewrite next_result_eq. prog.
  destruct (is_success (hd ISC_R_SUCCESS (tail (tail (w_plan w))))) eqn:E3; prog_cbn.
  2:{ rewrite E3. prog_cbn. rewrite Hdel. reflexivity. }
  rewrite next_result_eq. prog.
  destruct (is_success (hd ISC_R_SUCCESS (tail (tail (tail (w_plan w)))))) eqn:E4; prog_cbn.
  2:{ rewrite Hdel. reflexivity. }
  destruct (w_manager w argv0) as [rm handle]. prog_cbn.
  destruct (is_success rm) eqn:Em; prog_cbn.
  - rewrite insert_insert_eq. reflexivity.
  - rewrite Hdel. reflexivity.
Qed.

(** X17: a successful [ldapdb_create].  With a valid argument set, no
    failing library call and an instance manager that resolves the
    instance name [argv[0]], create returns ISC_R_SUCCESS and stores in
    [*dbp] a Store at an address that was not in use.  The Store passes
    VALID_LDAPDB, holds one reference, has the class Internet, a copy of
    the origin name and the memory context it was created in, and is bound
    to the handle the manager returned.  The log shows its four
    acquisitions and no release. *)
Theorem ldapdb_create_success (w : world) (m : isc_mem_t) (name : dns_name_t) (argc : Z)
    (argv0 : string) (argv : list string) (handle : ldap_db_t) :
  0 < argc ->
  faultless 4 (w_plan w) ->
  w_manager w argv0 = (ISC_R_SUCCESS, handle) ->
  exists p w',
    ldapdb_create m name dns_dbtype_zone dns_rdataclass_in argc (argv0 :: argv) (Some None) w
    = Ok (ISC_R_SUCCESS, Some p) w'
    /\ w_heap w !! p = None
    /\ w_heap w' = <[p := ObjDb (created_store m name handle)]> (w_heap w)
    /\ VALID_LDAPDB (Some p) w' = Ok true w'
    /\ w_log w' = EvMutexInit :: EvMemAttach m :: EvNameDup name :: EvMemGet m p :: w_log w.
Proof.
  intros Hargc Hpl Hmg.
  rewrite (ldapdb_create_plan w m name argc argv0 argv Hargc). cbv zeta.
  rewrite (faultless_head 3 _ Hpl).
  rewrite (faultless_head 2 _ (faultless_tail _ _ Hpl)).
  rewrite (faultless_head 1 _ (faultless_tail _ _ (faultless_tail _ _ Hpl))).
  rewrite (faultless_head 0 _ (faultless_tail _ _ (faultless_tail _ _ (faultless_tail _ _ Hpl)))).
  rewrite Hmg. cbn [failed is_success negb fst snd].
  eexists _, _. split; [reflexivity|].
  split; [apply fresh_unused|]. split; [reflexivity|].
  split; [|reflexivity].
  unfold VALID_LDAPDB. cbn [w_heap]. rewrite lookup_insert_eq. reflexivity.
Qed.

Lemma ldapdb_create_success_witness :
  exists p w',
    ldapdb_create 1%positive "example." dns_dbtype_zone dns_rdataclass_in 2
      ["ipa"%string; "uri ldap://localhost"%string] (Some None) (empty_world [])
    = Ok (ISC_R_SUCCESS, Some p) w'
    /\ w_heap (empty_world []) !! p = None
    /\ w_heap w' = <[p := ObjDb (created_store 1%positive "example." 7%positive)]>
                     (w_heap (empty_world []))
    /\ VALID_LDAPDB (Some p) w' = Ok true w'
    /\ w_log w' = EvMutexInit :: EvMemAttach 1%positive :: EvNameDup "example."
                    :: EvMemGet 1%positive p :: w_log (empty_world []).
Proof.
  apply (ldapdb_create_success (empty_world []) 1%positive "example." 2 "ipa"
           ["uri ldap://localhost"%string] 7%positive).
  - reflexivity.
  - constructor.
  - reflexivity.
Defined.

(** X18: every failure that [ldapdb_create] reports leaves nothing
    behind.  With a valid argument set, and provided the copy of the
    origin name does not fail, create returns.  Unless it returns
    ISC_R_SUCCESS, [*dbp] stays null, the heap is the heap of the start and
    every acquisition in the log is followed by its release: the log is
    unchanged, or it shows the origin name, the block and the memory
    context taken and released, or the same with the lock initialised and
    destroyed before them.  A failed block allocation is reported as
    ISC_R_NOMEMORY, and ISC_R_SUCCESS is returned only if the instance
    manager resolved [argv[0]]. *)
Theorem ldapdb_create_failure_unwinds (w : world) (m : isc_mem_t) (name : dns_name_t)
    (argc : Z) (argv0 : string) (argv : list string) :
  0 < argc ->
  hd ISC_R_SUCCESS (tail (w_plan w)) = ISC_R_SUCCESS ->
  exists result dbp w',
    ldapdb_create m name dns_dbtype_zone dns_rdataclass_in argc (argv0 :: argv) (Some None) w
    = Ok (result, dbp) w'
    /\ (result <> ISC_R_SUCCESS ->
        dbp = None
        /\ w_heap w' = w_heap w
        /\ (w_log w' = w_log w
            \/ w_log w' = EvMemDetach m :: EvMemPut m (fresh (dom (w_heap w)))
                            :: EvNameFree name
                            :: EvMemAttach m :: EvNameDup name
                            :: EvMemGet m (fresh (dom (w_heap w))) :: w_log w
            \/ w_log w' = EvMemDetach m :: EvMemPut m (fresh (dom (w_heap w)))
                            :: EvNameFree name :: EvDestroyLock
                            :: EvMutexInit :: EvMemAttach m :: EvNameDup name
                            :: EvMemGet m (fresh (dom (w_heap w))) :: w_log w))
    /\ (hd ISC_R_SUCCESS (w_plan w) <> ISC_R_SUCCESS -> result = ISC_R_NOMEMORY)
    /\ (result = ISC_R_SUCCESS -> fst (w_manager w argv0) = ISC_R_SUCCESS).
Proof.
  intros Hargc H2.
  rewrite (ldapdb_create_plan w m name argc argv0 argv Hargc). cbv zeta.
  rewrite H2. cbn [failed is_success negb].
  destruct (failed (hd ISC_R_SUCCESS (w_plan w))) eqn:E1.
  { eexists _, _, _. split; [reflexivity|].
    split; [intros _; split; [reflexivity|]; split; [|left]; destruct w; reflexivity|].
    split; [reflexivity | discriminate]. }
  assert (H1 : hd ISC_R_SUCCESS (w_plan w) = ISC_R_SUCCESS) by (apply failed_not_success, E1).
  destruct (failed (hd ISC_R_SUCCESS (tail (tail (w_plan w))))) eqn:E3.
  { eexists _, _, _. split; [reflexivity|].
    split; [intros _; split; [reflexivity|]; split; [reflexivity | right; left; reflexivity]|].
    split; [intros H; contradiction | ].
    intros H. rewrite H in E3. discriminate E3. }
  destruct (failed (hd ISC_R_SUCCESS (tail (tail (tail (w_plan w)))))) eqn:E4.
  { eexists _, _, _. split; [reflexivity|].
    split; [intros _; split; [reflexivity|]; split; [reflexivity | right; right; reflexivity]|].
    split; [intros H; contradiction | ].
    intros H. rewrite H in E4. discriminate E4. }
  destruct (failed (fst (w_manager w argv0))) eqn:Em.
  { eexists _, _, _. split; [reflexivity|].
    split; [intros _; split; [reflexivity|]; split; [reflexivity | right; right; reflexivity]|].
    split; [intros H; contradiction | ].
    intros H. rewrite H in Em. discriminate Em. }
  eexists _, _, _. split; [reflexivity|].
  split; [intros H; contradiction H; reflexivity|].
  split; [intros H; contradiction | ].
  intros _. apply failed_not_success, Em.
Qed.

Lemma ldapdb_create_failure_unwinds_witness :
  exists result dbp w',
    ldapdb_create 1%positive "example." dns_dbtype_zone dns_rdataclass_in 1 ["ipa"%string]
      (Some None) (empty_world [ISC_R_SUCCESS; ISC_R_SUCCESS; ISC_R_other 34])
    = Ok (result, dbp) w'
    /\ (result <> ISC_R_SUCCESS ->
        dbp = None
        /\ w_heap w' = w_heap (empty_world [ISC_R_SUCCESS; ISC_R_SUCCESS; ISC_R_other 34])
        /\ (w_log w' = w_log (empty_world [ISC_R_SUCCESS; ISC_R_SUCCESS; ISC_R_other 34])
            \/ w_log w'
               = EvMemDetach 1%positive
                   :: EvMemPut 1%positive
                        (fresh (dom (w_heap (empty_world
                                               [ISC_R_SUCCESS; ISC_R_SUCCESS; ISC_R_other 34]))))
                   :: EvNameFree "example."
                   :: EvMemAttach 1%positive :: EvNameDup "example."
                   :: EvMemGet 1%positive
                        (fresh (dom (w_heap (empty_world
                                               [ISC_R_SUCCESS; ISC_R_SUCCESS; ISC_R_other 34]))))
                   :: w_log (empty_world [ISC_R_SUCCESS; ISC_R_SUCCESS; ISC_R_other 34])
            \/ w_log w'
               = EvMemDetach 1%positive
                   :: EvMemPut 1%positive
                        (fresh (dom (w_heap (empty_world
                                               [ISC_R_SUCCESS; ISC_R_SUCCESS; ISC_R_other 34]))))
                   :: EvNameFree "example." :: EvDestroyLock
                   :: EvMutexInit :: EvMemAttach 1%positive :: EvNameDup "example."
                   :: EvMemGet 1%positive
                        (fresh (dom (w_heap (empty_world
                                               [ISC_R_SUCCESS; ISC_R_SUCCESS; ISC_R_other 34]))))
                   :: w_log (empty_world [ISC_R_SUCCESS; ISC_R_SUCCESS; ISC_R_other 34])))
    /\ (hd ISC_R_SUCCESS (w_plan (empty_world [ISC_R_SUCCESS; ISC_R_SUCCESS; ISC_R_other 34]))
        <> ISC_R_SUCCESS -> result = ISC_R_NOMEMORY)
    /\ (result = ISC_R_SUCCESS ->
        fst (w_manager (empty_world [ISC_R_SUCCESS; ISC_R_SUCCESS; ISC_R_other 34]) "ipa")
        = ISC_R_SUCCESS).
Proof.
  apply (ldapdb_create_failure_unwinds
           (empty_world [ISC_R_SUCCESS; ISC_R_SUCCESS; ISC_R_other 34])
           1%positive "example." 1 "ipa" []).
  - reflexivity.
  - reflexivity.
Defined.

(** X19: [ldapdb_create] checks its arguments before it allocates.  An
    argument count of zero, a database type other than zone, a class other
    than Internet, a null [dbp] or a [*dbp] that is not null each stop the
    call at a REQUIRE, whatever the other arguments are, and the world in
    which the call stops is the world of its start: no block was
    allocated, no result of a library call was consumed and nothing was
    logged. *)
Theorem ldapdb_create_validates_arguments (w : world) (m : isc_mem_t) (name : dns_name_t)
    (argv : list string) :
  (forall type rdclass_arg argc dbp,
      argc <= 0 ->
      ldapdb_create m name type rdclass_arg argc argv dbp w = Stop AssertionFailed w)
  /\ (forall type rdclass_arg argc dbp,
         type <> dns_dbtype_zone ->
         ldapdb_create m name type rdclass_arg argc argv dbp w = Stop AssertionFailed w)
  /\ (forall type rdclass_arg argc dbp,
         rdclass_arg <> dns_rdataclass_in ->
         ldapdb_create m name type rdclass_arg argc argv dbp w = Stop AssertionFailed w)
  /\ (forall type rdclass_arg argc dbp,
         slot_is_empty dbp = false ->
         ldapdb_create m name type rdclass_arg argc argv dbp w = Stop AssertionFailed w).
Proof.
  repeat split; intros type rdclass_arg argc dbp H; unfold ldapdb_create.
  - unfold bind at 1. rewrite (proj2 (Z.ltb_ge 0 argc) H). reflexivity.
  - unfold bind at 1. destruct (0 <? argc); [|reflexivity]. cbn [REQUIRE ret].
    unfold bind at 1. rewrite (bool_decide_eq_false_2 _ H). reflexivity.
  - unfold bind at 1. destruct (0 <? argc); [|reflexivity]. cbn [REQUIRE ret].
    unfold bind at 1.
    destruct (bool_decide (type = dns_dbtype_zone)); [|reflexivity]. cbn [REQUIRE ret].
    unfold bind at 1. rewrite (bool_decide_eq_false_2 _ H). reflexivity.
  - unfold bind at 1. destruct (0 <? argc); [|reflexivity]. cbn [REQUIRE ret].
    unfold bind at 1.
    destruct (bool_decide (type = dns_dbtype_zone)); [|reflexivity]. cbn [REQUIRE ret].
    unfold bind at 1.
    destruct (bool_decide (rdclass_arg = dns_rdataclass_in)); [|reflexivity].
    cbn [REQUIRE ret].
    unfold bind at 1. rewrite H. reflexivity.
Qed.

(** Dropping the only reference to a Store at a fresh address. *)
Lemma detach_fresh (h : gmap loc object) pl ld mg lg d :
  impmagic (common d) = LDAPDB_MAGIC ->
  refs d = 1%N ->
  detach (Some (fresh (dom h)))
    {| w_heap := <[fresh (dom h) := ObjDb d]> h;
       w_plan := pl; w_ldap := ld; w_manager := mg; w_log := lg |}
  = Ok None {| w_heap := h; w_plan := pl; w_ldap := ld; w_manager := mg;
               w_log := EvMemDetach (mctx (common d)) :: EvMemPut (mctx (common d)) (fresh (dom h))
                          :: EvNameFree (origin (common d)) :: EvDestroyLock :: lg |}.
Proof.
  intros Hm Hr.
  unfold detach. unfold bind at 1.
  erewrite valid_ldapdb_live; [| cbn [w_heap]; apply lookup_insert_eq | exact Hm].
  prog. rewrite lookup_insert_eq. prog. rewrite Hr.
  change (N.pred 1 =? 0)%N with true. prog_cbn.
  rewrite lookup_insert_eq. unfold free_ldapdb. prog.
  rewrite insert_insert_eq, delete_insert_id by apply fresh_unused. reflexivity.
Qed.

(** X20: a Store that is created and detached again leaves no trace on
    the heap.  After a successful [ldapdb_create] followed by [detach] of
    the returned handle, the handle is null, the heap is the heap of the
    start, and the log pairs each of the four acquisitions with its
    release: lock, origin name, block and memory context. *)
Theorem ldapdb_create_detach_round_trip (w : world) (m : isc_mem_t) (name : dns_name_t)
    (argc : Z) (argv0 : string) (argv : list string) (handle : ldap_db_t) :
  0 < argc ->
  faultless 4 (w_plan w) ->
  w_manager w argv0 = (ISC_R_SUCCESS, handle) ->
  exists w',
    (let* '(result, db) := ldapdb_create m name dns_dbtype_zone dns_rdataclass_in argc
                             (argv0 :: argv) (Some None) in
     let* dbp := detach db in
     ret (result, dbp)) w = Ok (ISC_R_SUCCESS, None) w'
    /\ w_heap w' = w_heap w
    /\ w_log w' = EvMemDetach m :: EvMemPut m (fresh (dom (w_heap w)))
                    :: EvNameFree name :: EvDestroyLock
                    :: EvMutexInit :: EvMemAttach m :: EvNameDup name
                    :: EvMemGet m (fresh (dom (w_heap w))) :: w_log w.
Proof.
  intros Hargc Hpl Hmg.
  unfold bind at 1.
  rewrite (ldapdb_create_plan w m name argc argv0 argv Hargc). cbv zeta.
  rewrite (faultless_head 3 _ Hpl).
  rewrite (faultless_head 2 _ (faultless_tail _ _ Hpl)).
  rewrite (faultless_head 1 _ (faultless_tail _ _ (faultless_tail _ _ Hpl))).
  rewrite (faultless_head 0 _ (faultless_tail _ _ (faultless_tail _ _ (faultless_tail _ _ Hpl)))).
  rewrite Hmg. cbn [failed is_success negb fst snd].
  unfold bind at 1.
  rewrite detach_fresh by reflexivity.
  eexists. split; [reflexivity|]. split; reflexivity.
Qed.

Lemma ldapdb_create_detach_round_trip_witness :
  exists w',
    (let* '(result, db) := ldapdb_create 1%positive "example." dns_dbtype_zone
                             dns_rdataclass_in 1 ["ipa"%string] (Some None) in
     let* dbp := detach db in
     ret (result, dbp)) (example_world []) = Ok (ISC_R_SUCCESS, None) w'
    /\ w_heap w' = w_heap (example_world [])
    /\ w_log w' = EvMemDetach 1%positive
                    :: EvMemPut 1%positive (fresh (dom (w_heap (example_world []))))
                    :: EvNameFree "example." :: EvDestroyLock
                    :: EvMutexInit :: EvMemAttach 1%positive :: EvNameDup "example."
                    :: EvMemGet 1%positive (fresh (dom (w_heap (example_world []))))
                    :: w_log (example_world []).
Proof.
  apply (ldapdb_create_detach_round_trip (example_world []) 1%positive "example." 1 "ipa" []
           7%positive).
  - reflexivity.
  - constructor.
  - reflexivity.
Defined.

(** ** The CNAME loop *)

(** X21: the CNAME loop of [find] stops at the first CNAME entry in list
    order.  It yields [c] exactly when the record-lists split into a
    prefix without any CNAME entry, then [c], a CNAME entry, then the
    rest; entries after the first CNAME are never looked at. *)
Theorem cname_scan_first (l : ldapdb_rdatalist_t) (c : dns_rdatalist_t) :
  cname_scan l = Some c <->
  exists pre post,
    l = pre ++ c :: post
    /\ rdl_type c = dns_rdatatype_cname
    /\ forall x, x ∈ pre -> rdl_type x <> dns_rdatatype_cname.
Proof.
  split.
  - induction l as [|x r IH]; simpl; [discriminate|].
    destruct (rdl_type x =? dns_rdatatype_cname) eqn:E; simpl.
    + intros [= <-]. exists [], r. split; [reflexivity|].
      split; [apply Z.eqb_eq, E|]. intros y Hy. inversion Hy.
    + intros H. destruct (IH H) as (pre & post & -> & Ht & Hpre).
      exists (x :: pre), post. split; [reflexivity|]. split; [exact Ht|].
      intros y Hy. apply elem_of_cons in Hy as [-> | Hy]; [apply Z.eqb_neq, E | auto].
  - intros (pre & post & -> & Ht & Hpre).
    induction pre as [|x pre IH]; simpl.
    + rewrite (proj2 (Z.eqb_eq _ _) Ht). reflexivity.
    + rewrite (proj2 (Z.eqb_neq _ _) (Hpre x ltac:(left))). simpl.
      apply IH. intros y Hy. apply Hpre. right. exact Hy.
Qed.

(** ** Driver registration *)

(** X22: registering the driver twice is not an error.  If
    [dns_db_register] reports ISC_R_EXISTS, [dynamic_driver_init] goes on
    exactly as it does after ISC_R_SUCCESS: it creates the LDAP instance
    and adds it to the manager, with the same result and the same final
    state. *)
Theorem dynamic_driver_init_tolerates_registered
    (reg reg' : string -> isc_mem_t -> M isc_result_t)
    (new_ldap_db : isc_mem_t -> ptr -> list string -> M (isc_result_t * option ldap_db_t))
    (destroy_ldap_db : ldap_db_t -> M unit)
    (manager_add_db_instance :
       isc_mem_t -> string -> option ldap_db_t -> ptr -> M isc_result_t)
    (m : isc_mem_t) (name : string) (argv : list string) (view zmgr : ptr) (w w1 : world) :
  reg ldapdb_impname m w = Ok ISC_R_EXISTS w1 ->
  reg' ldapdb_impname m w = Ok ISC_R_SUCCESS w1 ->
  dynamic_driver_init reg new_ldap_db destroy_ldap_db manager_add_db_instance
    (Some m) (Some name) (Some argv) view zmgr w
  = dynamic_driver_init reg' new_ldap_db destroy_ldap_db manager_add_db_instance
      (Some m) (Some name) (Some argv) view zmgr w.
Proof.
  intros Hreg Hreg'.
  unfold dynamic_driver_init.
  destruct view as [v|]; [|reflexivity].
  unfold bind, REQUIRE, ret. cbn.
  rewrite Hreg, Hreg'. reflexivity.
Qed.

(** A registry that knows the driver already, one that does not, and
    collaborators that log nothing and succeed. *)
Lemma dynamic_driver_init_tolerates_registered_witness :
  dynamic_driver_init (fun _ _ => ret ISC_R_EXISTS)
    (fun _ _ _ => ret (ISC_R_SUCCESS, Some 7%positive)) (fun _ => ret tt)
    (fun _ _ _ _ => ret ISC_R_SUCCESS)
    (Some 1%positive) (Some "ipa"%string) (Some ["uri ldap://localhost"%string])
    (Some 3%positive) None (empty_world [])
  = dynamic_driver_init (fun _ _ => ret ISC_R_SUCCESS)
      (fun _ _ _ => ret (ISC_R_SUCCESS, Some 7%positive)) (fun _ => ret tt)
      (fun _ _ _ _ => ret ISC_R_SUCCESS)
      (Some 1%positive) (Some "ipa"%string) (Some ["uri ldap://localhost"%string])
      (Some 3%positive) None (empty_world []).
Proof.
  apply (dynamic_driver_init_tolerates_registered
           (fun _ _ => ret ISC_R_EXISTS) (fun _ _ => ret ISC_R_SUCCESS)
           (fun _ _ _ => ret (ISC_R_SUCCESS, Some 7%positive)) (fun _ => ret tt)
           (fun _ _ _ _ => ret ISC_R_SUCCESS)
           1%positive "ipa" ["uri ldap://localhost"%string] (Some 3%positive) None
           (empty_world []) (empty_world [])).
  - reflexivity.
  - reflexivity.
Defined.

(** X23: [dynamic_driver_init] gives up cleanly.  With its pointer
    arguments set: a registration failure other than ISC_R_EXISTS is
    returned at once, before any LDAP instance is created.  After a
    registration that succeeded, a failure of [new_ldap_db] or of
    [manager_add_db_instance] is returned after [destroy_ldap_db] has run
    on the instance, if one was created (and nothing is destroyed if none
    was); when both succeed the result is ISC_R_SUCCESS and the instance is
    kept. *)
Theorem dynamic_driver_init_gives_up_cleanly
    (reg : string -> isc_mem_t -> M isc_result_t)
    (new_ldap_db : isc_mem_t -> ptr -> list string -> M (isc_result_t * option ldap_db_t))
    (destroy_ldap_db : ldap_db_t -> M unit)
    (manager_add_db_instance :
       isc_mem_t -> string -> option ldap_db_t -> ptr -> M isc_result_t)
    (m : isc_mem_t) (name : string) (argv : list string) (v : loc) (zmgr : ptr)
    (w w1 : world) (r : isc_result_t) :
  reg ldapdb_impname m w = Ok r w1 ->
  let init := dynamic_driver_init reg new_ldap_db destroy_ldap_db manager_add_db_instance
                (Some m) (Some name) (Some argv) (Some v) zmgr w in
  (r <> ISC_R_SUCCESS -> r <> ISC_R_EXISTS -> init = Ok r w1)
  /\ (r = ISC_R_SUCCESS \/ r = ISC_R_EXISTS ->
      forall r2 h w2,
        new_ldap_db m (Some v) argv w1 = Ok (r2, h) w2 ->
        (r2 <> ISC_R_SUCCESS ->
         (forall x w2', h = Some x -> destroy_ldap_db x w2 = Ok tt w2' -> init = Ok r2 w2')
         /\ (h = None -> init = Ok r2 w2))
        /\ (r2 = ISC_R_SUCCESS ->
            forall r3 w3,
              manager_add_db_instance m name h zmgr w2 = Ok r3 w3 ->
              (r3 = ISC_R_SUCCESS -> init = Ok ISC_R_SUCCESS w3)
              /\ (r3 <> ISC_R_SUCCESS ->
                  (forall x w3', h = Some x -> destroy_ldap_db x w3 = Ok tt w3' ->
                                 init = Ok r3 w3')
                  /\ (h = None -> init = Ok r3 w3)))).
Proof.
  intros Hreg init. subst init.
  unfold dynamic_driver_init, init_cleanup, bind, REQUIRE, ret. cbn.
  rewrite Hreg.
  split.
  - intros Hs He. rewrite (bool_decide_eq_false_2 _ He).
    rewrite (not_success_failed r Hs). reflexivity.
  - intros Hr.
    assert (Hgo : failed (if bool_decide (r = ISC_R_EXISTS) then ISC_R_SUCCESS else r) = false).
    { destruct Hr as [-> | ->]; reflexivity. }
    rewrite Hgo.
    intros r2 h w2 Hnew. rewrite Hnew. split.
    + intros Hf. rewrite (not_success_failed r2 Hf). split.
      * intros x w2' -> Hd. rewrite Hd. reflexivity.
      * intros ->. reflexivity.
    + intros ->. cbn [failed is_success negb].
      intros r3 w3 Hadd. rewrite Hadd. split.
      * intros ->. reflexivity.
      * intros Hf. rewrite (not_success_failed r3 Hf). split.
        -- intros x w3' -> Hd. rewrite Hd. reflexivity.
        -- intros ->. reflexivity.
Qed.

Lemma dynamic_driver_init_gives_up_cleanly_witness :
  let init := dynamic_driver_init (fun _ _ => ret ISC_R_SUCCESS)
                (fun _ _ _ => ret (ISC_R_SUCCESS, Some 7%positive))
                (fun x => emit (EvMemDetach x))
                (fun _ _ _ _ => ret ISC_R_NOMEMORY)
                (Some 1%positive) (Some "ipa"%string) (Some ["uri ldap://localhost"%string])
                (Some 3%positive) None (empty_world []) in
  init = Ok ISC_R_NOMEMORY (with_log [EvMemDetach 7%positive] (empty_world [])).
Proof.
  cbv zeta.
  destruct (dynamic_driver_init_gives_up_cleanly
              (fun _ _ => ret ISC_R_SUCCESS)
              (fun _ _ _ => ret (ISC_R_SUCCESS, Some 7%positive))
              (fun x => emit (EvMemDetach x))
              (fun _ _ _ _ => ret ISC_R_NOMEMORY)
              1%positive "ipa" ["uri ldap://localhost"%string] 3%positive None
              (empty_world []) (empty_world []) ISC_R_SUCCESS eq_refl) as [_ H].
  destruct (H (or_introl eq_refl) ISC_R_SUCCESS (Some 7%positive) (empty_world []) eq_refl)
    as [_ H2].
  destruct (H2 eq_refl ISC_R_NOMEMORY (empty_world []) eq_refl) as [_ H3].
  destruct (H3 ltac:(discriminate)) as [H4 _].
  exact (H4 7%positive _ eq_refl eq_refl).
Defined.
